(* ===== verification/_CoqProject ===== *)
-Q . S2P
Prelude.v
Js.v
Store.v
Crypto.v
Fixtures.v
Auth.v
Email.v
Intake.v
Registry.v
Settings.v
Admin.v
System.v
Responses.v
Client.v
Navigation.v
MessagesPage.v
LoginPage.v
ClientsPage.v
OrdersPage.v
SettingsPage.v
Dashboard.v
