(* ===== verification/Prelude.v ===== *)
(** * A verification library for the Olio di Valeria administrative back-office

    The program is a Next.js application (TypeScript, [src/]): public
    pages where customers order olive oil or write a message, and an
    administrator's back-office. Its server side is a set of route
    handlers under [src/app/api], each an [async] function that reads a
    JSON body, sends requests to a Supabase (PostgREST) database, may call
    [bcryptjs], [jsonwebtoken] and a nodemailer transport
    ([src/lib/auth.ts], [src/lib/email.tsx]), and answers with
    [NextResponse.json]. Handlers share no state: they interact only
    through the database.

    This development is a shallow embedding of those handlers. Each is a
    Rocq function in a state-and-exception monad [App] whose state, the
    [World], is the database, the clock, the SMTP outbox, a source of
    salts and a fault script; [try]/[catch] is [sm_catch]. The files,
    in dependency order:

    - [Prelude] (this file): the monad [SM] with its [x <- c; k]
      notation (stdpp's [MBind]), its run lemmas and the hint databases
      [backend] (the constraint lemmas of [Store]) and [backend_rw] (its
      table lemmas).
    - [Js]: the JavaScript values of a parsed body ([js]) with the
      semantics the code uses: truthiness, [String(x)], property access,
      [includes], [Number.parseInt]; a [Countable] instance; the round
      trip [parse_int (num_to_string n) = Some n].
    - [Store]: the database as a record of five tables (rows are
      association lists, last binding wins), the PostgREST operations the
      handlers issue ([select_single], [select_ordered], [insert],
      [update], [update_single], [upsert_clients], [delete]), the unique
      constraint on [clients.email] and its preservation by every
      operation; the [World] and the request [sb]. PostgREST itself is
      not in the repository: these are modelled from the spec and the
      library's documented behaviour.
    - [Crypto]: bcryptjs and jsonwebtoken as type classes [Bcrypt] and
      [Jwt] whose laws are what the code relies on (bcrypt reads the first
      72 bytes of a password; a token decodes under its own key only),
      the environment [Env], the monadic wrappers the code calls, and
      reference instances ([Crypto.Reference]) so that handlers compute.
    - [Fixtures]: provisioned databases ([db0], [db1]) for the witnesses.
    - [Auth]: [authenticateAdmin], [verifyAdminToken],
      [updateAdminPassword], [updateNotificationEmail] of
      [src/lib/auth.ts] and the login route.
    - [Email]: the two notification dispatchers of [src/lib/email.tsx]
      with their templates.
    - [Intake]: [POST /api/orders], [POST /api/contact] and the
      administrator's [POST] routes for orders and messages.
    - [Registry]: the abstract contract of the clients table, a stdpp
      [gmap] from email to attributes, and the abstraction function
      from the table to it.
    - [Settings]: the settings, password and email routes and the
      maintenance routes [fix-password], [debug] and [test-auth].
    - [Admin]: the record routes: the list [GET]s, client creation, and
      [PUT]/[DELETE] on [orders], [messages] and [clients] by id.
    - [System]: every route as a [Request], the router [handle], the step
      relation (a request, or the clock moving on) and its reachable
      worlds.
    - [Responses]: the predicates [results] and [answers] on
      computations, their rules for [≫=], [mret] and [sm_catch], and the
      tactic [route_tac] that carries them through a route.
    - [Client]: the browser's [fetch], through which the pages below call
      [System.handle], so that a page and the routes run as one program,
      and the browser's constraint validation of forms.
    - [Navigation]: the URLs. Next.js's app router ([dispatch]: the
      route table of [src/app/api], 404, 405, [HEAD], [OPTIONS], the
      trailing-slash redirect); the browser's location and cookie;
      the administrator sidebar ([src/components/admin/sidebar.tsx]); the
      landing page ([src/app/page.tsx]: its link and the endpoints it
      documents).
    - [MessagesPage], [LoginPage], [ClientsPage], [OrdersPage],
      [SettingsPage]: the administrator's React pages under
      [src/app/admin]: each a record of its [useState] cells (in a
      Module [Messages], [Login], [Clients], [Orders], since the pages
      share handler names such as [handleSubmit]) and one
      function [page -> App page] per event handler (the inputs'
      [onChange] included), and each form's submit behind the browser's
      constraint validation ([required], [minLength], [min] and the HTML
      standard's e-mail syntax of [type="email"], in [Client]), and what
      each page shows as data (its cards, banners and empty-list texts,
      with the shared [jsx_text] and [color_of]). [OrdersPage] also
      models its form as a state machine: every input's and select's
      change handler is a [FormEvent], [offered] says which values the
      selects offer, and [form_step] is the step relation. [LoginPage]'s handlers
      also act on the browser's cookie and location ([Navigation.Browser]).
    - [Dashboard]: the dashboard server component: four selects, and
      every figure it shows computed from them, the widths of its bars
      included.

    What the theorems show, by group (the claims C1.. are numbered in
    the doc comment of each theorem):
    - login: wrong credentials of every kind get one identical 401 and
      change nothing; right credentials get a token that verifies to the
      administrator's id and email for exactly 24 hours; a password that
      is not a string reveals whether an email is registered.
    - intake: a valid order or message is recorded with its default
      status whatever the customer upsert and notification do afterwards;
      invalid sizes and request types are refused before any write; the
      quantity is not checked to be positive.
    - notification: [nodemailer.createTransporter] does not exist, so no
      notification is ever sent.
    - settings and maintenance: a wrong current password changes
      nothing; a right one rotates the hash with no length check; any
      truthy value becomes the notification email; [fix-password] resets
      the password to the published [662002] without credentials and
      returns the hash; [debug] and [test-auth] disclose whether that
      password works.
    - records: [PUT] writes any column of its body, is refused on an
      absent id or a duplicate client email; [DELETE] of an absent id
      answers success; the lists are complete and ordered.
    - system: from a provisioned database, every reachable world keeps
      unique client emails, one administrator and a string hash (by rule
      induction on the step relation, each handler discharged by the
      [preserve] tactic), so a login with string credentials never
      answers 500; two orders of one customer leave one client row,
      whose phone the second order overwrites even with [null].
    - registry: [POST /api/orders] refines [reg_upsert] on the registry
      of customers: an accepted order binds its email to the email,
      phone and name the route sends, [null] included, over what was
      recorded; every other email keeps its attributes.
    - landing page: the storefront endpoints it documents are served by
      the route files, and the catalogue lists the products with their
      sizes.
    - answers: every request to every route is answered, under every
      fault script; no exception escapes a route.
    - pages: in every reachable world, "Fix Password Hash" then "Accedi"
      on the login page as it loads gives anyone an administrator token
      valid for 24 hours; opening a new message marks it read while its
      dialog still shows the old status; saving an order's edit dialog
      reverts a status changed in the meantime and turns a [null] phone
      or note into [""]; every sequence of form events from "Nuovo
      Ordine" keeps the order form consistent (an invariant of
      [form_step], by induction on its closure) while submitting it
      stores the form as it is, an empty product and size included; the clients search keeps exactly the clients one
      of whose fields contains the term, and throws on a [null] email;
      the password form sends nothing unless the browser's checks pass
      and the confirmation matches; loading and saving the email form
      stores back the same address.
    - dashboard: the totals and per-status and per-type counts are those
      of the tables; the ranking lists every product with its number of
      orders and total quantity in decreasing order (stdpp's
      [merge_sort] standing for the stable [Array.prototype.sort]); a
      failed orders request is shown as an empty table; every bar is a
      number (never [NaN], by the page's [length > 0] guard) between 0%
      and 100% and a section's bars add up to at most 100%, under every
      fault script; and letting time
      pass always empties the recent orders (reachability through the
      clock rule of [step]).

    Modelling choices. Numbers are integers ([Z]): the code computes
    with fractions only for the dashboard's bar widths, which are exact
    rationals ([Q]) here where JavaScript uses doubles; with counts at
    most the total, both lie between 0 and 100. Timestamps are the clock's value
    ([timestamp]). Each external request consumes one entry of the fault
    script ([true]: it fails, changing nothing), so every interleaving of
    failures is covered by quantifying over the script. No definition
    runs on fuel: every handler is a finite composition, and [Js]'s
    parsers recurse on the input string.

    A page's handler runs to completion before the next event: React
    event handlers and the [await]s in them are modelled in program
    order, and the interleavings the theorems consider are whole
    requests of other clients between two handlers (the [OrdersPage]
    witness). The network between browser and server delivers every
    request; the requests from the server to the database may fail.

    Not modelled: the JSX markup of the pages (layout, styling, icons,
    the landing page's feature cards: text with no behaviour; what the
    pages show is modelled as data: cards, banners, empty-list texts,
    bar widths), the dates the lists show ([toLocaleDateString]:
    timestamps are clock values here, not ISO strings),
    [next.config.mjs] (build configuration), [console.log] (no effect on
    state), the Supabase client construction, and the SMTP protocol
    beyond accepting or rejecting a mail. *)

From stdpp Require Export base strings list decidable.
From Stdlib Require Export ZArith.

Declare Scope backend_scope.
Delimit Scope backend_scope with be.

(** ** The effect of a request handler

    A Next.js route handler is an [async] function: it awaits calls to
    external services (the Supabase database, the SMTP transport), may
    throw, and catches exceptions with [try]/[catch]. We model it in a
    state-and-exception monad: the state is the world the handler sees
    (database, outbox, clock, fault script), and an uncaught exception is
    an [outcome] of its own, so that the [catch] of the route handler is
    an explicit combinator. *)

Inductive outcome (E A : Type) : Type :=
| Ret (a : A)
| Throw (e : E).
Arguments Ret {E A} a.
Arguments Throw {E A} e.

Definition SM (S E A : Type) : Type := S -> S * outcome E A.

#[export] Instance sm_ret {S E} : MRet (SM S E) :=
  fun A a s => (s, Ret a).

#[export] Instance sm_bind {S E} : MBind (SM S E) :=
  fun A B f c s =>
    match c s with
    | (s', Ret a) => f a s'
    | (s', Throw e) => (s', Throw e)
    end.

Section Monad.
Context {S E : Type}.

Definition sm_throw {A} (e : E) : SM S E A := fun s => (s, Throw e).

(** [try { c } catch (e) { h(e) }] *)
Definition sm_catch {A} (c : SM S E A) (h : E -> SM S E A) : SM S E A :=
  fun s =>
    match c s with
    | (s', Ret a) => (s', Ret a)
    | (s', Throw e) => h e s'
    end.

Definition sm_get : SM S E S := fun s => (s, Ret s).
Definition sm_put (s : S) : SM S E unit := fun _ => (s, Ret tt).
Definition sm_modify (f : S -> S) : SM S E unit := fun s => (f s, Ret tt).

Lemma sm_bind_ret_l {A B} (a : A) (f : A -> SM S E B) :
  (mret a ≫= f) = f a.
Proof. reflexivity. Qed.

Lemma sm_bind_run {A B} (c : SM S E A) (f : A -> SM S E B) s :
  (c ≫= f) s =
  match c s with
  | (s', Ret a) => f a s'
  | (s', Throw e) => (s', Throw e)
  end.
Proof. reflexivity. Qed.

Lemma sm_catch_run {A} (c : SM S E A) h s :
  sm_catch c h s =
  match c s with
  | (s', Ret a) => (s', Ret a)
  | (s', Throw e) => h e s'
  end.
Proof. reflexivity. Qed.

(** A computation whose every run returns normally makes its [catch]
    handler dead code. *)
Lemma sm_catch_ret {A} (c : SM S E A) h s s' a :
  c s = (s', Ret a) -> sm_catch c h s = (s', Ret a).
Proof. intros Hc. by rewrite sm_catch_run, Hc. Qed.

Lemma sm_bind_ret {A B} (c : SM S E A) (f : A -> SM S E B) s s' a :
  c s = (s', Ret a) -> (c ≫= f) s = f a s'.
Proof. intros Hc. by rewrite sm_bind_run, Hc. Qed.

Lemma sm_bind_throw {A B} (c : SM S E A) (f : A -> SM S E B) s s' e :
  c s = (s', Throw e) -> (c ≫= f) s = (s', Throw e).
Proof. intros Hc. by rewrite sm_bind_run, Hc. Qed.
End Monad.

(** ** Automation *)

Create HintDb backend.
Create Rewrite HintDb backend_rw.


