(* ===== verification/Js.v ===== *)
(** * JavaScript values as the route handlers see them

    The handlers read their input with [await request.json()] and pass
    the fields to the database, to template strings and to [bcrypt]
    without type checks. This file models the values [JSON.parse] can
    return (plus [undefined], the value of an absent field), and the
    fragment of JavaScript semantics the handlers rely on: truthiness
    ([!x], [x || y]), property access, [String(x)] and template
    interpolation, [Array.prototype.includes] and [Number.parseInt].
    JSON numbers are modelled as integers ([Z]); strings as byte strings. *)

From S2P Require Import Prelude.
From stdpp Require Import countable.
From Stdlib Require Import Ascii DecimalString DecimalPos.

Open Scope string_scope.

#[warnings="-register-all"]
Inductive js : Type :=
| JUndef
| JNull
| JBool (b : bool)
| JNum (n : Z)
| JStr (s : string)
| JArr (l : list js)
| JObj (fields : list (string * js)).

(** ** Truthiness: [!x] is [negb (truthy x)] *)
Definition truthy (v : js) : bool :=
  match v with
  | JUndef | JNull => false
  | JBool b => b
  | JNum n => negb (Z.eqb n 0)
  | JStr s => negb (String.eqb s "")
  | JArr _ | JObj _ => true
  end.

(** [a || b] *)
Definition js_or (a b : js) : js := if truthy a then a else b.

(** ** [String(x)], as used by template literals and URL filters *)

(** [Number.prototype.toString] on an integer: the decimal digits. *)
Definition num_to_string (n : Z) : string :=
  NilZero.string_of_int (Z.to_int n).

Fixpoint js_to_string (v : js) : string :=
  match v with
  | JUndef => "undefined"
  | JNull => "null"
  | JBool true => "true"
  | JBool false => "false"
  | JNum n => num_to_string n
  | JStr s => s
  | JArr l =>
      (* [Array.prototype.join(",")]: null and undefined become "" *)
      let fix join (l : list js) : string :=
        match l with
        | [] => ""
        | [x] => match x with JUndef | JNull => "" | _ => js_to_string x end
        | x :: r =>
            (match x with JUndef | JNull => "" | _ => js_to_string x end)
              ++ "," ++ join r
        end in
      join l
  | JObj _ => "[object Object]"
  end.

(** ** Property access [v.k]

    [None] is the [TypeError] thrown when [v] is [null] or [undefined];
    a missing property reads as [undefined]. [JSON.parse] keeps the last
    of duplicated keys, so the lookup takes the last binding. *)
Fixpoint assoc_last (k : string) (l : list (string * js)) : option js :=
  match l with
  | [] => None
  | (k', v) :: r =>
      match assoc_last k r with
      | Some w => Some w
      | None => if String.eqb k k' then Some v else None
      end
  end.

Definition js_get (v : js) (k : string) : option js :=
  match v with
  | JUndef | JNull => None
  | JObj l => Some (default JUndef (assoc_last k l))
  | _ => Some JUndef
  end.

(** [v?.k]: optional chaining never throws. *)
Definition js_get_opt (v : js) (k : string) : js :=
  default JUndef (js_get v k).

(** ** Object literals after [JSON.stringify]: undefined fields vanish *)
Definition is_defined (v : js) : bool :=
  match v with JUndef => false | _ => true end.

Definition json_fields (l : list (string * js)) : list (string * js) :=
  List.filter (fun kv => is_defined kv.2) l.

Definition jobj (l : list (string * js)) : js := JObj (json_fields l).

(** ** [SameValueZero], the equality of [Array.prototype.includes]

    Two distinct results of [JSON.parse] never share an array or object
    identity, so such values are never equal. *)
Definition same_value_zero (a b : js) : bool :=
  match a, b with
  | JUndef, JUndef | JNull, JNull => true
  | JBool x, JBool y => Bool.eqb x y
  | JNum x, JNum y => Z.eqb x y
  | JStr x, JStr y => String.eqb x y
  | _, _ => false
  end.

(** [arr.includes(x)]; [None] is the [TypeError] of a non-array receiver
    without an [includes] method. *)
Definition js_includes (arr : js) (x : js) : option bool :=
  match arr with
  | JArr l => Some (existsb (same_value_zero x) l)
  | _ => None
  end.

(** [["a"; "b"].includes(x)] on a literal array of strings *)
Definition includes_str (l : list string) (x : js) : bool :=
  existsb (fun s => same_value_zero x (JStr s)) l.

(** ** [Number.parseInt(x)]: [None] is [NaN] *)

Definition is_js_space (c : Ascii.ascii) : bool :=
  match Ascii.nat_of_ascii c with
  | 9 | 10 | 11 | 12 | 13 | 32 => true
  | _ => false
  end.

Fixpoint trim_start (s : string) : string :=
  match s with
  | String c r => if is_js_space c then trim_start r else s
  | EmptyString => EmptyString
  end.

(** The value of a digit in radix 36 notation. *)
Definition digit_value (c : Ascii.ascii) : option Z :=
  let n := Ascii.nat_of_ascii c in
  if (48 <=? n)%nat && (n <=? 57)%nat then Some (Z.of_nat n - 48)%Z
  else if (97 <=? n)%nat && (n <=? 122)%nat then Some (Z.of_nat n - 87)%Z
  else if (65 <=? n)%nat && (n <=? 90)%nat then Some (Z.of_nat n - 55)%Z
  else None.

Definition radix_digit (radix : Z) (c : Ascii.ascii) : option Z :=
  match digit_value c with
  | Some d => if (d <? radix)%Z then Some d else None
  | None => None
  end.

(** Read digits as long as they are digits of [radix]: the result is
    [None] when the first character is not one. *)
Fixpoint read_digits (radix acc : Z) (started : bool) (s : string) : option Z :=
  match s with
  | String c r =>
      match radix_digit radix c with
      | Some d => read_digits radix (acc * radix + d)%Z true r
      | None => if started then Some acc else None
      end
  | EmptyString => if started then Some acc else None
  end.

(** The digits after the sign: a [0x] or [0X] prefix selects radix 16. *)
Definition parse_magnitude (s : string) : option Z :=
  let '(radix, s) :=
    match s with
    | String c0 (String c1 r) =>
        if Ascii.eqb c0 "0"%char && (Ascii.eqb c1 "x"%char || Ascii.eqb c1 "X"%char)
        then (16%Z, r) else (10%Z, s)
    | _ => (10%Z, s)
    end in
  read_digits radix 0 false s.

Definition parse_int (s : string) : option Z :=
  let s := trim_start s in
  let '(sign, s) :=
    match s with
    | String c r =>
        if Ascii.eqb c "-"%char then ((-1)%Z, r)
        else if Ascii.eqb c "+"%char then (1%Z, r)
        else (1%Z, s)
    | EmptyString => (1%Z, s)
    end in
  match parse_magnitude s with
  | Some n => Some (sign * n)%Z
  | None => None
  end.

Definition number_parseInt (v : js) : option Z := parse_int (js_to_string v).

(** [Number.parseInt(x) || 1]: [NaN] and [0] are falsy. *)
Definition parseInt_or_1 (v : js) : Z :=
  match number_parseInt v with
  | Some n => if Z.eqb n 0 then 1%Z else n
  | None => 1%Z
  end.

(** The value of a decimal digit sequence read left to right from [acc];
    used to relate [String(n)] and [Number.parseInt]. *)
Fixpoint uint_value (acc : Z) (u : Decimal.uint) : Z :=
  match u with
  | Decimal.Nil => acc
  | Decimal.D0 l => uint_value (acc * 10) l
  | Decimal.D1 l => uint_value (acc * 10 + 1) l
  | Decimal.D2 l => uint_value (acc * 10 + 2) l
  | Decimal.D3 l => uint_value (acc * 10 + 3) l
  | Decimal.D4 l => uint_value (acc * 10 + 4) l
  | Decimal.D5 l => uint_value (acc * 10 + 5) l
  | Decimal.D6 l => uint_value (acc * 10 + 6) l
  | Decimal.D7 l => uint_value (acc * 10 + 7) l
  | Decimal.D8 l => uint_value (acc * 10 + 8) l
  | Decimal.D9 l => uint_value (acc * 10 + 9) l
  end%Z.

(** ** [String.prototype.toLowerCase] and [String.prototype.includes]

    Strings are byte strings: [toLowerCase] is modelled on the ASCII
    letters, which is what it does on ASCII text. *)
Definition ascii_lower (c : Ascii.ascii) : Ascii.ascii :=
  let n := Ascii.nat_of_ascii c in
  if (65 <=? n)%nat && (n <=? 90)%nat then Ascii.ascii_of_nat (n + 32) else c.

Fixpoint to_lower (s : string) : string :=
  match s with
  | EmptyString => EmptyString
  | String c r => String (ascii_lower c) (to_lower r)
  end.

(** [s.includes(t)]: [t] starts at some position of [s]. *)
Fixpoint str_includes (s t : string) : bool :=
  String.prefix t s || match s with EmptyString => false | String _ r => str_includes r t end.

(** ** Nested induction on values *)

Section js_ind.
Variable P : js -> Prop.
Hypothesis H_undef : P JUndef.
Hypothesis H_null : P JNull.
Hypothesis H_bool : ∀ b, P (JBool b).
Hypothesis H_num : ∀ n, P (JNum n).
Hypothesis H_str : ∀ s, P (JStr s).
Hypothesis H_arr : ∀ l, Forall P l -> P (JArr l).
Hypothesis H_obj : ∀ l, Forall (fun kv => P kv.2) l -> P (JObj l).

Fixpoint js_ind_nested (v : js) : P v :=
  match v with
  | JUndef => H_undef
  | JNull => H_null
  | JBool b => H_bool b
  | JNum n => H_num n
  | JStr s => H_str s
  | JArr l =>
      H_arr l ((fix go (l : list js) : Forall P l :=
                  match l with
                  | [] => Forall_nil_2 _
                  | x :: r => Forall_cons_2 _ x r (js_ind_nested x) (go r)
                  end) l)
  | JObj l =>
      H_obj l ((fix go (l : list (string * js)) : Forall (fun kv => P kv.2) l :=
                  match l with
                  | [] => Forall_nil_2 _
                  | kv :: r => Forall_cons_2 _ kv r (js_ind_nested kv.2) (go r)
                  end) l)
  end.
End js_ind.

(** ** Values as trees, for decidable equality and a countable encoding *)

Fixpoint js_to_tree (v : js) : gen_tree (Z + string) :=
  match v with
  | JUndef => GenNode 0 []
  | JNull => GenNode 1 []
  | JBool b => GenNode (if b then 2 else 3) []
  | JNum n => GenLeaf (inl n)
  | JStr s => GenLeaf (inr s)
  | JArr l => GenNode 4 (map js_to_tree l)
  | JObj l => GenNode 5 (map (fun kv => GenNode 6 [GenLeaf (inr kv.1); js_to_tree kv.2]) l)
  end.

Fixpoint js_of_tree (t : gen_tree (Z + string)) : js :=
  match t with
  | GenLeaf (inl n) => JNum n
  | GenLeaf (inr s) => JStr s
  | GenNode 0 [] => JUndef
  | GenNode 1 [] => JNull
  | GenNode 2 [] => JBool true
  | GenNode 3 [] => JBool false
  | GenNode 4 ts => JArr (map js_of_tree ts)
  | GenNode 5 ts =>
      JObj (map (fun t => match t with
                          | GenNode 6 [GenLeaf (inr k); v] => (k, js_of_tree v)
                          | _ => ("", JUndef)
                          end) ts)
  | _ => JUndef
  end.

Lemma js_of_to_tree v : js_of_tree (js_to_tree v) = v.
Proof.
  induction v as [| | [] | | | l IH | l IH] using js_ind_nested; simpl; try done.
  - f_equal. rewrite map_map. induction IH; simpl; [done|]. by f_equal.
  - f_equal. rewrite map_map. induction IH as [|[k x] l Hx _ IHl]; simpl; [done|].
    simpl in Hx. by rewrite Hx, IHl.
Qed.

#[export] Instance js_eq_dec : EqDecision js.
Proof.
  refine (fun x y => match decide (js_to_tree x = js_to_tree y) with
                     | left H => left _ | right H => right _ end).
  - by rewrite <-(js_of_to_tree x), <-(js_of_to_tree y), H.
  - intros ->. by apply H.
Defined.

#[export] Instance js_countable : Countable js :=
  inj_countable' js_to_tree js_of_tree js_of_to_tree.


(** ** [Number.parseInt(String(n))] gives [n] back *)

Lemma read_digits_uint u acc started :
  u <> Decimal.Nil \/ started = true ->
  read_digits 10 acc started (NilEmpty.string_of_uint u) = Some (uint_value acc u).
Proof.
  revert acc started.
  induction u; intros acc started Hu;
    [destruct Hu as [Hu | ->]; done|..];
    simpl; rewrite IHu by auto; do 2 f_equal;
    match goal with
    | |- context [(Z.of_nat (nat_of_ascii ?c) - 48)%Z] =>
        let v := eval vm_compute in (Z.of_nat (nat_of_ascii c) - 48)%Z in
        change (Z.of_nat (nat_of_ascii c) - 48)%Z with v
    end; lia.
Qed.

Lemma uint_value_pos u p :
  uint_value (Zpos p) u = Zpos (Pos.of_uint_acc u p).
Proof.
  revert p. induction u; intros p; simpl; try done; rewrite <-IHu; f_equal; lia.
Qed.

Lemma uint_value_zero u : uint_value 0 u = Z.of_N (Pos.of_uint u).
Proof.
  induction u; simpl; try done; rewrite <-uint_value_pos; f_equal.
Qed.

Lemma uint_string_digits u c r :
  NilEmpty.string_of_uint u = String c r -> is_js_space c = false /\ Ascii.eqb c "-"%char = false /\ Ascii.eqb c "+"%char = false /\ Ascii.eqb c "x"%char = false /\ Ascii.eqb c "X"%char = false.
Proof. destruct u; simpl; intros [= <- _]; done. Qed.

Lemma parse_magnitude_uint u :
  u <> Decimal.Nil ->
  parse_magnitude (NilEmpty.string_of_uint u) = Some (Z.of_N (Pos.of_uint u)).
Proof.
  intros Hu. unfold parse_magnitude.
  assert (read_digits 10 0 false (NilEmpty.string_of_uint u) = Some (Z.of_N (Pos.of_uint u))) as Hread.
  { by rewrite read_digits_uint, uint_value_zero by auto. }
  destruct (NilEmpty.string_of_uint u) as [|c [|c1 r0]] eqn:Hs; [destruct u; simpl in Hs; try congruence|exact Hread|].
  enough ((c1 =? "x")%char || (c1 =? "X")%char = false) as Hx by (rewrite Hx, andb_false_r; exact Hread).
  revert Hs. destruct u; simpl; intros [= <- Hr]; try done;
    destruct u; simpl in Hr; try discriminate; by injection Hr as <- _.
Qed.

Lemma nilzero_string_of_uint u :
  u <> Decimal.Nil -> NilZero.string_of_uint u = NilEmpty.string_of_uint u.
Proof. by destruct u. Qed.

Lemma parse_int_uint u :
  u <> Decimal.Nil -> parse_int (NilEmpty.string_of_uint u) = Some (Z.of_N (Pos.of_uint u)).
Proof.
  intros Hu. unfold parse_int.
  destruct (NilEmpty.string_of_uint u) as [|c r] eqn:Hs;
    [destruct u; simpl in Hs; congruence|].
  destruct (uint_string_digits _ _ _ Hs) as (Hsp & Hm & Hp & _).
  cbn [trim_start]. rewrite Hsp, Hm, Hp, <-Hs, parse_magnitude_uint by done.
  by rewrite Z.mul_1_l.
Qed.

Lemma parse_int_minus s :
  parse_int (String "-" s) = match parse_magnitude s with Some n => Some (-1 * n)%Z | None => None end.
Proof. reflexivity. Qed.

Lemma num_to_string_roundtrip n : parse_int (num_to_string n) = Some n.
Proof.
  unfold num_to_string. destruct n as [|p|p]; [done| |];
    cbn [Z.to_int NilZero.string_of_int];
    rewrite nilzero_string_of_uint by apply DecimalPos.Unsigned.to_uint_nonnil.
  - rewrite parse_int_uint by apply DecimalPos.Unsigned.to_uint_nonnil.
    by rewrite DecimalPos.Unsigned.of_to.
  - rewrite parse_int_minus, parse_magnitude_uint by apply DecimalPos.Unsigned.to_uint_nonnil.
    by rewrite DecimalPos.Unsigned.of_to.
Qed.

Lemma number_parseInt_num n : number_parseInt (JNum n) = Some n.
Proof. apply num_to_string_roundtrip. Qed.

Lemma parseInt_or_1_num n : parseInt_or_1 (JNum n) = if Z.eqb n 0 then 1%Z else n.
Proof. unfold parseInt_or_1. by rewrite number_parseInt_num. Qed.

Lemma parseInt_or_1_num_string n :
  parseInt_or_1 (JStr (num_to_string n)) = if Z.eqb n 0 then 1%Z else n.
Proof. unfold parseInt_or_1, number_parseInt. simpl. by rewrite num_to_string_roundtrip. Qed.

Lemma num_to_string_nonempty n : truthy (JStr (num_to_string n)) = true.
Proof.
  unfold num_to_string. simpl.
  destruct n as [|p|p]; cbn [Z.to_int NilZero.string_of_int]; [done| |done].
  by destruct (Pos.to_uint p).
Qed.


(** ** [includes] finds exactly the substrings *)

Lemma prefix_spec t s : String.prefix t s = true <-> ∃ suf, s = (t ++ suf)%string.
Proof.
  revert s. induction t as [|c t IH]; intros s.
  - split; [by exists s|intros _; by destruct s].
  - destruct s as [|d s]; simpl; [split; [intros ?; discriminate|intros [? Hs]; discriminate Hs]|].
    destruct (Ascii.ascii_dec c d) as [<-|Hcd].
    + rewrite IH. split; intros [suf Hs]; exists suf.
      * by rewrite Hs.
      * change (String c t +:+ suf) with (String c (t +:+ suf)) in Hs. congruence.
    + split; [intros ?; discriminate|]. intros [suf Hs].
      change (String c t +:+ suf) with (String c (t +:+ suf)) in Hs. congruence.
Qed.

Theorem str_includes_spec s t :
  str_includes s t = true <-> ∃ pre suf, s = (pre ++ t ++ suf)%string.
Proof.
  induction s as [|c s IH]; cbn [str_includes]; rewrite orb_true_iff, prefix_spec.
  - split; [intros [[suf ->]|]; [by exists "", suf|done]|].
    intros (pre & suf & Hs). destruct pre; [|done]. left. by exists suf.
  - rewrite IH. split.
    + intros [[suf ->]|(pre & suf & ->)]; [by exists "", suf|by exists (String c pre), suf].
    + intros ([|c' pre] & suf & Hs); [left; by exists suf|].
      right. injection Hs as -> ->. by exists pre, suf.
Qed.
