(* ===== verification/Store.v ===== *)
(** * The Supabase database and the world a handler runs in

    Every route handler creates a Supabase client and sends PostgREST
    requests: [select ... .eq(col, v) .single()], [insert([row])],
    [update(set).eq(col, v)], [upsert(row, { onConflict: "email" })] and
    [delete().eq(col, v)]. None of that library is part of the repository:
    this file models the behaviour the handlers rely on, from the spec's
    data model (section 3) and PostgREST's documented semantics.

    - A row is the JSON object PostgREST returns; a column absent from the
      row reads as [null]. Rows are association lists whose last binding
      wins, so an update appends the new values.
    - Each table has the columns the source reads or writes; a request
      naming another column fails, as PostgREST fails it.
    - [clients.email] is unique among non-null values: the [onConflict]
      target of the handlers' upsert requires that constraint.
    - Any request may fail for reasons outside the code (network, server):
      the world carries a fault script, one entry per request in the order
      the code issues them, and a failed request changes nothing.

    The world also holds the clock, the outbox of the SMTP transport and
    the entropy the password hashing draws its salts from. *)

From stdpp Require Import sorting.
From S2P Require Import Prelude Js.

Open Scope string_scope.

Definition Row : Type := list (string * js).

(** [row.col] on a row returned by PostgREST *)
Definition row_get (r : Row) (col : string) : js :=
  default JNull (assoc_last col r).

Definition row_js (r : Row) : js := JObj r.

Inductive table := admin_users | clients | orders | messages | products.

#[export] Instance table_eq_dec : EqDecision table.
Proof. solve_decision. Defined.

(** The columns of each table, as the source reads and writes them. *)
Definition columns (t : table) : list string :=
  match t with
  | admin_users => ["id"; "email"; "password_hash"; "notification_email"; "created_at"; "updated_at"]
  | clients => ["id"; "email"; "phone"; "name"; "created_at"; "updated_at"]
  | orders => ["id"; "customer_name"; "customer_email"; "customer_phone"; "product_name";
               "product_size"; "quantity"; "status"; "notes"; "created_at"; "updated_at"]
  | messages => ["id"; "name"; "email"; "request_type"; "message"; "status"; "created_at"; "updated_at"]
  | products => ["id"; "name"; "sizes"]
  end.

Definition columns_ok (t : table) (payload : Row) : bool :=
  forallb (fun kv => existsb (String.eqb kv.1) (columns t)) payload.

Record DB := mkDB {
  t_admin_users : list Row;
  t_clients : list Row;
  t_orders : list Row;
  t_messages : list Row;
  t_products : list Row;
  next_id : nat
}.

Definition get_table (db : DB) (t : table) : list Row :=
  match t with
  | admin_users => t_admin_users db
  | clients => t_clients db
  | orders => t_orders db
  | messages => t_messages db
  | products => t_products db
  end.

Definition set_table (db : DB) (t : table) (rs : list Row) : DB :=
  let 'mkDB a c o m p n := db in
  match t with
  | admin_users => mkDB rs c o m p n
  | clients => mkDB a rs o m p n
  | orders => mkDB a c rs m p n
  | messages => mkDB a c o rs p n
  | products => mkDB a c o m rs n
  end.

(** ** Filters: [.eq(col, v)]

    supabase-js writes the filter as [col=eq.${v}]: the value is the
    JavaScript string of [v], compared with the column's text; a [NULL]
    column matches nothing. *)
Definition pg_text (v : js) : option string :=
  match v with
  | JUndef | JNull => None
  | _ => Some (js_to_string v)
  end.

Definition pg_eq (stored v : js) : bool :=
  match pg_text stored with
  | Some s => String.eqb s (js_to_string v)
  | None => false
  end.

Definition Filter : Type := list (string * js).

Definition matches (flt : Filter) (r : Row) : bool :=
  forallb (fun cv => pg_eq (row_get r cv.1) cv.2) flt.

(** ** Results of a request: [{ data, error }] *)
Inductive sb_result (A : Type) : Type :=
| SbOk (data : A)
| SbErr (code : string).
Arguments SbOk {A} data.
Arguments SbErr {A} code.

(** [.single()]: exactly one row, or the error PGRST116. *)
Definition single (rs : list Row) : sb_result Row :=
  match rs with
  | [r] => SbOk r
  | _ => SbErr "PGRST116"
  end.

Definition select_single (t : table) (flt : Filter) (db : DB) : sb_result Row * DB :=
  (single (List.filter (matches flt) (get_table db t)), db).

Definition select_all (t : table) (db : DB) : sb_result (list Row) * DB :=
  (SbOk (get_table db t), db).

(** ** The unique constraint on [clients.email] *)
Definition email_key (r : Row) : option string := pg_text (row_get r "email").

Definition email_taken (rs : list Row) (e : string) : bool :=
  existsb (fun r => bool_decide (email_key r = Some e)) rs.

(** The clients whose email is [e]. *)
Definition clients_with (e : string) (rs : list Row) : list Row :=
  List.filter (fun r => bool_decide (email_key r = Some e)) rs.

(** The table invariant: no two clients share a non-null email. *)
Definition clients_unique (rs : list Row) : Prop := NoDup (omap email_key rs).

(** The constraint check PostgREST's insert runs on a new row. *)
Definition unique_ok (t : table) (rs : list Row) (r : Row) : bool :=
  match t, email_key r with
  | clients, Some e => negb (email_taken rs e)
  | _, _ => true
  end.

(** ** [insert([payload]).select().single()] *)
Definition new_row (db : DB) (now : Z) (payload : Row) : Row :=
  ([("id", JNum (Z.of_nat (next_id db))); ("created_at", JNum now); ("updated_at", JNum now)]
    ++ payload)%list.

Definition bump_id (db : DB) : DB :=
  let 'mkDB a c o m p n := db in mkDB a c o m p (S n).

Definition insert (t : table) (payload : Row) (now : Z) (db : DB) : sb_result Row * DB :=
  let r := new_row db now payload in
  if columns_ok t payload && unique_ok t (get_table db t) r then
    (SbOk r, set_table (bump_id db) t ((get_table db t ++ [r])%list))
  else (SbErr "23505", db).

(** [insert([v])] of a request body: PostgREST rejects a body that is not
    a JSON object. *)
Definition insert_json (t : table) (v : js) (now : Z) (db : DB) : sb_result Row * DB :=
  match v with
  | JObj l => insert t (json_fields l) now db
  | _ => (SbErr "PGRST102", db)
  end.

(** ** [update(set).eq(...)]: every matching row; unique check on clients *)
Definition update_rows (flt : Filter) (set : Row) (rs : list Row) : list Row :=
  map (fun r => if matches flt r then (r ++ set)%list else r) rs.

Definition update (t : table) (set : Row) (flt : Filter) (db : DB) : sb_result (list Row) * DB :=
  let rs' := update_rows flt set (get_table db t) in
  if negb (columns_ok t set) then (SbErr "PGRST204", db)
  else if bool_decide (t = clients -> clients_unique rs') then
    (SbOk (map (fun r => (r ++ set)%list) (List.filter (matches flt) (get_table db t))), set_table db t rs')
  else (SbErr "23505", db).

(** [update(set).eq(...).select().single()]: a result that is not exactly
    one row is an error, and PostgREST rolls the statement back. *)
Definition update_single (t : table) (set : Row) (flt : Filter) (db : DB) : sb_result Row * DB :=
  match update t set flt db with
  | (SbOk [r], db') => (SbOk r, db')
  | (SbOk _, _) => (SbErr "PGRST116", db)
  | (SbErr c, db') => (SbErr c, db')
  end.

(** ** [select("*").order(col, { ascending })]

    Timestamps are numbers and names are strings; strings compare by
    code point (the C collation). Rows with equal keys keep their stored
    order. *)
Definition js_leb (a b : js) : bool :=
  match a, b with
  | JNum x, JNum y => (x <=? y)%Z
  | JStr x, JStr y => String.leb x y
  | _, _ => true
  end.

Definition row_order (col : string) (ascending : bool) (a b : Row) : Prop :=
  if ascending then js_leb (row_get a col) (row_get b col) = true
  else js_leb (row_get b col) (row_get a col) = true.

#[export] Instance row_order_dec col asc : RelDecision (row_order col asc).
Proof. intros a b. unfold row_order. destruct asc; apply _. Defined.

Definition select_ordered (t : table) (col : string) (ascending : bool) (db : DB)
  : sb_result (list Row) * DB :=
  (SbOk (merge_sort (row_order col ascending) (get_table db t)), db).

(** ** [upsert(payload, { onConflict: "email" })] on [clients]

    [INSERT ... ON CONFLICT (email) DO UPDATE SET c = EXCLUDED.c] for the
    columns of the payload: a row with the same non-null email receives
    the payload's columns; otherwise a new row is inserted ([NULL] never
    conflicts). *)
Definition upsert_clients (payload : Row) (now : Z) (db : DB) : sb_result Row * DB :=
  if columns_ok clients payload then
    match email_key payload with
    | Some e =>
        if email_taken (t_clients db) e then
          let rs' := map (fun r => if bool_decide (email_key r = Some e) then (r ++ payload)%list else r)
                         (t_clients db) in
          (SbOk payload, set_table db clients rs')
        else insert clients payload now db
    | None => insert clients payload now db
    end
  else (SbErr "PGRST204", db).

(** ** [delete().eq(...)] *)
Definition delete (t : table) (flt : Filter) (db : DB) : sb_result unit * DB :=
  (SbOk tt, set_table db t (List.filter (fun r => negb (matches flt r)) (get_table db t))).

(** ** The world of a request *)

(** An email handed to the SMTP transport ([transporter.sendMail]). *)
Record Mail := mkMail {
  mail_from : js;
  mail_to : js;
  mail_subject : string;
  mail_html : string
}.

Record World := mkWorld {
  w_db : DB;
  w_faults : list bool;   (** [true]: the next external request fails *)
  w_outbox : list Mail;   (** mails the transport accepted, oldest first *)
  w_now : Z;              (** the clock, in seconds *)
  w_entropy : nat         (** source of bcrypt salts *)
}.

(** Whether the next external request goes through. *)
Definition request_ok (w : World) : bool :=
  match w_faults w with true :: _ => false | _ => true end.

(** Exceptions a handler can raise. *)
Inductive exn :=
| TypeError          (** property of null or undefined, missing method *)
| SyntaxError        (** [request.json()] on a body that is not JSON *)
| IllegalArguments   (** bcryptjs called with a non-string *)
| TransportError.    (** [sendMail] rejected *)

Abbreviation App := (SM World exn).

Definition set_db (w : World) (db : DB) : World :=
  mkWorld db (w_faults w) (w_outbox w) (w_now w) (w_entropy w).

(** Take the next entry of the fault script. *)
Definition next_fault (w : World) : bool * World :=
  match w_faults w with
  | b :: fs => (b, mkWorld (w_db w) fs (w_outbox w) (w_now w) (w_entropy w))
  | [] => (false, w)
  end.

(** One PostgREST request: a fault answers with an error and changes
    nothing; otherwise the operation runs on the database. *)
Definition sb {A} (op : DB -> sb_result A * DB) : App (sb_result A) :=
  fun w =>
    let '(fault, w1) := next_fault w in
    if fault then (w1, Ret (SbErr "fetch failed"))
    else let '(r, db') := op (w_db w1) in (set_db w1 db', Ret r).

Definition now : App Z := fun w => (w, Ret (w_now w)).

(** [x] in the handler's [throw]-on-failure sense *)
Definition of_opt {A} (o : option A) : App A :=
  match o with Some a => mret a | None => sm_throw TypeError end.

(** [error.message] of a caught exception *)
Definition exn_message (e : exn) : string :=
  match e with
  | TypeError => "Cannot read properties of undefined"
  | SyntaxError => "Unexpected token in JSON"
  | IllegalArguments => "Illegal arguments"
  | TransportError => "Connection refused"
  end.

(** [error.message] of a failed PostgREST request *)
Definition sb_message {A} (r : sb_result A) : js :=
  match r with SbErr code => JStr code | SbOk _ => JUndef end.

(** [v.k] that throws on [null] and [undefined] *)
Definition prop (v : js) (k : string) : App js := of_opt (js_get v k).

(** [new Date().toISOString()]: timestamps are kept as the clock value. *)
Definition timestamp (t : Z) : js := JNum t.

(** ** Requests and responses *)

(** [await request.json()]: [None] is a body that is not JSON. *)
Definition read_json (body : option js) : App js :=
  match body with Some v => mret v | None => sm_throw SyntaxError end.

(** [NextResponse.json(body, { status })] *)
Record Response := mkResponse { status : Z; body : js }.

Definition json (fields : list (string * js)) (st : Z) : Response :=
  mkResponse st (jobj fields).

(** The [catch] of every route: a 500 with a generic message. *)
Definition internal_error : Response :=
  json [("error", JStr "Errore interno del server")] 500.

(** ** Lemmas on the store *)

Open Scope list_scope.

Lemma assoc_last_app k (l1 l2 : list (string * js)) :
  assoc_last k (l1 ++ l2) =
  match assoc_last k l2 with Some v => Some v | None => assoc_last k l1 end.
Proof.
  induction l1 as [|[k' v'] l1 IH]; simpl.
  - by destruct (assoc_last k l2).
  - rewrite IH. by destruct (assoc_last k l2).
Qed.

(** A key the fields do not bind is not bound in the object literal
    after [JSON.stringify]. *)
Lemma assoc_last_json_fields_none k l : assoc_last k l = None -> assoc_last k (json_fields l) = None.
Proof.
  unfold json_fields. induction l as [|[k' v] l IH]; simpl; [done|].
  destruct (assoc_last k l); [done|]. intros Hk.
  destruct (is_defined v); simpl; rewrite IH by done; [done|done].
Qed.

(** The last binding of [k] in an object literal after
    [JSON.stringify], when no later field has that key. *)
Lemma assoc_last_json_fields_mid l1 k v l2 :
  is_defined v = true -> assoc_last k l2 = None ->
  assoc_last k (json_fields (l1 ++ (k, v) :: l2)) = Some v.
Proof.
  intros Hv Hl2%assoc_last_json_fields_none. unfold json_fields in *.
  rewrite List.filter_app. cbn [List.filter snd]. rewrite Hv, assoc_last_app.
  cbn [assoc_last]. by rewrite Hl2, String.eqb_refl.
Qed.

Lemma row_get_app_r (r set : Row) col v :
  assoc_last col set = Some v -> row_get (r ++ set) col = v.
Proof. intros H. unfold row_get. by rewrite assoc_last_app, H. Qed.

Lemma row_get_app_l (r set : Row) col :
  assoc_last col set = None -> row_get (r ++ set) col = row_get r col.
Proof. intros H. unfold row_get. by rewrite assoc_last_app, H. Qed.

Lemma get_set_table db t t' rs :
  get_table (set_table db t rs) t' = if decide (t = t') then rs else get_table db t'.
Proof. destruct db, t, t'; reflexivity. Qed.

Lemma get_table_bump db t : get_table (bump_id db) t = get_table db t.
Proof. destruct db, t; reflexivity. Qed.

#[export] Hint Rewrite get_set_table get_table_bump : backend_rw.

Lemma t_clients_get db : t_clients db = get_table db clients.
Proof. reflexivity. Qed.

Lemma t_admin_users_get db : t_admin_users db = get_table db admin_users.
Proof. reflexivity. Qed.

(** The email key of a row extended with a payload that carries an email
    is the payload's. *)
Lemma email_key_app (r payload : Row) :
  assoc_last "email" payload <> None -> email_key (r ++ payload) = email_key payload.
Proof.
  intros H. unfold email_key, row_get. rewrite assoc_last_app.
  by destruct (assoc_last "email" payload).
Qed.

Lemma email_key_new_row db now payload : email_key (new_row db now payload) = email_key payload.
Proof. unfold email_key, new_row, row_get. rewrite assoc_last_app. by destruct (assoc_last _ _). Qed.

Lemma email_taken_spec rs e : email_taken rs e = true <-> e ∈ omap email_key rs.
Proof.
  unfold email_taken. rewrite existsb_exists, list_elem_of_omap. split.
  - intros (r & Hin & Hr). apply bool_decide_eq_true in Hr.
    exists r. split; [by apply list_elem_of_In|done].
  - intros (r & Hin & Hr). exists r. split; [by apply list_elem_of_In|]. by apply bool_decide_eq_true.
Qed.

Lemma email_not_taken rs e : email_taken rs e = false -> e ∉ omap email_key rs.
Proof. intros H Hin%email_taken_spec. congruence. Qed.

Lemma clients_unique_snoc rs r :
  clients_unique rs -> unique_ok clients rs r = true -> clients_unique (rs ++ [r]).
Proof.
  unfold clients_unique, unique_ok. intros Hnd Hok. rewrite omap_app. simpl.
  destruct (email_key r) as [e|] eqn:He; simpl; [|by rewrite app_nil_r].
  apply list.NoDup_app. split; [done|]. split; [|apply NoDup_singleton].
  intros x Hx Hs. apply list_elem_of_singleton in Hs as ->. apply negb_true_iff in Hok.
  by apply (email_not_taken rs e).
Qed.

Lemma omap_update_same_key (f : Row -> Row) (P : Row -> bool) rs :
  (∀ r, P r = true -> email_key (f r) = email_key r) ->
  omap email_key (map (fun r => if P r then f r else r) rs) = omap email_key rs.
Proof.
  intros Hf. induction rs as [|r rs IH]; [done|]. rewrite map_cons.
  cbn [omap list_omap]. rewrite IH.
  destruct (P r) eqn:HP; [by rewrite (Hf r HP)|done].
Qed.

Lemma omap_filter_sublist (P : Row -> bool) rs :
  omap email_key (List.filter P rs) `sublist_of` omap email_key rs.
Proof.
  induction rs as [|r rs IH]; simpl; [done|].
  destruct (P r); simpl; destruct (email_key r); auto using sublist_skip, sublist_cons.
Qed.

(** *** Every request keeps client emails unique *)

Lemma insert_clients_unique t payload now db :
  clients_unique (t_clients db) -> clients_unique (t_clients (insert t payload now db).2).
Proof.
  intros H. unfold insert. rewrite !t_clients_get.
  destruct (columns_ok t payload && unique_ok t _ _) eqn:Hok; cbn [fst snd]; rewrite ?t_clients_get; [|done].
  autorewrite with backend_rw. case_decide; [subst|done].
  apply andb_true_iff in Hok as [_ Hok]. by apply clients_unique_snoc.
Qed.

Lemma update_clients_unique t set flt db :
  clients_unique (t_clients db) -> clients_unique (t_clients (update t set flt db).2).
Proof.
  intros H. unfold update. rewrite !t_clients_get.
  destruct (columns_ok t set); cbn [negb]; [|done].
  case_bool_decide as Hu; cbn [fst snd]; [|done].
  autorewrite with backend_rw. case_decide; [subst; auto|done].
Qed.

Lemma upsert_clients_unique payload now db :
  clients_unique (t_clients db) -> clients_unique (t_clients (upsert_clients payload now db).2).
Proof.
  intros H. unfold upsert_clients.
  destruct (columns_ok clients payload); [|done].
  destruct (email_key payload) as [e|] eqn:He; [|by apply insert_clients_unique].
  destruct (email_taken (t_clients db) e); [|by apply insert_clients_unique].
  cbn [fst snd]. rewrite t_clients_get, get_set_table, decide_True by done.
  unfold clients_unique. rewrite omap_update_same_key; [done|].
  intros r Hr. apply bool_decide_eq_true in Hr. rewrite Hr, email_key_app; [done|].
  unfold email_key, row_get in He. by destruct (assoc_last "email" payload).
Qed.

Lemma delete_clients_unique t flt db :
  clients_unique (t_clients db) -> clients_unique (t_clients (delete t flt db).2).
Proof.
  intros H. cbn [fst snd delete]. rewrite !t_clients_get. autorewrite with backend_rw.
  case_decide; [subst|done]. eapply sublist_NoDup; [exact H|]. apply omap_filter_sublist.
Qed.

#[export] Hint Resolve insert_clients_unique update_clients_unique
  upsert_clients_unique delete_clients_unique : backend.

(** *** The administrator table changes only by updates *)

Lemma insert_admin_users t payload now db :
  t <> admin_users -> t_admin_users (insert t payload now db).2 = t_admin_users db.
Proof.
  intros Ht. unfold insert. rewrite !t_admin_users_get.
  destruct (_ && _); cbn [fst snd]; rewrite ?t_admin_users_get; [|done]. autorewrite with backend_rw.
  by rewrite decide_False.
Qed.

Lemma update_admin_users_length t set flt db :
  length (t_admin_users (update t set flt db).2) = length (t_admin_users db).
Proof.
  unfold update. rewrite !t_admin_users_get.
  destruct (columns_ok t set); cbn [negb]; [|done].
  case_bool_decide; cbn [fst snd]; [|done]. autorewrite with backend_rw.
  case_decide; [subst; apply length_map|done].
Qed.

Lemma upsert_admin_users payload now db :
  t_admin_users (upsert_clients payload now db).2 = t_admin_users db.
Proof.
  unfold upsert_clients. destruct (columns_ok _ _); [|done].
  destruct (email_key payload); [destruct (email_taken _ _)|];
    try by apply insert_admin_users.
  cbn [fst snd]. by rewrite t_admin_users_get, get_set_table, decide_False.
Qed.

Lemma delete_admin_users t flt db :
  t <> admin_users -> t_admin_users (delete t flt db).2 = t_admin_users db.
Proof. intros Ht. cbn [fst snd delete]. rewrite !t_admin_users_get. autorewrite with backend_rw. by rewrite decide_False. Qed.

(** *** Requests *)

(** Unfold the monadic plumbing of a handler and the JavaScript operators
    on known booleans, leaving the requests and the model's functions
    folded. *)
Ltac handler_simpl :=
  cbv beta iota delta [sm_catch mbind sm_bind mret sm_ret sm_throw read_json prop of_opt now
                       negb orb andb fst snd].

Definition drop_fault (w : World) : World := (next_fault w).2.

Lemma w_db_drop_fault w : w_db (drop_fault w) = w_db w.
Proof. unfold drop_fault, next_fault. by destruct (w_faults w). Qed.

Lemma w_now_drop_fault w : w_now (drop_fault w) = w_now w.
Proof. unfold drop_fault, next_fault. by destruct (w_faults w). Qed.

Lemma set_db_same w : set_db w (w_db w) = w.
Proof. by destruct w. Qed.

Lemma w_db_set_db w db : w_db (set_db w db) = db.
Proof. done. Qed.

Lemma w_now_set_db w db : w_now (set_db w db) = w_now w.
Proof. done. Qed.

#[export] Hint Rewrite w_db_drop_fault w_now_drop_fault set_db_same w_db_set_db w_now_set_db : backend_rw.

Lemma sb_run {A} (op : DB -> sb_result A * DB) w :
  sb op w =
  if request_ok w then (set_db (drop_fault w) (op (w_db w)).2, Ret (op (w_db w)).1)
  else (drop_fault w, Ret (SbErr "fetch failed")).
Proof.
  unfold sb, request_ok, drop_fault, next_fault.
  destruct (w_faults w) as [|[] fs]; simpl; try done; by destruct (op (w_db w)).
Qed.

(** A read-only request leaves the database as it is. *)
Lemma sb_select t flt w :
  sb (select_single t flt) w =
  (drop_fault w, Ret (if request_ok w then (select_single t flt (w_db w)).1 else SbErr "fetch failed")).
Proof.
  rewrite sb_run. destruct (request_ok w); [|done]. cbn [select_single fst snd].
  by rewrite <-(w_db_drop_fault w), set_db_same.
Qed.

(** A JSON object serialised with a last field that is defined answers
    that field. *)
Lemma jobj_get_last (l : list (string * js)) k v :
  is_defined v = true -> js_get_opt (jobj (l ++ [(k, v)])) k = v.
Proof.
  intros Hv. unfold js_get_opt, jobj, json_fields, js_get. rewrite filter_app. simpl. rewrite Hv.
  rewrite assoc_last_app. simpl. by rewrite String.eqb_refl.
Qed.

(** *** Inserts that always pass the table's checks *)

Lemma columns_ok_json_fields t l : columns_ok t l = true -> columns_ok t (json_fields l) = true.
Proof.
  unfold columns_ok, json_fields. rewrite !forallb_forall. intros Hl kv Hin.
  apply filter_In in Hin as [Hin _]. auto.
Qed.

(** [orders] and [messages] have no unique constraint: a well-formed
    insert appends the new row and takes the next id. *)
Lemma insert_no_constraint t payload now db :
  t <> clients -> columns_ok t payload = true ->
  insert t payload now db =
  (SbOk (new_row db now payload),
   set_table (bump_id db) t (get_table db t ++ [new_row db now payload])).
Proof.
  intros Ht Hc. unfold insert. rewrite Hc. simpl.
  unfold unique_ok. by destruct t.
Qed.

Lemma t_orders_get db : t_orders db = get_table db orders.
Proof. reflexivity. Qed.

Lemma t_messages_get db : t_messages db = get_table db messages.
Proof. reflexivity. Qed.

(** The upsert touches the [clients] table only. *)
Lemma upsert_clients_other payload now db t :
  t <> clients -> get_table (upsert_clients payload now db).2 t = get_table db t.
Proof.
  intros Ht. unfold upsert_clients, insert.
  destruct (columns_ok clients payload); [|done].
  destruct (email_key payload); [destruct (email_taken _ _)|]; cbn [fst snd];
    try destruct (_ && _); cbn [fst snd]; autorewrite with backend_rw;
    rewrite ?decide_False by congruence; done.
Qed.

(** The JSON object of a request body reads its fields without throwing. *)
Lemma js_get_obj l k : js_get (JObj l) k = Some (js_get_opt (JObj l) k).
Proof. reflexivity. Qed.

Lemma set_get_table db t : set_table db t (get_table db t) = db.
Proof. destruct db, t; reflexivity. Qed.

(** *** Ordered selects return every row, in order *)

Lemma js_leb_total a b : js_leb a b = true ∨ js_leb b a = true.
Proof.
  destruct a as [| | |x| x | |], b as [| | |y| y | |]; simpl; auto.
  - destruct (Z.leb_spec x y), (Z.leb_spec y x); auto; lia.
  - apply String.leb_total.
Qed.

#[export] Instance row_order_total col asc : Total (row_order col asc).
Proof. intros a b. unfold row_order. destruct asc; apply js_leb_total. Qed.

Lemma select_ordered_spec t col asc db :
  ∃ rows, select_ordered t col asc db = (SbOk rows, db) ∧
          rows ≡ₚ get_table db t ∧ Sorted (row_order col asc) rows.
Proof.
  eexists; split; [reflexivity|]. split.
  - apply merge_sort_Permutation.
  - apply Sorted_merge_sort, _.
Qed.

(** *** [update(...).select().single()] *)

(** No matching row: an error, and nothing changes. *)
Lemma update_single_none t set flt db :
  List.filter (matches flt) (get_table db t) = [] ->
  ∃ c, update_single t set flt db = (SbErr c, db).
Proof.
  intros Hn. unfold update_single, update. rewrite Hn.
  destruct (negb _); [by eexists|]. case_bool_decide; by eexists.
Qed.

(** Exactly one matching row: it receives the new columns. *)
Lemma update_single_one t set flt db r :
  List.filter (matches flt) (get_table db t) = [r] -> columns_ok t set = true ->
  (t = clients -> clients_unique (update_rows flt set (get_table db t))) ->
  update_single t set flt db =
  (SbOk (r ++ set), set_table db t (update_rows flt set (get_table db t))).
Proof.
  intros H1 Hc Hu. unfold update_single, update. rewrite H1, Hc. cbn [negb map].
  by rewrite bool_decide_eq_true_2.
Qed.

Lemma filter_negb_nil {A} (f : A -> bool) (l : list A) :
  List.filter f l = [] -> List.filter (fun x => negb (f x)) l = l.
Proof.
  induction l as [|x l IH]; [done|]. cbn [List.filter].
  destruct (f x); [discriminate|]. cbn [negb]. intros Hl. by rewrite IH.
Qed.

(** A delete that matches no row leaves the database as it is. *)
Lemma delete_none t flt db :
  List.filter (matches flt) (get_table db t) = [] -> delete t flt db = (SbOk tt, db).
Proof. intros Hn. unfold delete. by rewrite filter_negb_nil, set_get_table. Qed.

(** An update that gives a matched client the email of a client it does
    not match breaks the unique constraint. *)
Lemma update_rows_duplicate_email flt set rs r r2 e :
  r ∈ rs -> matches flt r = true -> r2 ∈ rs -> matches flt r2 = false ->
  email_key r2 = Some e -> email_key (r ++ set) = Some e ->
  ¬ clients_unique (update_rows flt set rs).
Proof.
  intros Hr Hm Hr2 Hm2 He2 He. destruct (list_elem_of_split _ _ Hr2) as (a & b & ->).
  assert (r ∈ a ++ b) as Hab.
  { apply elem_of_app in Hr as [|Hr]; [by apply elem_of_app; left|].
    apply elem_of_cons in Hr as [->|]; [congruence|by apply elem_of_app; right]. }
  assert (∀ l, r ∈ l -> e ∈ omap email_key (update_rows flt set l)) as Hin.
  { intros l Hl. apply list_elem_of_omap. exists (r ++ set). split; [|done].
    apply list_elem_of_In, in_map_iff. exists r. rewrite Hm. split; [done|by apply list_elem_of_In]. }
  unfold clients_unique, update_rows. rewrite map_app. cbn [map]. rewrite Hm2, omap_app. cbn [omap list_omap].
  rewrite He2. intros (_ & Hdis & Hnb)%list.NoDup_app. apply list.NoDup_cons in Hnb as [Hnotin _].
  apply elem_of_app in Hab as [Ha|Hb].
  - apply (Hdis e); [exact (Hin a Ha)|]. by apply elem_of_cons; left.
  - exact (Hnotin (Hin b Hb)).
Qed.

(** An update giving the client of [flt] the email another client has is
    refused by the unique constraint, or by the column check. *)
Lemma update_single_duplicate_email set flt db r r2 e :
  r ∈ t_clients db -> matches flt r = true -> r2 ∈ t_clients db -> matches flt r2 = false ->
  email_key r2 = Some e -> assoc_last "email" set = Some (JStr e) ->
  ∃ c, update_single clients set flt db = (SbErr c, db).
Proof.
  intros Hin Hm Hin2 Hm2 He2 Hs. unfold update_single, update.
  destruct (negb (columns_ok clients set)); [by eexists|].
  rewrite bool_decide_eq_false_2; [by eexists|]. intros Hu.
  refine (update_rows_duplicate_email flt set _ r r2 e Hin Hm Hin2 Hm2 He2 _ (Hu eq_refl)).
  rewrite email_key_app by congruence. unfold email_key, row_get. by rewrite Hs.
Qed.

(** *** One client per email *)

Lemma clients_with_cons e r rs :
  clients_with e (r :: rs) =
  if bool_decide (email_key r = Some e) then r :: clients_with e rs else clients_with e rs.
Proof. reflexivity. Qed.

Lemma clients_with_nil e rs : e ∉ omap email_key rs -> clients_with e rs = [].
Proof.
  induction rs as [|r rs IH]; [done|]. rewrite clients_with_cons. cbn [omap list_omap].
  intros Hn. case_bool_decide as Hr.
  - rewrite Hr in Hn. by destruct Hn; left.
  - apply IH. destruct (email_key r); [|done]. intros Hin. by apply Hn; right.
Qed.

Lemma clients_with_one e rs :
  clients_unique rs -> e ∈ omap email_key rs -> ∃ r, clients_with e rs = [r].
Proof.
  unfold clients_unique. induction rs as [|r rs IH]; cbn [omap list_omap]; [by intros _ ?%elem_of_nil|].
  rewrite clients_with_cons. case_bool_decide as Hr.
  - rewrite Hr. intros [Hn _]%list.NoDup_cons _. exists r. by rewrite clients_with_nil.
  - destruct (email_key r) as [e'|] eqn:He; [|done].
    intros [_ Hnd]%list.NoDup_cons [<-|Hin]%elem_of_cons; [congruence|]. by apply IH.
Qed.

Lemma clients_with_app e rs1 rs2 : clients_with e (rs1 ++ rs2) = clients_with e rs1 ++ clients_with e rs2.
Proof. apply filter_app. Qed.

Lemma clients_with_update e payload rs :
  email_key payload = Some e ->
  clients_with e (map (fun r => if bool_decide (email_key r = Some e) then r ++ payload else r) rs)
  = map (fun r => r ++ payload) (clients_with e rs).
Proof.
  intros Hp. induction rs as [|r rs IH]; [done|]. cbn [map].
  destruct (bool_decide (email_key r = Some e)) eqn:Hr; rewrite !clients_with_cons, Hr.
  - rewrite email_key_app, Hp by (unfold email_key, row_get in Hp; by destruct (assoc_last _ _)).
    rewrite bool_decide_eq_true_2 by done. cbn [map]. by rewrite IH.
  - by rewrite IH.
Qed.

(** An upsert of a payload with email [e] leaves exactly one client with
    that email, and that client carries every column of the payload. *)
Lemma upsert_clients_one payload now db e :
  clients_unique (t_clients db) -> columns_ok clients payload = true -> email_key payload = Some e ->
  ∃ r, clients_with e (t_clients (upsert_clients payload now db).2) = [r] ∧
       ∀ c v, assoc_last c payload = Some v -> row_get r c = v.
Proof.
  intros Hu Hc He. unfold upsert_clients. rewrite Hc, He.
  destruct (email_taken (t_clients db) e) eqn:Ht.
  - apply email_taken_spec in Ht. destruct (clients_with_one _ _ Hu Ht) as [r0 Hr0].
    exists (r0 ++ payload). cbn [snd]. rewrite t_clients_get, get_set_table, decide_True by done.
    rewrite clients_with_update, Hr0 by done.
    split; [done|]. intros c v Hv. by apply row_get_app_r.
  - unfold insert, unique_ok. rewrite Hc, email_key_new_row, He, <-t_clients_get, Ht.
    cbn [andb negb snd]. exists (new_row db now payload).
    rewrite t_clients_get, get_set_table, decide_True by done.
    rewrite clients_with_app, clients_with_nil by (by apply email_not_taken).
    rewrite clients_with_cons, email_key_new_row, He, bool_decide_eq_true_2 by done.
    split; [done|]. intros c v Hv. unfold new_row. by apply row_get_app_r.
Qed.

(** *** The rows an update matched, after it *)

(** An update that writes none of the filter's columns matches the same
    rows afterwards. *)
Lemma matches_app_other flt r set :
  Forall (fun kv => assoc_last kv.1 set = None) flt -> matches flt (r ++ set) = matches flt r.
Proof.
  unfold matches. induction 1 as [|kv flt Hkv _ IH]; [done|]. cbn [forallb].
  by rewrite IH, row_get_app_l.
Qed.

Lemma filter_update_rows flt set rs :
  Forall (fun kv => assoc_last kv.1 set = None) flt ->
  List.filter (matches flt) (update_rows flt set rs) = map (fun r => r ++ set) (List.filter (matches flt) rs).
Proof.
  intros Hflt. unfold update_rows in *. induction rs as [|r rs IH]; [done|]. cbn [map List.filter].
  destruct (matches flt r) eqn:Hm; cbn [List.filter map].
  - by rewrite matches_app_other, Hm, IH.
  - by rewrite Hm, IH.
Qed.
