(* ===== verification/Crypto.v ===== *)
(** * The libraries behind authentication: bcryptjs and jsonwebtoken

    [src/lib/auth.ts] and the settings routes call [bcrypt.compare],
    [bcrypt.hash(pw, 10)], [jwt.sign(payload, JWT_SECRET, { expiresIn:
    "24h" })] and [jwt.verify(token, JWT_SECRET)]. Neither library is part
    of the repository: each is an interface ([Class]) whose laws state
    what the handlers rely on, the ideal behaviour of a salted password
    hash (bcrypt reads only the first 72 bytes of a password) and of an
    HMAC-signed token. [Reference] gives instances that satisfy the laws,
    so that concrete runs of the handlers compute.

    The monadic wrappers add what the JavaScript calls do around the
    ideal functions: bcryptjs rejects non-string arguments, [bcrypt.hash]
    draws a fresh salt, [jwt.sign] stamps [iat] and [exp] from the clock,
    [jwt.verify] rejects a token at or after its [exp]. *)

From stdpp Require Import countable.
From Stdlib Require Import Ascii.
From S2P Require Import Prelude Js Store.

Open Scope string_scope.

(** ** bcryptjs *)

(** bcrypt hashes the first 72 bytes of a password. *)
Definition bcrypt_key (p : string) : string := String.substring 0 72 p.

Class Bcrypt := {
  bcrypt_hash : string -> nat -> string;   (** password, salt *)
  bcrypt_check : string -> string -> bool; (** password, stored hash *)
  bcrypt_check_hash p s q :
    bcrypt_check q (bcrypt_hash p s) = String.eqb (bcrypt_key q) (bcrypt_key p)
}.

(** ** jsonwebtoken (HS256) *)

Class Jwt := {
  jwt_encode : string -> js -> string;         (** secret, payload *)
  jwt_decode : string -> string -> option js;  (** secret, token: signature checked *)
  jwt_decode_encode k c : jwt_decode k (jwt_encode k c) = Some c;
  jwt_decode_other_key k k' c : k <> k' -> jwt_decode k' (jwt_encode k c) = None
}.

(** ** [process.env] and the platform's date formatting *)

Class Env := {
  env_JWT_SECRET : option string;
  env_SMTP_USER : js;                          (** [undefined] when unset *)
  to_locale_string_it : Z -> string            (** [new Date().toLocaleString("it-IT")] *)
}.

Section Wrappers.
Context `{Bcrypt, Jwt, Env}.

(** [const JWT_SECRET = process.env.JWT_SECRET || "your-secret-key-change-in-production"] *)
Definition default_secret : string := "your-secret-key-change-in-production".

Definition JWT_SECRET : string :=
  match env_JWT_SECRET with
  | Some s => if String.eqb s "" then default_secret else s
  | None => default_secret
  end.

(** [await bcrypt.compare(password, hash)] *)
Definition bcrypt_compare (password hash : js) : App bool :=
  match password, hash with
  | JStr p, JStr h => mret (bcrypt_check p h)
  | _, _ => sm_throw IllegalArguments
  end.

(** [await bcrypt.hash(password, 10)]: a fresh salt per call *)
Definition bcrypt_hash_js (password : js) : App string :=
  match password with
  | JStr p =>
      fun w => (mkWorld (w_db w) (w_faults w) (w_outbox w) (w_now w) (S (w_entropy w)),
                Ret (bcrypt_hash p (w_entropy w)))
  | _ => sm_throw IllegalArguments
  end.

(** [jwt.sign(payload, secret, { expiresIn })], [expiresIn] in seconds *)
Definition jwt_sign (payload : list (string * js)) (secret : string) (expires_in : Z) : App string :=
  t ← now;
  mret (jwt_encode secret (jobj (payload ++ [("iat", JNum t); ("exp", JNum (t + expires_in))])%list)).

(** [jwt.verify(token, secret)] at time [t]: [None] when it throws *)
Definition jwt_verify (token secret : string) (t : Z) : option js :=
  match jwt_decode secret token with
  | Some c =>
      match js_get_opt c "exp" with
      | JUndef => Some c
      | JNum e => if (t <? e)%Z then Some c else None
      | _ => None
      end
  | None => None
  end.
End Wrappers.

(** ** Reference instances *)

Module Reference.

Definition bits_of_pos : positive -> string :=
  fix go p :=
    match p with
    | xH => ""
    | xO q => String "0"%char (go q)
    | xI q => String "1"%char (go q)
    end.

Definition pos_of_bits : string -> option positive :=
  fix go s :=
    match s with
    | EmptyString => Some xH
    | String c r =>
        if Ascii.eqb c "0"%char then xO <$> go r
        else if Ascii.eqb c "1"%char then xI <$> go r
        else None
    end.

Lemma pos_of_bits_of_pos p : pos_of_bits (bits_of_pos p) = Some p.
Proof. induction p; simpl; by rewrite ?IHp. Qed.

Fixpoint strip_prefix (pre s : string) : option string :=
  match pre, s with
  | EmptyString, _ => Some s
  | String c p, String d r => if Ascii.eqb c d then strip_prefix p r else None
  | String _ _, EmptyString => None
  end.

Lemma strip_prefix_app pre s : strip_prefix pre (pre ++ s) = Some s.
Proof. induction pre; simpl; [done|]. by rewrite Ascii.eqb_refl. Qed.

Lemma append_eqb_l pre a b : String.eqb (pre ++ a) (pre ++ b) = String.eqb a b.
Proof. induction pre; simpl; [done|]. by rewrite Ascii.eqb_refl. Qed.

Definition hash_prefix : string := "$2a$10$".

#[export] Program Instance bcrypt_ideal : Bcrypt := {
  bcrypt_hash p _ := hash_prefix ++ bcrypt_key p;
  bcrypt_check q h := String.eqb h (hash_prefix ++ bcrypt_key q)
}.
Next Obligation.
  intros p s q. simpl. rewrite append_eqb_l.
  destruct (String.eqb_spec (bcrypt_key p) (bcrypt_key q));
    destruct (String.eqb_spec (bcrypt_key q) (bcrypt_key p)); congruence.
Qed.

Definition token_prefix : string := "eyJhbGciOiJIUzI1NiJ9.".

Definition encode_token (k : string) (c : js) : string :=
  token_prefix ++ bits_of_pos (encode (k, c)).

Definition decode_token (k : string) (t : string) : option js :=
  match strip_prefix token_prefix t with
  | Some bits =>
      match pos_of_bits bits with
      | Some p =>
          match (decode p : option (string * js)) with
          | Some (k', c) => if String.eqb k' k then Some c else None
          | None => None
          end
      | None => None
      end
  | None => None
  end.

#[export] Program Instance jwt_ideal : Jwt := {
  jwt_encode := encode_token;
  jwt_decode := decode_token
}.
Next Obligation.
  intros k c. unfold decode_token, encode_token.
  rewrite strip_prefix_app. simpl. rewrite pos_of_bits_of_pos. simpl.
  rewrite decode_encode. simpl. by rewrite String.eqb_refl.
Qed.
Next Obligation.
  intros k k' c Hne. unfold decode_token, encode_token.
  rewrite strip_prefix_app. simpl. rewrite pos_of_bits_of_pos. simpl.
  rewrite decode_encode. simpl. destruct (String.eqb_spec k k'); congruence.
Qed.

(** A deployment that sets [JWT_SECRET] and [SMTP_USER]. *)
#[export] Instance env_configured : Env := {
  env_JWT_SECRET := Some "s3cr3t";
  env_SMTP_USER := JStr "orders@oliodivaleria.it";
  to_locale_string_it t := num_to_string t
}.

End Reference.
