(* ===== verification/Fixtures.v ===== *)
(** * Concrete worlds for the witnesses

    A database as the deployment provisions it (section 3 of the spec:
    one administrator, a catalogue of products), built with the reference
    instances of [Crypto.Reference], on which the handlers are run by
    computation. *)

From S2P Require Import Prelude Js Store Crypto.
Import Crypto.Reference.

Open Scope string_scope.

Definition admin_email : string := "oliodivaleria@server.com".
Definition admin_password : string := "662002".

Definition admin_row : Row :=
  [("id", JNum 1); ("email", JStr admin_email);
   ("password_hash", JStr (bcrypt_hash admin_password 0));
   ("notification_email", JStr "notifiche@oliodivaleria.com");
   ("created_at", JNum 0); ("updated_at", JNum 0)].

Definition product_row : Row :=
  [("id", JNum 2); ("name", JStr "Olio Extra Vergine");
   ("sizes", JArr [JStr "500ml"; JStr "1L"; JStr "5L"])].

Definition db0 : DB := mkDB [admin_row] [] [] [] [product_row] 10.

(** A world at time [1000] with the given fault script. *)
Definition world0 (faults : list bool) : World := mkWorld db0 faults [] 1000 0.

(** A database with an order, a message and two clients, for the record
    routes and the pages. *)
Definition order_row0 : Row :=
  [("id", JNum 11); ("customer_name", JStr "Maria Rossi");
   ("customer_email", JStr "maria@example.com"); ("customer_phone", JNull);
   ("product_name", JStr "Olio Extra Vergine"); ("product_size", JStr "1L");
   ("quantity", JNum 2); ("status", JStr "Appena ordinato"); ("notes", JNull);
   ("created_at", JNum 900); ("updated_at", JNum 900)].

Definition client_a : Row :=
  [("id", JNum 12); ("email", JStr "maria@example.com"); ("phone", JNull);
   ("name", JStr "Maria Rossi"); ("created_at", JNum 900); ("updated_at", JNum 900)].

Definition client_b : Row :=
  [("id", JNum 13); ("email", JStr "luca@example.com"); ("phone", JNull);
   ("name", JStr "Luca Bianchi"); ("created_at", JNum 950); ("updated_at", JNum 950)].

Definition message_row0 : Row :=
  [("id", JNum 14); ("name", JStr "Anna Bianchi"); ("email", JStr "anna@example.com");
   ("request_type", JStr "Visita in azienda"); ("message", JStr "Vorrei visitare il frantoio");
   ("status", JStr "Nuovo"); ("created_at", JNum 960); ("updated_at", JNum 960)].

Definition db1 : DB := mkDB [admin_row] [client_a; client_b] [order_row0] [message_row0] [product_row] 20.

Definition world1 (faults : list bool) : World := mkWorld db1 faults [] 1000 0.
