(* ===== verification/Auth.v ===== *)
(** * Authentication: [src/lib/auth.ts] and the login route

    [authenticateAdmin] looks the administrator up by email
    ([.eq("email", email).single()]), checks the password with
    [bcrypt.compare] and signs a 24-hour token; [verifyAdminToken]
    verifies one; [updateAdminPassword] and [updateNotificationEmail]
    overwrite a column of the administrator's row. The route
    [POST /api/admin/auth/login] ([src/app/api/admin/auth/login/route.ts])
    validates the body and turns the result into a response.

    The theorems show that wrong credentials are rejected with one
    indistinguishable 401 whatever the database answers, that good
    credentials yield a token that verifies to the administrator's id and
    email for exactly 24 hours, and that a password that is not a string
    makes the two failure cases distinguishable (a 500 for a registered
    email, a 401 otherwise). *)

From S2P Require Import Prelude Js Store Crypto.

Open Scope string_scope.

Section Auth.
Context `{Bcrypt, Jwt, Env}.

(** [authenticateAdmin(email, password)], lines 7-33 *)
Definition authenticateAdmin (email password : js) : App (option (Row * string)) :=
  r ← sb (select_single admin_users [("email", email)]);
  match r with
  | SbErr _ => mret None
  | SbOk admin =>
      isValidPassword ← bcrypt_compare password (row_get admin "password_hash");
      if negb isValidPassword then mret None
      else
        token ← jwt_sign [("adminId", row_get admin "id"); ("email", row_get admin "email")]
                         JWT_SECRET 86400;
        mret (Some (admin, token))
  end.

(** [verifyAdminToken(token)], lines 35-42: the claims, or [null] *)
Definition verifyAdminToken (token : string) : App js :=
  t ← now;
  mret (default JNull (jwt_verify token JWT_SECRET t)).

Definition succeeded {A} (r : sb_result A) : bool :=
  match r with SbOk _ => true | SbErr _ => false end.

(** [updateAdminPassword(adminId, newPassword)], lines 44-54 *)
Definition updateAdminPassword (adminId newPassword : js) : App bool :=
  hashedPassword ← bcrypt_hash_js newPassword;
  t ← now;
  r ← sb (update admin_users
            [("password_hash", JStr hashedPassword); ("updated_at", timestamp t)]
            [("id", adminId)]);
  mret (succeeded r).

(** [updateNotificationEmail(adminId, email)], lines 56-65 *)
Definition updateNotificationEmail (adminId email : js) : App bool :=
  t ← now;
  r ← sb (update admin_users
            [("notification_email", email); ("updated_at", timestamp t)]
            [("id", adminId)]);
  mret (succeeded r).

Definition invalid_credentials : Response :=
  json [("error", JStr "Credenziali non valide")] 401.

Definition missing_credentials : Response :=
  json [("error", JStr "Email e password sono richiesti")] 400.

Definition login_success (admin : Row) (token : string) : Response :=
  json [("message", JStr "Login successful");
        ("token", JStr token);
        ("admin", jobj [("id", row_get admin "id");
                        ("email", row_get admin "email");
                        ("notification_email", row_get admin "notification_email")])]
       200.

(** [POST /api/admin/auth/login] *)
Definition login_POST (body : option js) : App Response :=
  sm_catch (
    b ← read_json body;
    email ← of_opt (js_get b "email");
    password ← of_opt (js_get b "password");
    if negb (truthy email) || negb (truthy password) then mret missing_credentials
    else
      result ← authenticateAdmin email password;
      match result with
      | None => mret invalid_credentials
      | Some (admin, token) => mret (login_success admin token)
      end)
    (fun _ => mret internal_error).

(** ** What the theorems are stated with *)

(** The row [.eq("email", e).single()] returns, if any. *)
Definition admin_by_email (db : DB) (e : js) : option Row :=
  match (select_single admin_users [("email", e)] db).1 with
  | SbOk admin => Some admin
  | SbErr _ => None
  end.

(** The credentials [bcrypt.compare] accepts. *)
Definition credentials_valid (db : DB) (e p : string) : bool :=
  match admin_by_email db (JStr e) with
  | Some admin =>
      match row_get admin "password_hash" with
      | JStr h => bcrypt_check p h
      | _ => false
      end
  | None => false
  end.

(** Type invariant of the provisioned table: every stored hash is a string. *)
Definition admin_hashes_wf (db : DB) : bool :=
  forallb (fun r => match row_get r "password_hash" with JStr _ => true | _ => false end)
          (t_admin_users db).

(** The claims [jwt.sign] puts in the token of [admin] issued at [t]. *)
Definition token_claims (admin : Row) (t : Z) : js :=
  jobj [("adminId", row_get admin "id"); ("email", row_get admin "email");
        ("iat", JNum t); ("exp", JNum (t + 86400))].

End Auth.

Section AuthProofs.
Context `{Bcrypt, Jwt, Env}.

Lemma admin_by_email_hash db e admin :
  admin_hashes_wf db = true -> admin_by_email db e = Some admin ->
  ∃ h, row_get admin "password_hash" = JStr h.
Proof.
  unfold admin_hashes_wf, admin_by_email, select_single, single. simpl.
  intros Hwf Hsel.
  destruct (List.filter _ _) as [|r [|]] eqn:Hf; try discriminate.
  injection Hsel as <-.
  assert (In r (t_admin_users db)) as Hin.
  { eapply filter_In. rewrite Hf. by left. }
  eapply forallb_forall in Hwf; [|exact Hin].
  destruct (row_get r "password_hash"); try discriminate. by eexists.
Qed.

(** [authenticateAdmin] on a string email, in the case the lookup
    request goes through and in the case it fails. *)
Lemma authenticateAdmin_run e password w :
  authenticateAdmin (JStr e) password w =
  if request_ok w then
    match admin_by_email (w_db w) (JStr e) with
    | Some admin =>
        match row_get admin "password_hash", password with
        | JStr h, JStr p =>
            if bcrypt_check p h then
              (drop_fault w,
               Ret (Some (admin, jwt_encode JWT_SECRET (token_claims admin (w_now w)))))
            else (drop_fault w, Ret None)
        | _, _ => (drop_fault w, Throw IllegalArguments)
        end
    | None => (drop_fault w, Ret None)
    end
  else (drop_fault w, Ret None).
Proof.
  unfold authenticateAdmin. rewrite sm_bind_run, sb_select.
  destruct (request_ok w); [|done]. unfold admin_by_email.
  destruct (select_single _ _ _).1 as [admin|]; [|done].
  rewrite sm_bind_run. destruct (row_get admin "password_hash"), password; try done.
  simpl. destruct (bcrypt_check _ _); simpl; [|done].
  unfold jwt_sign, token_claims. rewrite !sm_bind_run. simpl. by rewrite w_now_drop_fault.
Qed.

(** The route around [authenticateAdmin]: validation, then the three
    outcomes of the call mapped to responses. *)
Lemma login_POST_run b email password w :
  js_get b "email" = Some email -> js_get b "password" = Some password ->
  login_POST (Some b) w =
  if negb (truthy email) || negb (truthy password) then (w, Ret missing_credentials)
  else
    match authenticateAdmin email password w with
    | (w', Ret None) => (w', Ret invalid_credentials)
    | (w', Ret (Some (admin, token))) => (w', Ret (login_success admin token))
    | (w', Throw _) => (w', Ret internal_error)
    end.
Proof.
  intros He Hp. unfold login_POST, read_json. rewrite sm_catch_run, sm_bind_ret_l.
  cbv beta. rewrite He, Hp. unfold of_opt. rewrite !sm_bind_ret_l.
  destruct (negb (truthy email) || negb (truthy password)); [done|].
  rewrite sm_bind_run. destruct (authenticateAdmin email password w) as [w' [[[admin token]|]|x]]; done.
Qed.

Lemma truthy_str_nonempty s : s <> "" -> truthy (JStr s) = true.
Proof. intros Hs. simpl. destruct (String.eqb_spec s ""); [done|]. done. Qed.

(** The token of a successful login verifies to its claims until
    [iat + 86400], and not from then on. *)
Lemma jwt_verify_token_claims admin t0 t :
  jwt_verify (jwt_encode JWT_SECRET (token_claims admin t0)) JWT_SECRET t =
  if (t <? t0 + 86400)%Z then Some (token_claims admin t0) else None.
Proof.
  unfold jwt_verify. rewrite jwt_decode_encode.
  assert (js_get_opt (token_claims admin t0) "exp" = JNum (t0 + 86400)) as ->; [|done].
  apply (jobj_get_last [_; _; _]). done.
Qed.

(** C1. Wrong credentials, whether the email is unknown, the password
    wrong or the lookup request failed, get one and the same response,
    401 with "Credenziali non valide", and change nothing in the
    database. *)
Theorem login_rejects_uniformly e p b w :
  js_get b "email" = Some (JStr e) -> js_get b "password" = Some (JStr p) ->
  e <> "" -> p <> "" -> admin_hashes_wf (w_db w) = true ->
  credentials_valid (w_db w) e p = false ->
  login_POST (Some b) w = (drop_fault w, Ret invalid_credentials).
Proof.
  intros He Hp Hne Hpe Hwf Hinv.
  rewrite (login_POST_run _ _ _ _ He Hp), !truthy_str_nonempty by done. simpl.
  rewrite authenticateAdmin_run. destruct (request_ok w); [|done].
  unfold credentials_valid in Hinv.
  destruct (admin_by_email _ _) as [admin|] eqn:Ha; [|done].
  destruct (admin_by_email_hash _ _ _ Hwf Ha) as [h Hh].
  rewrite Hh in Hinv |- *. by rewrite Hinv.
Qed.

(** C2. Good credentials get a 200 carrying a token; verifying that
    token at any later time [t] gives back the administrator's id and
    email (with [iat] and [exp]) exactly when [t] is less than 24 hours
    after the login, and [null] from then on. *)
Theorem login_issues_day_token e p b w :
  js_get b "email" = Some (JStr e) -> js_get b "password" = Some (JStr p) ->
  e <> "" -> p <> "" -> request_ok w = true ->
  credentials_valid (w_db w) e p = true ->
  ∃ admin token,
    admin_by_email (w_db w) (JStr e) = Some admin ∧
    login_POST (Some b) w = (drop_fault w, Ret (login_success admin token)) ∧
    ∀ w2, verifyAdminToken token w2 =
          (w2, Ret (if (w_now w2 <? w_now w + 86400)%Z
                    then token_claims admin (w_now w) else JNull)).
Proof.
  intros He Hp Hne Hpe Hok Hvalid. unfold credentials_valid in Hvalid.
  destruct (admin_by_email _ _) as [admin|] eqn:Ha; [|done].
  destruct (row_get admin "password_hash") as [| | | |h| |] eqn:Hh; try done.
  exists admin, (jwt_encode JWT_SECRET (token_claims admin (w_now w))).
  split; [done|]. split.
  - rewrite (login_POST_run _ _ _ _ He Hp), !truthy_str_nonempty by done. simpl.
    by rewrite authenticateAdmin_run, Hok, Ha, Hh, Hvalid.
  - intros w2. unfold verifyAdminToken, now. rewrite sm_bind_run. simpl.
    rewrite jwt_verify_token_claims. by destruct (_ <? _)%Z.
Qed.

(** C14. With a password that is not a string (a JSON number), the
    response tells whether the email is registered: a 500 when it is
    (bcryptjs throws on the comparison), a 401 when it is not. The
    spec requires the two cases to be indistinguishable. *)
Theorem login_password_type_leaks e n b w :
  js_get b "email" = Some (JStr e) -> js_get b "password" = Some (JNum n) ->
  e <> "" -> n <> 0%Z -> request_ok w = true -> admin_hashes_wf (w_db w) = true ->
  (login_POST (Some b) w).2 =
  Ret (match admin_by_email (w_db w) (JStr e) with
       | Some _ => internal_error
       | None => invalid_credentials
       end).
Proof.
  intros He Hp Hne Hn Hok Hwf.
  rewrite (login_POST_run _ _ _ _ He Hp), truthy_str_nonempty by done. simpl.
  destruct (Z.eqb_spec n 0); [done|]. simpl.
  rewrite authenticateAdmin_run, Hok.
  destruct (admin_by_email _ _) as [admin|] eqn:Ha; [|done].
  destruct (admin_by_email_hash _ _ _ Hwf Ha) as [h ->]. done.
Qed.

(** A body without a truthy email or password gets the 400 before
    any request is sent: the world, fault script included, is left as
    it was. *)
Theorem login_missing_fields b email password w :
  js_get b "email" = Some email -> js_get b "password" = Some password ->
  truthy email = false ∨ truthy password = false ->
  login_POST (Some b) w = (w, Ret missing_credentials).
Proof.
  intros He Hp Hf. rewrite (login_POST_run _ _ _ _ He Hp).
  by destruct Hf as [-> | ->]; [|rewrite orb_true_r].
Qed.
End AuthProofs.

Import Crypto.Reference.
From S2P Require Import Fixtures.

Definition login_body (e p : js) : js := JObj [("email", e); ("password", p)].

Lemma login_rejects_uniformly_witness :
  credentials_valid db0 admin_email "wrong" = false ∧
  login_POST (Some (login_body (JStr admin_email) (JStr "wrong"))) (world0 [])
  = (drop_fault (world0 []), Ret invalid_credentials).
Proof.
  split; [vm_compute; reflexivity|].
  apply (login_rejects_uniformly admin_email "wrong"); try reflexivity; discriminate.
Defined.

Lemma login_issues_day_token_witness :
  credentials_valid db0 admin_email admin_password = true ∧
  ∃ admin token,
    admin_by_email (w_db (world0 [])) (JStr admin_email) = Some admin ∧
    login_POST (Some (login_body (JStr admin_email) (JStr admin_password))) (world0 [])
    = (drop_fault (world0 []), Ret (login_success admin token)) ∧
    ∀ w2, verifyAdminToken token w2 =
          (w2, Ret (if (w_now w2 <? w_now (world0 []) + 86400)%Z
                    then token_claims admin (w_now (world0 [])) else JNull)).
Proof.
  split; [vm_compute; reflexivity|].
  apply (login_issues_day_token admin_email admin_password); try reflexivity; discriminate.
Defined.

Lemma login_password_type_leaks_witness :
  (login_POST (Some (login_body (JStr admin_email) (JNum 662002))) (world0 [])).2 = Ret internal_error ∧
  (login_POST (Some (login_body (JStr "intruder@x.com") (JNum 662002))) (world0 [])).2
  = Ret invalid_credentials.
Proof.
  split.
  - apply (login_password_type_leaks admin_email 662002); try reflexivity; discriminate.
  - apply (login_password_type_leaks "intruder@x.com" 662002); try reflexivity; discriminate.
Defined.

Lemma login_missing_fields_witness :
  login_POST (Some (login_body (JStr "") (JStr "x"))) (world0 [true])
  = (world0 [true], Ret missing_credentials).
Proof. apply (login_missing_fields _ (JStr "") (JStr "x")); try reflexivity. by left. Defined.
