(* ===== verification/Email.v ===== *)
(** * Notification dispatcher: [src/lib/email.tsx]

    [sendNewOrderNotification] and [sendNewMessageNotification] read the
    administrator's [notification_email] ([.select(...).single()] without
    a filter), give up with [false] when it is not set, create a
    nodemailer transport, render a fixed HTML template and send it; any
    exception is caught and turned into [false].

    The transport is created with [nodemailer.createTransporter(...)]:
    nodemailer exports [createTransport], and calling the [undefined]
    property throws a [TypeError]. The theorems show the consequence: both
    functions return [false] after one database request, whatever the
    world, and never hand a mail to the transport. The templates and the
    [sendMail] step after the throw are modelled as written. *)

From Stdlib Require Import Ascii.
From S2P Require Import Prelude Js Store Crypto.

Open Scope string_scope.

(** Template text is written with a backtick where the source has a double
    quote; [dq] puts the quotes back. *)
Fixpoint dq (s : string) : string :=
  match s with
  | EmptyString => EmptyString
  | String c r => String (if Ascii.eqb c "`"%char then ascii_of_nat 34 else c) (dq r)
  end.

Section Email.
Context `{Env}.

(** [createTransporter()], lines 5-17: [nodemailer.createTransporter] is
    [undefined], so the call throws before any option is read. *)
Definition createTransporter : App unit := sm_throw TypeError.

(** [await transporter.sendMail(mailOptions)]: one request to the SMTP
    server, which may fail; on success the mail is in the outbox. *)
Definition sendMail (m : Mail) : App unit :=
  fun w =>
    let '(fault, w1) := next_fault w in
    if fault then (w1, Throw TransportError)
    else (mkWorld (w_db w1) (w_faults w1) (w_outbox w1 ++ [m])%list (w_now w1) (w_entropy w1), Ret tt).

Definition order_subject : string := "🛒 Nuovo Ordine - Olio di Valeria".
Definition message_subject : string := "💬 Nuovo Messaggio - Olio di Valeria".

(** The [html] of the order notification, lines 37-65 *)
Definition order_html (customer_name customer_email customer_phone product_name product_size
                       quantity status notes : js) (date : string) : string :=
  dq "
        <div style=`font-family: Arial, sans-serif; max-width: 600px; margin: 0 auto;`>
          <div style=`background-color: #16a34a; color: white; padding: 20px; text-align: center;`>
            <h1>🫒 Nuovo Ordine Ricevuto</h1>
          </div>
          
          <div style=`padding: 20px; background-color: #f9f9f9;`>
            <h2>Dettagli Cliente</h2>
            <p><strong>Nome:</strong> " ++ js_to_string customer_name ++ dq "</p>
            <p><strong>Email:</strong> " ++ js_to_string customer_email ++ dq "</p>
            " ++ (if truthy customer_phone then dq "<p><strong>Telefono:</strong> " ++ js_to_string customer_phone ++ dq "</p>" else "") ++ dq "
            
            <h2>Dettagli Ordine</h2>
            <p><strong>Prodotto:</strong> " ++ js_to_string product_name ++ dq "</p>
            <p><strong>Formato:</strong> " ++ js_to_string product_size ++ dq "</p>
            <p><strong>Quantità:</strong> " ++ js_to_string quantity ++ dq "</p>
            <p><strong>Stato:</strong> " ++ js_to_string status ++ dq "</p>
            " ++ (if truthy notes then dq "<p><strong>Note:</strong> " ++ js_to_string notes ++ dq "</p>" else "") ++ dq "
            
            <div style=`margin-top: 20px; padding: 15px; background-color: #dcfce7; border-left: 4px solid #16a34a;`>
              <p style=`margin: 0;`><strong>Data ordine:</strong> " ++ date ++ dq "</p>
            </div>
          </div>
          
          <div style=`padding: 20px; text-align: center; background-color: #e5e7eb; color: #6b7280;`>
            <p>Questo è un messaggio automatico dal sistema di gestione ordini Olio di Valeria.</p>
          </div>
        </div>
      ".

(** The [html] of the message notification, lines 94-120 *)
Definition message_html (name email request_type message : js) (date : string) : string :=
  dq "
        <div style=`font-family: Arial, sans-serif; max-width: 600px; margin: 0 auto;`>
          <div style=`background-color: #2563eb; color: white; padding: 20px; text-align: center;`>
            <h1>💬 Nuovo Messaggio dal Form Contatti</h1>
          </div>
          
          <div style=`padding: 20px; background-color: #f9f9f9;`>
            <h2>Dettagli Mittente</h2>
            <p><strong>Nome:</strong> " ++ js_to_string name ++ dq "</p>
            <p><strong>Email:</strong> " ++ js_to_string email ++ dq "</p>
            <p><strong>Tipo di richiesta:</strong> " ++ js_to_string request_type ++ dq "</p>
            
            <h2>Messaggio</h2>
            <div style=`background-color: white; padding: 15px; border-radius: 5px; border-left: 4px solid #2563eb;`>
              <p style=`margin: 0; white-space: pre-wrap;`>" ++ js_to_string message ++ dq "</p>
            </div>
            
            <div style=`margin-top: 20px; padding: 15px; background-color: #dbeafe; border-left: 4px solid #2563eb;`>
              <p style=`margin: 0;`><strong>Data messaggio:</strong> " ++ date ++ dq "</p>
            </div>
          </div>
          
          <div style=`padding: 20px; text-align: center; background-color: #e5e7eb; color: #6b7280;`>
            <p>Questo è un messaggio automatico dal sistema di gestione contatti Olio di Valeria.</p>
          </div>
        </div>
      ".

(** [admin?.notification_email] after [.select("notification_email").single()] *)
Definition notification_email_of (r : sb_result Row) : js :=
  match r with
  | SbOk admin => row_get admin "notification_email"
  | SbErr _ => JUndef
  end.

(** [sendNewOrderNotification(orderData)], lines 19-74 *)
Definition sendNewOrderNotification (orderData : js) : App bool :=
  sm_catch (
    r ← sb (select_single admin_users []);
    let notification_email := notification_email_of r in
    if negb (truthy notification_email) then mret false
    else
      createTransporter;;
      customer_name ← prop orderData "customer_name";
      customer_email ← prop orderData "customer_email";
      customer_phone ← prop orderData "customer_phone";
      product_name ← prop orderData "product_name";
      product_size ← prop orderData "product_size";
      quantity ← prop orderData "quantity";
      status ← prop orderData "status";
      notes ← prop orderData "notes";
      t ← now;
      sendMail (mkMail env_SMTP_USER notification_email order_subject
                  (order_html customer_name customer_email customer_phone product_name
                     product_size quantity status notes (to_locale_string_it t)));;
      mret true)
    (fun _ => mret false).

(** [sendNewMessageNotification(messageData)], lines 76-129 *)
Definition sendNewMessageNotification (messageData : js) : App bool :=
  sm_catch (
    r ← sb (select_single admin_users []);
    let notification_email := notification_email_of r in
    if negb (truthy notification_email) then mret false
    else
      createTransporter;;
      name ← prop messageData "name";
      email ← prop messageData "email";
      request_type ← prop messageData "request_type";
      message ← prop messageData "message";
      t ← now;
      sendMail (mkMail env_SMTP_USER notification_email message_subject
                  (message_html name email request_type message (to_locale_string_it t)));;
      mret true)
    (fun _ => mret false).
End Email.

Section EmailProofs.
Context `{Env}.

(** Whatever follows [createTransporter()] is dead code. *)
Lemma createTransporter_throws {A} (c : App A) : (createTransporter ;; c) = sm_throw TypeError.
Proof. reflexivity. Qed.

(** Both dispatchers: the lookup, then [false] or the throw caught into
    [false]. *)
Ltac notify_run :=
  intros; unfold sendNewOrderNotification, sendNewMessageNotification;
  rewrite sm_catch_run, sm_bind_run, sb_select; cbv zeta;
  destruct (negb (truthy _)); [done|];
  rewrite createTransporter_throws; done.

Lemma sendNewOrderNotification_run orderData w :
  sendNewOrderNotification orderData w = (drop_fault w, Ret false).
Proof. notify_run. Qed.

Lemma sendNewMessageNotification_run messageData w :
  sendNewMessageNotification messageData w = (drop_fault w, Ret false).
Proof. notify_run. Qed.

(** C13. An order notification is never delivered: whatever the order and
    the world, [sendNewOrderNotification] answers [false], the outbox
    stays as it was and so does the database; the only trace is the one
    database request it sends. *)
Theorem sendNewOrderNotification_never_sends orderData w :
  (sendNewOrderNotification orderData w).2 = Ret false ∧
  w_outbox (sendNewOrderNotification orderData w).1 = w_outbox w ∧
  w_db (sendNewOrderNotification orderData w).1 = w_db w.
Proof.
  rewrite sendNewOrderNotification_run. unfold drop_fault, next_fault.
  by destruct (w_faults w).
Qed.

(** The same holds of the contact-message notification. *)
Theorem sendNewMessageNotification_never_sends messageData w :
  (sendNewMessageNotification messageData w).2 = Ret false ∧
  w_outbox (sendNewMessageNotification messageData w).1 = w_outbox w ∧
  w_db (sendNewMessageNotification messageData w).1 = w_db w.
Proof.
  rewrite sendNewMessageNotification_run. unfold drop_fault, next_fault.
  by destruct (w_faults w).
Qed.
End EmailProofs.
