(* ===== verification/Intake.v ===== *)
(** * The intake pipeline: orders and contact messages

    The public routes [POST /api/orders] ([src/app/api/orders/route.ts])
    and [POST /api/contact] ([src/app/api/contact/route.ts]) validate a
    submission, insert the primary record with its default status, upsert
    the customer keyed by email, and attempt a notification; the
    administrator's routes [POST /api/admin/orders] and
    [POST /api/admin/messages] do the same without validation. The
    customer upsert and the notification are awaited but their outcome is
    ignored: the response depends only on the validation and the insert. *)

From S2P Require Import Prelude Js Store Crypto Email.

Open Scope string_scope.

Section Intake.
Context `{Env}.

Definition all_fields_required : Response :=
  json [("error", JStr "Tutti i campi obbligatori devono essere compilati")] 400.
Definition invalid_product : Response := json [("error", JStr "Prodotto non valido")] 400.
Definition invalid_size : Response := json [("error", JStr "Formato prodotto non valido")] 400.
Definition order_insert_failed : Response :=
  json [("error", JStr "Errore nella creazione dell'ordine")] 500.

(** [const completeOrderData = { ... }], lines 34-43 *)
Definition completeOrderData (customer_name customer_email customer_phone product_name
                              product_size quantity notes : js) : list (string * js) :=
  [("customer_name", customer_name);
   ("customer_email", customer_email);
   ("customer_phone", js_or customer_phone JNull);
   ("product_name", product_name);
   ("product_size", product_size);
   ("quantity", JNum (parseInt_or_1 quantity));
   ("status", JStr "Appena ordinato");
   ("notes", js_or notes JNull)].

(** [await supabase.from("clients").upsert({...}, { onConflict: "email" })]:
    the result is not looked at. *)
Definition upsert_client (fields : list (string * js)) : App unit :=
  t ← now;
  sb (upsert_clients (json_fields fields) t);;
  mret tt.

(** [try { await notify(data) } catch { }] *)
Definition notify_best_effort (notify : js -> App bool) (data : js) : App unit :=
  sm_catch (notify data;; mret tt) (fun _ => mret tt).

(** [POST /api/orders], lines 5-83 *)
Definition orders_POST (body : option js) : App Response :=
  sm_catch (
    orderData ← read_json body;
    customer_name ← prop orderData "customer_name";
    customer_email ← prop orderData "customer_email";
    product_name ← prop orderData "product_name";
    product_size ← prop orderData "product_size";
    quantity ← prop orderData "quantity";
    if negb (truthy customer_name) || negb (truthy customer_email) || negb (truthy product_name)
       || negb (truthy product_size) || negb (truthy quantity)
    then mret all_fields_required
    else
      r ← sb (select_single products [("name", product_name)]);
      match r with
      | SbErr _ => mret invalid_product
      | SbOk product =>
          included ← of_opt (js_includes (row_get product "sizes") product_size);
          if negb included then mret invalid_size
          else
            customer_phone ← prop orderData "customer_phone";
            notes ← prop orderData "notes";
            let data := completeOrderData customer_name customer_email customer_phone
                          product_name product_size quantity notes in
            t ← now;
            ins ← sb (insert orders (json_fields data) t);
            match ins with
            | SbErr _ => mret order_insert_failed
            | SbOk order =>
                upsert_client [("email", customer_email); ("phone", customer_phone);
                               ("name", customer_name)];;
                notify_best_effort sendNewOrderNotification (jobj data);;
                mret (json [("message", JStr "Ordine creato con successo");
                            ("order_id", row_get order "id")] 200)
            end
      end)
    (fun _ => mret internal_error).

Definition valid_request_types : list string :=
  ["Informazioni generali"; "Ordini e consegna"; "Collaborazioni"; "Visita in azienda"; "Altro"].

Definition all_fields_mandatory : Response :=
  json [("error", JStr "Tutti i campi sono obbligatori")] 400.
Definition invalid_request_type : Response :=
  json [("error", JStr "Tipo di richiesta non valido")] 400.
Definition message_insert_failed : Response :=
  json [("error", JStr "Errore nell'invio del messaggio")] 500.

(** [const messageData = { ... }], lines 21-27 *)
Definition messageData (name email request_type message : js) : list (string * js) :=
  [("name", name); ("email", email); ("request_type", request_type);
   ("message", message); ("status", JStr "Nuovo")].

(** [POST /api/contact], lines 5-66 *)
Definition contact_POST (body : option js) : App Response :=
  sm_catch (
    b ← read_json body;
    name ← prop b "name";
    email ← prop b "email";
    request_type ← prop b "request_type";
    message ← prop b "message";
    if negb (truthy name) || negb (truthy email) || negb (truthy request_type) || negb (truthy message)
    then mret all_fields_mandatory
    else if negb (includes_str valid_request_types request_type) then mret invalid_request_type
    else
      let data := messageData name email request_type message in
      t ← now;
      ins ← sb (insert messages (json_fields data) t);
      match ins with
      | SbErr _ => mret message_insert_failed
      | SbOk newMessage =>
          upsert_client [("email", email); ("name", name)];;
          notify_best_effort sendNewMessageNotification (jobj data);;
          mret (json [("message", JStr "Messaggio inviato con successo");
                      ("id", row_get newMessage "id")] 200)
      end)
    (fun _ => mret internal_error).

(** [POST /api/admin/orders], lines 23-58: the body is inserted as it is. *)
Definition admin_orders_POST (body : option js) : App Response :=
  sm_catch (
    orderData ← read_json body;
    t ← now;
    ins ← sb (insert_json orders orderData t);
    match ins with
    | SbErr _ => mret order_insert_failed
    | SbOk order =>
        customer_email ← prop orderData "customer_email";
        customer_phone ← prop orderData "customer_phone";
        customer_name ← prop orderData "customer_name";
        upsert_client [("email", customer_email); ("phone", customer_phone);
                       ("name", customer_name)];;
        notify_best_effort sendNewOrderNotification orderData;;
        mret (json [("order", row_js order)] 200)
    end)
    (fun _ => mret internal_error).

(** [POST /api/admin/messages], lines 26-64 *)
Definition admin_messages_POST (body : option js) : App Response :=
  sm_catch (
    messageData ← read_json body;
    t ← now;
    ins ← sb (insert_json messages messageData t);
    match ins with
    | SbErr _ => mret (json [("error", JStr "Errore nella creazione del messaggio")] 500)
    | SbOk message =>
        email ← prop messageData "email";
        name ← prop messageData "name";
        upsert_client [("email", email); ("name", name)];;
        notify_best_effort sendNewMessageNotification messageData;;
        mret (json [("message", row_js message)] 200)
    end)
    (fun _ => mret internal_error).
End Intake.

Open Scope list_scope.

(** A submission [POST /api/orders] accepts against [db]: every required
    field truthy, the product found with [product] and the size among its
    sizes. *)
Definition order_ok (l : list (string * js)) (db : DB) (product : Row) : Prop :=
  let f k := js_get_opt (JObj l) k in
  truthy (f "customer_name") = true ∧ truthy (f "customer_email") = true ∧
  truthy (f "product_name") = true ∧ truthy (f "product_size") = true ∧
  truthy (f "quantity") = true ∧
  (select_single products [("name", f "product_name")] db).1 = SbOk product ∧
  js_includes (row_get product "sizes") (f "product_size") = Some true.

Section IntakeProofs.
Context `{Env}.

Local Abbreviation fld l k := (js_get_opt (JObj l) k).

(** The two best-effort steps of the pipeline. *)
Lemma upsert_client_run f w :
  upsert_client f w =
  (if request_ok w
   then set_db (drop_fault w) (upsert_clients (json_fields f) (w_now w) (w_db w)).2
   else drop_fault w, Ret tt).
Proof.
  unfold upsert_client. handler_simpl. rewrite sb_run. by destruct (request_ok w).
Qed.

Lemma upsert_client_tables f w t :
  t <> clients -> get_table (w_db (upsert_client f w).1) t = get_table (w_db w) t.
Proof.
  intros Ht. rewrite upsert_client_run.
  destruct (request_ok w); simpl; autorewrite with backend_rw; [|done].
  by apply upsert_clients_other.
Qed.

Lemma upsert_client_ret f w : (upsert_client f w).2 = Ret tt.
Proof. by rewrite upsert_client_run. Qed.

Lemma notify_order_run d w :
  notify_best_effort sendNewOrderNotification d w = (drop_fault w, Ret tt).
Proof.
  unfold notify_best_effort. rewrite sm_catch_run, sm_bind_run, sendNewOrderNotification_run.
  done.
Qed.

Lemma notify_message_run d w :
  notify_best_effort sendNewMessageNotification d w = (drop_fault w, Ret tt).
Proof.
  unfold notify_best_effort. rewrite sm_catch_run, sm_bind_run, sendNewMessageNotification_run.
  done.
Qed.

(** The id of a new row whose payload has no [id] column. *)
Lemma row_get_new_row_id db t payload :
  assoc_last "id" payload = None -> row_get (new_row db t payload) "id" = JNum (Z.of_nat (next_id db)).
Proof. intros Hp. unfold row_get, new_row. by rewrite assoc_last_app, Hp. Qed.

Definition order_created (id : js) : Response :=
  json [("message", JStr "Ordine creato con successo"); ("order_id", id)] 200.

(** The order the public route records for a submission [l], in [db] at [t]. *)
Definition order_row (l : list (string * js)) (db : DB) (t : Z) : Row :=
  new_row db t (json_fields (completeOrderData (fld l "customer_name") (fld l "customer_email")
                 (fld l "customer_phone") (fld l "product_name") (fld l "product_size")
                 (fld l "quantity") (fld l "notes"))).

(** The whole successful run of [POST /api/orders]: catalogue lookup and
    insert go through; the upsert and the notification then run and
    their outcome is dropped. *)
Lemma orders_POST_success_run l w product :
  truthy (fld l "customer_name") = true -> truthy (fld l "customer_email") = true ->
  truthy (fld l "product_name") = true -> truthy (fld l "product_size") = true ->
  truthy (fld l "quantity") = true ->
  request_ok w = true ->
  (select_single products [("name", fld l "product_name")] (w_db w)).1 = SbOk product ->
  js_includes (row_get product "sizes") (fld l "product_size") = Some true ->
  request_ok (drop_fault w) = true ->
  let w2 := set_db (drop_fault (drop_fault w))
              (set_table (bump_id (w_db w)) orders
                 (t_orders (w_db w) ++ [order_row l (w_db w) (w_now w)])) in
  orders_POST (Some (JObj l)) w =
  (drop_fault (upsert_client [("email", fld l "customer_email"); ("phone", fld l "customer_phone");
                              ("name", fld l "customer_name")] w2).1,
   Ret (order_created (JNum (Z.of_nat (next_id (w_db w)))))).
Proof.
  intros H1 H2 H3 H4 H5 Hok Hp Hs Hok2 w2.
  unfold orders_POST. handler_simpl. rewrite !js_get_obj. handler_simpl.
  rewrite H1, H2, H3, H4, H5. handler_simpl.
  rewrite sb_select, Hok, Hp. handler_simpl. rewrite Hs. handler_simpl.
  rewrite sb_run, Hok2, insert_no_constraint by (done || by apply columns_ok_json_fields).
  handler_simpl. autorewrite with backend_rw.
  rewrite (surjective_pairing (upsert_client _ _)), upsert_client_ret. handler_simpl.
  rewrite notify_order_run. handler_simpl.
  rewrite row_get_new_row_id by (apply assoc_last_json_fields_none; reflexivity).
  done.
Qed.
(** The status and quantity of the recorded row, whichever optional
    fields the submission had. *)
Ltac json_fields_cases :=
  unfold row_get, order_row, new_row, json_fields, completeOrderData; simpl;
  repeat (destruct (is_defined _); simpl); reflexivity.

Lemma order_row_status l db t : row_get (order_row l db t) "status" = JStr "Appena ordinato".
Proof. json_fields_cases. Qed.

Lemma order_row_quantity l db t :
  row_get (order_row l db t) "quantity" = JNum (parseInt_or_1 (fld l "quantity")).
Proof. json_fields_cases. Qed.

(** C10. An order whose size is not among the product's sizes is refused
    with 400 "Formato prodotto non valido" after the catalogue lookup,
    and nothing is written: the database is the one before the request. *)
Theorem orders_POST_rejects_bad_size l w product :
  truthy (fld l "customer_name") = true -> truthy (fld l "customer_email") = true ->
  truthy (fld l "product_name") = true -> truthy (fld l "product_size") = true ->
  truthy (fld l "quantity") = true ->
  request_ok w = true ->
  (select_single products [("name", fld l "product_name")] (w_db w)).1 = SbOk product ->
  js_includes (row_get product "sizes") (fld l "product_size") = Some false ->
  orders_POST (Some (JObj l)) w = (drop_fault w, Ret invalid_size) ∧
  w_db (drop_fault w) = w_db w.
Proof.
  intros H1 H2 H3 H4 H5 Hok Hp Hs. split; [|apply w_db_drop_fault].
  unfold orders_POST. handler_simpl. rewrite !js_get_obj. handler_simpl.
  rewrite H1, H2, H3, H4, H5. handler_simpl.
  rewrite sb_select, Hok, Hp. handler_simpl. by rewrite Hs.
Qed.

(** C4. A valid order is recorded once the catalogue lookup and the
    insert go through, whatever happens to the customer upsert and to the
    notification afterwards: the response is 200 with the new order's id,
    the orders table gains exactly the new row, and that row has the
    status "Appena ordinato". *)
Theorem orders_POST_records_order l w product :
  truthy (fld l "customer_name") = true -> truthy (fld l "customer_email") = true ->
  truthy (fld l "product_name") = true -> truthy (fld l "product_size") = true ->
  truthy (fld l "quantity") = true ->
  request_ok w = true ->
  (select_single products [("name", fld l "product_name")] (w_db w)).1 = SbOk product ->
  js_includes (row_get product "sizes") (fld l "product_size") = Some true ->
  request_ok (drop_fault w) = true ->
  ∃ w', orders_POST (Some (JObj l)) w =
          (w', Ret (order_created (JNum (Z.of_nat (next_id (w_db w)))))) ∧
        t_orders (w_db w') = t_orders (w_db w) ++ [order_row l (w_db w) (w_now w)] ∧
        row_get (order_row l (w_db w) (w_now w)) "status" = JStr "Appena ordinato".
Proof.
  intros H1 H2 H3 H4 H5 Hok Hp Hs Hok2.
  rewrite (orders_POST_success_run l w product) by done.
  eexists. split; [done|]. split; [|apply order_row_status].
  rewrite w_db_drop_fault, t_orders_get, upsert_client_tables by done.
  by rewrite w_db_set_db, get_set_table, decide_True.
Qed.

(** C26. The quantity is normalised with [Number.parseInt(q) || 1] and
    never checked to be positive: a submission whose quantity is the
    decimal string of any non-zero integer [n], negative ones included, is
    recorded with quantity [n]. The spec requires quantity >= 1. *)
Theorem orders_POST_quantity_unchecked l w product n :
  fld l "quantity" = JStr (num_to_string n) -> n <> 0%Z ->
  truthy (fld l "customer_name") = true -> truthy (fld l "customer_email") = true ->
  truthy (fld l "product_name") = true -> truthy (fld l "product_size") = true ->
  request_ok w = true ->
  (select_single products [("name", fld l "product_name")] (w_db w)).1 = SbOk product ->
  js_includes (row_get product "sizes") (fld l "product_size") = Some true ->
  request_ok (drop_fault w) = true ->
  ∃ w' row, orders_POST (Some (JObj l)) w =
              (w', Ret (order_created (JNum (Z.of_nat (next_id (w_db w)))))) ∧
            t_orders (w_db w') = t_orders (w_db w) ++ [row] ∧
            row_get row "quantity" = JNum n.
Proof.
  intros Hq Hn H1 H2 H3 H4 Hok Hp Hs Hok2.
  assert (truthy (fld l "quantity") = true) as H5 by (rewrite Hq; apply num_to_string_nonempty).
  rewrite (orders_POST_success_run l w product) by done.
  eexists _, (order_row l (w_db w) (w_now w)). split; [done|]. split.
  - rewrite w_db_drop_fault, t_orders_get, upsert_client_tables by done.
    by rewrite w_db_set_db, get_set_table, decide_True.
  - rewrite order_row_quantity, Hq, parseInt_or_1_num_string.
    by destruct (Z.eqb_spec n 0).
Qed.
Definition message_sent (id : js) : Response :=
  json [("message", JStr "Messaggio inviato con successo"); ("id", id)] 200.

(** The message the contact route records for a submission [l]. *)
Definition message_row (l : list (string * js)) (db : DB) (t : Z) : Row :=
  new_row db t (json_fields (messageData (fld l "name") (fld l "email")
                              (fld l "request_type") (fld l "message"))).

(** A contact message whose request type is not one of the five
    categories is refused with 400 "Tipo di richiesta non valido" before
    any request is sent: the world is left exactly as it was. *)
Theorem contact_POST_rejects_bad_type l w :
  truthy (fld l "name") = true -> truthy (fld l "email") = true ->
  truthy (fld l "request_type") = true -> truthy (fld l "message") = true ->
  includes_str valid_request_types (fld l "request_type") = false ->
  contact_POST (Some (JObj l)) w = (w, Ret invalid_request_type).
Proof.
  intros H1 H2 H3 H4 Ht.
  unfold contact_POST. handler_simpl. rewrite !js_get_obj. handler_simpl.
  rewrite H1, H2, H3, H4. handler_simpl. by rewrite Ht.
Qed.

(** C21. A valid contact message is recorded with status "Nuovo" once
    its insert goes through, whatever the customer upsert and the
    notification do afterwards: the response is 200 with the new id and
    the messages table gains exactly the new row. *)
Theorem contact_POST_records_message l w :
  truthy (fld l "name") = true -> truthy (fld l "email") = true ->
  truthy (fld l "request_type") = true -> truthy (fld l "message") = true ->
  includes_str valid_request_types (fld l "request_type") = true ->
  request_ok w = true ->
  ∃ w', contact_POST (Some (JObj l)) w =
          (w', Ret (message_sent (JNum (Z.of_nat (next_id (w_db w)))))) ∧
        t_messages (w_db w') = t_messages (w_db w) ++ [message_row l (w_db w) (w_now w)] ∧
        row_get (message_row l (w_db w) (w_now w)) "status" = JStr "Nuovo".
Proof.
  intros H1 H2 H3 H4 Ht Hok.
  unfold contact_POST. handler_simpl. rewrite !js_get_obj. handler_simpl.
  rewrite H1, H2, H3, H4. handler_simpl. rewrite Ht. handler_simpl.
  rewrite sb_run, Hok, insert_no_constraint by (done || by apply columns_ok_json_fields).
  handler_simpl. autorewrite with backend_rw.
  rewrite (surjective_pairing (upsert_client _ _)), upsert_client_ret. handler_simpl.
  rewrite notify_message_run. handler_simpl.
  rewrite row_get_new_row_id by (apply assoc_last_json_fields_none; reflexivity).
  eexists. split; [done|]. split.
  - match goal with |- context [upsert_client ?f ?w2] =>
      pose proof (upsert_client_tables f w2 messages) as Hm;
      destruct (upsert_client f w2) as [w3 o] end.
    cbv beta iota. cbn [fst] in Hm. rewrite w_db_drop_fault, t_messages_get, Hm by done.
    by rewrite w_db_set_db, get_set_table, decide_True.
  - unfold row_get, message_row, new_row, json_fields, messageData. simpl.
    repeat (destruct (is_defined _); simpl); reflexivity.
Qed.

(** *** The customer directory after orders *)

Lemma truthy_defined v : truthy v = true -> is_defined v = true.
Proof. by destruct v. Qed.

Lemma drop_fault_nil w : w_faults w = [] -> drop_fault w = w.
Proof. unfold drop_fault, next_fault. by intros ->. Qed.

Lemma request_ok_nil w : w_faults w = [] -> request_ok w = true.
Proof. unfold request_ok. by intros ->. Qed.

(** The payload the route upserts: its email, its name, and its phone
    whenever the submission has one. *)
Lemma upsert_payload_fields e ph nm :
  is_defined nm = true ->
  let p := json_fields [("email", JStr e); ("phone", ph); ("name", nm)] in
  email_key p = Some e ∧ assoc_last "name" p = Some nm ∧
  (is_defined ph = true -> assoc_last "phone" p = Some ph).
Proof.
  intros Hn p. unfold p, email_key, row_get, json_fields. cbn [List.filter is_defined fst snd].
  rewrite Hn. destruct (is_defined ph); cbn; done.
Qed.

(** One accepted order, with every request answered: the directory
    holds exactly one client with the order's email, named as in the
    order, with its phone if it has one. *)
Lemma orders_POST_client l w product e :
  order_ok l (w_db w) product -> w_faults w = [] -> fld l "customer_email" = JStr e ->
  clients_unique (t_clients (w_db w)) ->
  let w' := (orders_POST (Some (JObj l)) w).1 in
  w_faults w' = [] ∧ get_table (w_db w') products = get_table (w_db w) products ∧
  clients_unique (t_clients (w_db w')) ∧
  ∃ r, clients_with e (t_clients (w_db w')) = [r] ∧ row_get r "name" = fld l "customer_name" ∧
       (is_defined (fld l "customer_phone") = true -> row_get r "phone" = fld l "customer_phone").
Proof.
  intros (H1 & H2 & H3 & H4 & H5 & Hp & Hs) Hf He Hu w'. unfold w'.
  rewrite (orders_POST_success_run l w product) by (rewrite ?drop_fault_nil; auto using request_ok_nil).
  cbv zeta. rewrite !(drop_fault_nil w) by done.
  set (X := set_table (bump_id (w_db w)) orders _).
  assert (w_faults (set_db w X) = []) as Hf' by exact Hf.
  rewrite upsert_client_run, (request_ok_nil (set_db w X)), (drop_fault_nil (set_db w X)) by exact Hf'.
  rewrite drop_fault_nil by exact Hf'. cbn [fst]. rewrite !w_db_set_db.
  assert (t_clients X = t_clients (w_db w)) as HX.
  { unfold X. by rewrite !t_clients_get, get_set_table, decide_False, get_table_bump. }
  rewrite w_now_set_db.
  destruct (upsert_payload_fields e (fld l "customer_phone") (fld l "customer_name")) as (Hk & Hn & Hph).
  { by apply truthy_defined. }
  rewrite He. split; [done|]. split.
  { rewrite upsert_clients_other by done. unfold X. by rewrite get_set_table, decide_False, get_table_bump. }
  split; [apply upsert_clients_unique; by rewrite HX|].
  edestruct upsert_clients_one as (r & Hr & Hcols); [rewrite HX; exact Hu| |exact Hk|].
  { apply columns_ok_json_fields. reflexivity. }
  exists r. split; [exact Hr|]. split; [by apply Hcols|]. intros Hd. by apply Hcols, Hph.
Qed.

Lemma order_ok_products l db db' product :
  get_table db' products = get_table db products -> order_ok l db product -> order_ok l db' product.
Proof. unfold order_ok, select_single. by intros ->. Qed.

(** C7. Two accepted orders with the same customer email, every request
    answered, leave exactly one client with that email (section 8 of the
    spec), named as in the later order and with the later order's phone
    whenever it has one: a [null] phone overwrites the stored one, where
    the spec merges only non-null fields. *)
Theorem two_orders_one_client l1 l2 w p1 p2 e :
  w_faults w = [] -> clients_unique (t_clients (w_db w)) ->
  order_ok l1 (w_db w) p1 -> order_ok l2 (w_db w) p2 ->
  fld l1 "customer_email" = JStr e -> fld l2 "customer_email" = JStr e ->
  let w2 := (orders_POST (Some (JObj l2)) (orders_POST (Some (JObj l1)) w).1).1 in
  ∃ r, clients_with e (t_clients (w_db w2)) = [r] ∧ row_get r "name" = fld l2 "customer_name" ∧
       (is_defined (fld l2 "customer_phone") = true -> row_get r "phone" = fld l2 "customer_phone").
Proof.
  intros Hf Hu Ok1 Ok2 He1 He2 w2.
  destruct (orders_POST_client l1 w p1 e Ok1 Hf He1 Hu) as (Hf1 & Hp1 & Hu1 & _).
  apply (orders_POST_client l2 _ p2 e); [|done..]. by apply (order_ok_products _ (w_db w)).
Qed.
End IntakeProofs.

Import Crypto.Reference.
From S2P Require Import Fixtures.
Open Scope list_scope.

Definition order_submission (size q : js) : list (string * js) :=
  [("customer_name", JStr "Mario Rossi"); ("customer_email", JStr "mario@example.com");
   ("product_name", JStr "Olio Extra Vergine"); ("product_size", size); ("quantity", q)].

Definition contact_submission (ty : js) : list (string * js) :=
  [("name", JStr "Anna Bianchi"); ("email", JStr "anna@example.com");
   ("request_type", ty); ("message", JStr "Vorrei visitare il frantoio")].

Lemma orders_POST_rejects_bad_size_witness :
  orders_POST (Some (JObj (order_submission (JStr "2L") (JNum 2)))) (world0 [])
  = (drop_fault (world0 []), Ret invalid_size) ∧
  w_db (drop_fault (world0 [])) = w_db (world0 []).
Proof. apply (orders_POST_rejects_bad_size _ _ product_row); reflexivity. Defined.

Lemma orders_POST_records_order_witness :
  ∃ w', orders_POST (Some (JObj (order_submission (JStr "1L") (JNum 2)))) (world0 []) =
          (w', Ret (order_created (JNum (Z.of_nat (next_id (w_db (world0 []))))))) ∧
        t_orders (w_db w') = t_orders (w_db (world0 []))
          ++ [order_row (order_submission (JStr "1L") (JNum 2)) (w_db (world0 [])) (w_now (world0 []))] ∧
        row_get (order_row (order_submission (JStr "1L") (JNum 2)) (w_db (world0 [])) (w_now (world0 [])))
          "status" = JStr "Appena ordinato".
Proof. apply (orders_POST_records_order _ _ product_row); reflexivity. Defined.

Lemma orders_POST_quantity_unchecked_witness :
  ∃ w' row, orders_POST (Some (JObj (order_submission (JStr "1L") (JStr (num_to_string (-3))))))
                         (world0 [false; false; true]) =
              (w', Ret (order_created (JNum (Z.of_nat (next_id (w_db (world0 [false; false; true]))))))) ∧
            t_orders (w_db w') = t_orders (w_db (world0 [false; false; true])) ++ [row] ∧
            row_get row "quantity" = JNum (-3).
Proof. apply (orders_POST_quantity_unchecked _ _ product_row); try reflexivity; discriminate. Defined.

Lemma contact_POST_rejects_bad_type_witness :
  contact_POST (Some (JObj (contact_submission (JStr "Reclamo")))) (world0 [])
  = (world0 [], Ret invalid_request_type).
Proof. apply contact_POST_rejects_bad_type; reflexivity. Defined.

Lemma contact_POST_records_message_witness :
  ∃ w', contact_POST (Some (JObj (contact_submission (JStr "Visita in azienda")))) (world0 [false; true]) =
          (w', Ret (message_sent (JNum (Z.of_nat (next_id (w_db (world0 [false; true]))))))) ∧
        t_messages (w_db w') = t_messages (w_db (world0 [false; true]))
          ++ [message_row (contact_submission (JStr "Visita in azienda")) (w_db (world0 [false; true]))
                          (w_now (world0 [false; true]))] ∧
        row_get (message_row (contact_submission (JStr "Visita in azienda")) (w_db (world0 [false; true]))
                             (w_now (world0 [false; true]))) "status" = JStr "Nuovo".
Proof. apply contact_POST_records_message; reflexivity. Defined.

Lemma two_orders_one_client_witness :
  let l1 := order_submission (JStr "1L") (JNum 2) ++ [("customer_phone", JStr "333 1234567")] in
  let l2 := order_submission (JStr "5L") (JNum 1) ++ [("customer_phone", JNull)] in
  let w2 := (orders_POST (Some (JObj l2)) (orders_POST (Some (JObj l1)) (world0 [])).1).1 in
  ∃ r, clients_with "mario@example.com" (t_clients (w_db w2)) = [r] ∧
       row_get r "name" = js_get_opt (JObj l2) "customer_name" ∧
       (is_defined (js_get_opt (JObj l2) "customer_phone") = true ->
        row_get r "phone" = js_get_opt (JObj l2) "customer_phone").
Proof.
  apply (two_orders_one_client _ _ _ product_row product_row);
    [reflexivity|constructor|vm_compute; repeat split|vm_compute; repeat split|reflexivity..].
Defined.
