(* ===== verification/Registry.v ===== *)
(** * The clients table as a registry keyed by email

    The spec (sections 3 and 8) describes the customers as records
    identified by their email, which each order or message merges into.
    This file states that contract on stdpp's finite maps: the abstract
    state is a [gmap] from email to the client's attributes (itself a
    [gmap] from column to value), and one submission is the abstract
    operation [reg_upsert]: the attributes it sends override those
    already recorded, or those a new row starts with.

    The abstraction function [registry] reads the clients table (a list
    of rows, as [Store] keeps it) as such a map. The lemmas show that the
    PostgREST [upsert ... onConflict: "email"] ([Store.upsert_clients],
    called by [upsert_client]) is [reg_upsert] on the registry; the
    theorem shows that the route [POST /api/orders] refines it: an
    accepted order applies [reg_upsert] to its email with exactly the
    fields the route sends ([email], [phone], [name]). *)

From stdpp Require Import gmap.
From S2P Require Import Prelude Js Store Crypto Intake.

Open Scope string_scope.

(** A row's attributes: its columns, the last binding of each winning. *)
Definition attrs (r : Row) : gmap string js := foldl (fun m kv => <[kv.1 := kv.2]> m) ∅ r.

(** The registry a clients table denotes: each email to the attributes of
    the (last) row that has it; rows without an email are not in it. *)
Definition registry (rs : list Row) : gmap string (gmap string js) :=
  foldl (fun m r => match email_key r with Some e => <[e := attrs r]> m | None => m end) ∅ rs.

(** The abstract submission: [fields] override the attributes recorded
    for [e], or [fresh], those of a client that did not exist. *)
Definition reg_upsert (e : string) (fields fresh : gmap string js)
    (m : gmap string (gmap string js)) : gmap string (gmap string js) :=
  <[e := fields ∪ default fresh (m !! e)]> m.

(** ** Proofs *)

Open Scope list_scope.

Lemma attrs_lookup_acc r (m : gmap string js) k :
  foldl (fun m kv => <[kv.1 := kv.2]> m) m r !! k =
  match assoc_last k r with Some v => Some v | None => m !! k end.
Proof.
  revert m. induction r as [|[k' v] r IH]; intros m; [done|]. cbn [foldl assoc_last fst snd].
  rewrite IH. destruct (assoc_last k r); [done|].
  destruct (String.eqb_spec k k') as [->|Hne]; [by rewrite lookup_insert_eq|by rewrite lookup_insert_ne].
Qed.

Lemma attrs_lookup r k : attrs r !! k = assoc_last k r.
Proof. unfold attrs. rewrite attrs_lookup_acc. by destruct (assoc_last k r). Qed.

(** Appending columns overrides: [r ++ payload] has the attributes of
    [payload] over those of [r]. *)
Lemma attrs_app r1 r2 : attrs (r1 ++ r2) = attrs r2 ∪ attrs r1.
Proof.
  apply map_eq. intros k. rewrite lookup_union, !attrs_lookup, assoc_last_app.
  by destruct (assoc_last k r2), (assoc_last k r1).
Qed.

Lemma registry_lookup_acc rs (m : gmap string (gmap string js)) e :
  foldl (fun m r => match email_key r with Some e => <[e := attrs r]> m | None => m end) m rs !! e =
  match list.last (clients_with e rs) with Some r => Some (attrs r) | None => m !! e end.
Proof.
  revert m. induction rs as [|r rs IH]; intros m; [done|]. cbn [foldl]. rewrite IH, clients_with_cons.
  case_bool_decide as Hr.
  - rewrite Hr, list.last_cons. destruct (list.last (clients_with e rs)); [done|]. by rewrite lookup_insert_eq.
  - destruct (list.last (clients_with e rs)); [done|]. destruct (email_key r) as [e'|]; [|done].
    rewrite lookup_insert_ne; [done|]. intros ->. by apply Hr.
Qed.

(** The registry reads an email from the last row that has it. *)
Lemma registry_lookup rs e : registry rs !! e = attrs <$> list.last (clients_with e rs).
Proof. unfold registry. rewrite registry_lookup_acc. by destruct (list.last _). Qed.

Lemma clients_with_update_other e e' payload rs :
  email_key payload = Some e -> e' <> e ->
  clients_with e' (map (fun r => if bool_decide (email_key r = Some e) then r ++ payload else r) rs)
  = clients_with e' rs.
Proof.
  intros Hp Hne. induction rs as [|r rs IH]; [done|]. cbn [map]. rewrite !clients_with_cons, IH.
  destruct (decide (email_key r = Some e)) as [Hr|Hr].
  - rewrite (bool_decide_eq_true_2 (email_key r = Some e)) by done.
    rewrite email_key_app by (unfold email_key, row_get in Hp; by destruct (assoc_last _ _)).
    rewrite Hp, Hr, bool_decide_eq_false_2; [done|]. intros [= ?]; congruence.
  - by rewrite (bool_decide_eq_false_2 (email_key r = Some e)).
Qed.

Lemma last_map_Some {A B} (f : A -> B) l x : list.last l = Some x -> list.last (map f l) = Some (f x).
Proof.
  destruct l as [|y l]; [done|]. revert y. induction l as [|z l IH]; intros y Hl.
  - cbn in *. by injection Hl as <-.
  - change (list.last (z :: l) = Some x) in Hl. exact (IH z Hl).
Qed.

Lemma registry_ext (m1 m2 : gmap string (gmap string js)) : (∀ e, m1 !! e = m2 !! e) -> m1 = m2.
Proof. apply map_eq. Qed.

Lemma clients_with_taken e rs : email_taken rs e = true -> ∃ r, list.last (clients_with e rs) = Some r.
Proof.
  intros Ht. destruct (list.last (clients_with e rs)) as [r|] eqn:Hl; [by eexists|].
  apply last_None in Hl. unfold email_taken in Ht. apply existsb_exists in Ht as (r & Hin & Hr).
  assert (In r (clients_with e rs)) as Hin' by (apply filter_In; done). by rewrite Hl in Hin'.
Qed.

Lemma clients_with_not_taken e rs : email_taken rs e = false -> clients_with e rs = [].
Proof. intros Ht. by apply clients_with_nil, email_not_taken. Qed.

Lemma new_row_app db now payload : new_row db now payload = new_row db now [] ++ payload.
Proof. unfold new_row. by rewrite app_nil_r. Qed.

(** An insert of a row that passes the constraint, as the registry sees
    it: only the row's email, if it has one, is (re)bound. *)
Lemma registry_insert_lookup payload now db e' :
  columns_ok clients payload = true -> unique_ok clients (t_clients db) (new_row db now payload) = true ->
  registry (t_clients (insert clients payload now db).2) !! e' =
  if bool_decide (email_key payload = Some e') then Some (attrs (new_row db now payload))
  else registry (t_clients db) !! e'.
Proof.
  intros Hc Hu. unfold insert. rewrite Hc, <-t_clients_get, Hu. cbn [andb snd].
  rewrite t_clients_get, get_set_table, decide_True by done.
  rewrite !registry_lookup, clients_with_app. cbn [clients_with List.filter].
  rewrite email_key_new_row. case_bool_decide; [by rewrite last_snoc|by rewrite app_nil_r].
Qed.

(** [Store.upsert_clients] refines [reg_upsert]: a payload with an email
    [e] binds [e] to its attributes over the recorded ones (or over a new
    row's), a payload without one leaves the registry as it was, and a
    refused payload changes nothing. *)
Lemma registry_upsert_clients payload now db :
  registry (t_clients (upsert_clients payload now db).2) =
  if columns_ok clients payload then
    match email_key payload with
    | Some e => reg_upsert e (attrs payload) (attrs (new_row db now [])) (registry (t_clients db))
    | None => registry (t_clients db)
    end
  else registry (t_clients db).
Proof.
  unfold upsert_clients. destruct (columns_ok clients payload) eqn:Hc; [|done].
  apply registry_ext. intros e'.
  destruct (email_key payload) as [e|] eqn:He; [destruct (email_taken (t_clients db) e) eqn:Ht|].
  - cbn [snd]. rewrite t_clients_get, get_set_table, decide_True by done.
    unfold reg_upsert. rewrite !registry_lookup.
    destruct (String.eqb_spec e' e) as [->|Hne].
    + destruct (clients_with_taken _ _ Ht) as [r Hr].
      rewrite lookup_insert_eq, clients_with_update, (last_map_Some _ _ _ Hr), Hr by done.
      cbn [fmap option_fmap option_map default]. by rewrite attrs_app.
    + by rewrite lookup_insert_ne, clients_with_update_other, registry_lookup by done.
  - rewrite registry_insert_lookup by (done || by unfold unique_ok; rewrite email_key_new_row, He, Ht).
    unfold reg_upsert. rewrite He, (registry_lookup _ e), clients_with_not_taken by done.
    case_bool_decide as Hk.
    + injection Hk as <-. by rewrite lookup_insert_eq, new_row_app, attrs_app.
    + rewrite lookup_insert_ne by congruence. by rewrite registry_lookup.
  - rewrite registry_insert_lookup by (done || by unfold unique_ok; rewrite email_key_new_row, He).
    by rewrite He, bool_decide_eq_false_2.
Qed.

Section Claim.
Context `{Bcrypt, Jwt, Env}.

(** The customer step on its own: the registry after [upsert_client
    fields] is [reg_upsert] applied to the one before it, the submitted
    fields overriding the recorded ones; a submission without an email, a
    refused payload or a failed request leave it as it was. *)
Lemma upsert_client_registry fields w :
  registry (t_clients (w_db (upsert_client fields w).1)) =
  if request_ok w && columns_ok clients (json_fields fields) then
    match email_key (json_fields fields) with
    | Some e => reg_upsert e (attrs (json_fields fields)) (attrs (new_row (w_db w) (w_now w) []))
                           (registry (t_clients (w_db w)))
    | None => registry (t_clients (w_db w))
    end
  else registry (t_clients (w_db w)).
Proof.
  rewrite upsert_client_run. destruct (request_ok w); cbn [andb fst]; [|by rewrite w_db_drop_fault].
  rewrite w_db_set_db. apply registry_upsert_clients.
Qed.

Lemma new_row_set_table db t rs now payload : new_row (set_table db t rs) now payload = new_row db now payload.
Proof. by destruct db, t. Qed.

(** C8. [POST /api/orders] refines the abstract registry: an accepted
    order, every request answered, binds its customer's email to the
    attributes the route sends, [{ email, phone, name }] as
    [JSON.stringify] keeps them ([null] included), over those recorded
    for that email or those of a new row; every other email keeps its
    attributes. *)
Theorem orders_POST_refines_registry l w product e :
  order_ok l (w_db w) product -> w_faults w = [] -> js_get_opt (JObj l) "customer_email" = JStr e ->
  registry (t_clients (w_db (orders_POST (Some (JObj l)) w).1)) =
  reg_upsert e (attrs (json_fields [("email", JStr e); ("phone", js_get_opt (JObj l) "customer_phone");
                                    ("name", js_get_opt (JObj l) "customer_name")]))
             (attrs (new_row (bump_id (w_db w)) (w_now w) [])) (registry (t_clients (w_db w))).
Proof.
  intros (Hn & Hm & Hpn & Hps & Hq & Hp & Hs) Hf He.
  rewrite (orders_POST_success_run l w product) by (rewrite ?drop_fault_nil; auto using request_ok_nil).
  cbv zeta. rewrite !(drop_fault_nil w) by done. cbn [fst]. rewrite w_db_drop_fault.
  set (X := set_table (bump_id (w_db w)) orders _).
  assert (w_faults (set_db w X) = []) as Hf' by exact Hf.
  rewrite upsert_client_registry, (request_ok_nil (set_db w X)) by exact Hf'.
  rewrite columns_ok_json_fields by reflexivity. rewrite He.
  destruct (upsert_payload_fields e (js_get_opt (JObj l) "customer_phone") (js_get_opt (JObj l) "customer_name"))
    as (Hk & _ & _); [by apply truthy_defined|].
  cbn [andb]. rewrite Hk, !w_db_set_db, w_now_set_db.
  assert (t_clients X = t_clients (w_db w)) as -> by
    (unfold X; by rewrite !t_clients_get, get_set_table, decide_False, get_table_bump).
  unfold X. by rewrite new_row_set_table.
Qed.
End Claim.

Import Crypto.Reference.
From S2P Require Import Fixtures.
Open Scope list_scope.

(** Mario Rossi's order on the sample shop: his email is bound to the
    name the order gives. *)
Lemma orders_POST_refines_registry_witness :
  let l := order_submission (JStr "1L") (JNum 2) in
  registry (t_clients (w_db (orders_POST (Some (JObj l)) (world1 [])).1)) =
  reg_upsert "mario@example.com"
    (attrs (json_fields [("email", JStr "mario@example.com"); ("phone", js_get_opt (JObj l) "customer_phone");
                         ("name", js_get_opt (JObj l) "customer_name")]))
    (attrs (new_row (bump_id (w_db (world1 []))) (w_now (world1 [])) [])) (registry (t_clients (w_db (world1 [])))) ∧
  (registry (t_clients (w_db (orders_POST (Some (JObj l)) (world1 [])).1)) !! "mario@example.com")
    ≫= (fun a => a !! "name") = Some (JStr "Mario Rossi").
Proof.
  intros l. split.
  - apply (orders_POST_refines_registry l (world1 []) product_row); [repeat split; reflexivity|reflexivity..].
  - vm_compute. reflexivity.
Defined.
