(* ===== verification/Settings.v ===== *)
(** * Administrator settings and the maintenance routes

    [GET /api/admin/settings], [PUT /api/admin/settings/password] and
    [PUT /api/admin/settings/email] read and update the single row of
    [admin_users], which they fetch with [.single()] and no filter. The
    maintenance routes [POST /api/admin/fix-password],
    [GET /api/admin/debug] and [GET /api/admin/test-auth] work on the row
    of the hard-coded email [oliodivaleria@server.com] and the hard-coded
    password [662002]. No route checks a session token.

    The theorems show that a wrong current password leaves the stored
    hash alone, that a right one rotates it (the new password then
    authenticates and the old one no longer does, with no minimum length),
    that any truthy value becomes the notification email, and that
    [fix-password] lets anyone set the administrator's password to the
    published [662002]. *)

From S2P Require Import Prelude Js Store Crypto Auth Email.

Open Scope string_scope.

Section Settings.
Context `{Bcrypt, Jwt, Env}.

(** [GET /api/admin/settings], lines 4-21 *)
Definition settings_GET : App Response :=
  sm_catch (
    r ← sb (select_single admin_users []);
    match r with
    | SbErr _ => mret (json [("error", JStr "Errore nel recupero delle impostazioni")] 500)
    | SbOk admin =>
        mret (json [("admin", jobj [("id", row_get admin "id"); ("email", row_get admin "email");
                                    ("notification_email", row_get admin "notification_email")])] 200)
    end)
    (fun _ => mret internal_error).

Definition passwords_required : Response :=
  json [("error", JStr "Password attuale e nuova password sono richieste")] 400.
Definition admin_not_found : Response := json [("error", JStr "Amministratore non trovato")] 404.
Definition wrong_current_password : Response :=
  json [("error", JStr "Password attuale non corretta")] 401.
Definition password_updated : Response :=
  json [("message", JStr "Password aggiornata con successo")] 200.

(** [PUT /api/admin/settings/password], lines 5-50 *)
Definition password_PUT (body : option js) : App Response :=
  sm_catch (
    b ← read_json body;
    currentPassword ← prop b "currentPassword";
    newPassword ← prop b "newPassword";
    if negb (truthy currentPassword) || negb (truthy newPassword) then mret passwords_required
    else
      r ← sb (select_single admin_users []);
      match r with
      | SbErr _ => mret admin_not_found
      | SbOk admin =>
          isValidPassword ← bcrypt_compare currentPassword (row_get admin "password_hash");
          if negb isValidPassword then mret wrong_current_password
          else
            hashedNewPassword ← bcrypt_hash_js newPassword;
            t ← now;
            u ← sb (update admin_users
                      [("password_hash", JStr hashedNewPassword); ("updated_at", timestamp t)]
                      [("id", row_get admin "id")]);
            match u with
            | SbErr _ => mret (json [("error", JStr "Errore nell'aggiornamento della password")] 500)
            | SbOk _ => mret password_updated
            end
      end)
    (fun _ => mret internal_error).

Definition notification_email_required : Response :=
  json [("error", JStr "Email di notifica è richiesta")] 400.
Definition notification_email_updated : Response :=
  json [("message", JStr "Email di notifica aggiornata con successo")] 200.

(** [PUT /api/admin/settings/email], lines 4-39 *)
Definition email_PUT (body : option js) : App Response :=
  sm_catch (
    b ← read_json body;
    notificationEmail ← prop b "notificationEmail";
    if negb (truthy notificationEmail) then mret notification_email_required
    else
      r ← sb (select_single admin_users []);
      match r with
      | SbErr _ => mret admin_not_found
      | SbOk admin =>
          t ← now;
          u ← sb (update admin_users
                    [("notification_email", notificationEmail); ("updated_at", timestamp t)]
                    [("id", row_get admin "id")]);
          match u with
          | SbErr _ => mret (json [("error", JStr "Errore nell'aggiornamento dell'email")] 500)
          | SbOk _ => mret notification_email_updated
          end
      end)
    (fun _ => mret internal_error).

(** The account the maintenance routes are written for. *)
Definition maintenance_email : string := "oliodivaleria@server.com".
Definition maintenance_password : string := "662002".

(** [POST /api/admin/fix-password], lines 5-45 *)
Definition fix_password_POST : App Response :=
  sm_catch (
    newHash ← bcrypt_hash_js (JStr maintenance_password);
    r ← sb (update admin_users [("password_hash", JStr newHash)]
                   [("email", JStr maintenance_email)]);
    match r with
    | SbErr _ => mret (json [("error", JStr "Failed to update password")] 500)
    | SbOk data =>
        isValid ← bcrypt_compare (JStr maintenance_password) (JStr newHash);
        mret (json [("message", JStr "Password hash fixed successfully");
                    ("hashTest", JBool isValid);
                    ("admin", match data with r0 :: _ => row_js r0 | [] => JUndef end)] 200)
    end)
    (fun e => mret (json [("error", JStr "Failed to fix password");
                          ("details", JStr (exn_message e))] 500)).

(** [GET /api/admin/debug], lines 5-53 *)
Definition debug_GET : App Response :=
  sm_catch (
    r ← sb (select_single admin_users [("email", JStr maintenance_email)]);
    match r with
    | SbErr _ => mret (json [("error", JStr "Admin user not found"); ("details", sb_message r)] 404)
    | SbOk admin =>
        isValidPassword ← bcrypt_compare (JStr maintenance_password) (row_get admin "password_hash");
        mret (json [("adminExists", JBool true); ("email", row_get admin "email");
                    ("passwordValid", JBool isValidPassword);
                    ("createdAt", row_get admin "created_at")] 200)
    end)
    (fun e => mret (json [("error", JStr "Debug failed"); ("details", JStr (exn_message e))] 500)).

(** [GET /api/admin/test-auth], lines 5-68. The [if (!admin)] branch of
    lines 30-38 is not written: [.single()] without an error always
    returns a row, which is truthy. *)
Definition test_auth_GET : App Response :=
  sm_catch (
    r ← sb (select_single admin_users [("email", JStr maintenance_email)]);
    match r with
    | SbErr _ =>
        mret (json [("error", JStr "Database error"); ("details", sb_message r);
                    ("suggestion", JStr "Make sure to run the database script first")] 500)
    | SbOk admin =>
        isValidPassword ← bcrypt_compare (JStr maintenance_password) (row_get admin "password_hash");
        mret (json [("message", JStr "Authentication test successful");
                    ("admin", jobj [("id", row_get admin "id"); ("email", row_get admin "email");
                                    ("created_at", row_get admin "created_at");
                                    ("notification_email", row_get admin "notification_email")]);
                    ("passwordTest", JBool isValidPassword);
                    ("suggestion", JStr (if isValidPassword then "Login should work with these credentials"
                                         else "Password hash might be incorrect"))] 200)
    end)
    (fun e => mret (json [("error", JStr "Test failed"); ("details", JStr (exn_message e))] 500)).
End Settings.

Open Scope list_scope.

Section SettingsProofs.
Context `{Bcrypt, Jwt, Env}.

Lemma select_single_all_singleton db admin :
  t_admin_users db = [admin] -> select_single admin_users [] db = (SbOk admin, db).
Proof. intros Ht. unfold select_single. simpl. by rewrite Ht. Qed.

Lemma pg_eq_self v : pg_text v <> None -> pg_eq v v = true.
Proof.
  unfold pg_eq. intros Hv. destruct (pg_text v) as [s|] eqn:Hs; [|done].
  unfold pg_text in Hs. destruct v; try done; injection Hs as <-; apply String.eqb_refl.
Qed.

Lemma matches_self k r : pg_text (row_get r k) <> None -> matches [(k, row_get r k)] r = true.
Proof. intros Hk. unfold matches. cbn [forallb fst snd]. by rewrite pg_eq_self. Qed.

(** [update(set).eq(k, admin[k])] on the one-row administrator table *)
Lemma update_admin_singleton db admin set k :
  t_admin_users db = [admin] -> pg_text (row_get admin k) <> None ->
  columns_ok admin_users set = true ->
  update admin_users set [(k, row_get admin k)] db =
  (SbOk [admin ++ set], set_table db admin_users [admin ++ set]).
Proof.
  intros Ht Hid Hc.
  unfold update, update_rows. rewrite <-t_admin_users_get, Ht, Hc. cbn [map List.filter negb].
  rewrite matches_self by done. by rewrite bool_decide_eq_true_2 by done.
Qed.

Lemma admin_by_email_singleton db admin e :
  t_admin_users db = [admin] -> row_get admin "email" = JStr e ->
  admin_by_email db (JStr e) = Some admin.
Proof.
  intros Ht He. unfold admin_by_email, select_single. rewrite <-t_admin_users_get, Ht, <-He.
  cbn [List.filter]. by rewrite matches_self by (by rewrite He).
Qed.

(** After [update({ password_hash: hh, ... })] of the one administrator,
    a password is accepted exactly when it matches [hh]. *)
Lemma credentials_valid_updated db admin set e hh q :
  row_get admin "email" = JStr e -> assoc_last "email" set = None ->
  assoc_last "password_hash" set = Some (JStr hh) ->
  credentials_valid (set_table db admin_users [admin ++ set]) e q = bcrypt_check q hh.
Proof.
  intros He Hse Hsh. unfold credentials_valid.
  rewrite (admin_by_email_singleton _ (admin ++ set)); [|by destruct db|by rewrite row_get_app_l].
  by rewrite (row_get_app_r _ _ _ _ Hsh).
Qed.

Ltac world_simpl :=
  cbn [request_ok drop_fault next_fault set_db bcrypt_hash_js
       w_db w_faults w_outbox w_now w_entropy fst snd] in *.

(** The route with both passwords given, against the one administrator. *)
Lemma password_PUT_run b c n w admin h :
  js_get b "currentPassword" = Some (JStr c) -> js_get b "newPassword" = Some (JStr n) ->
  c <> "" -> n <> "" -> request_ok w = true ->
  t_admin_users (w_db w) = [admin] -> row_get admin "password_hash" = JStr h ->
  password_PUT (Some b) w =
  if bcrypt_check c h then
    let w1 := mkWorld (w_db w) (w_faults (drop_fault w)) (w_outbox w) (w_now w) (S (w_entropy w)) in
    match sb (update admin_users [("password_hash", JStr (bcrypt_hash n (w_entropy w)));
                                  ("updated_at", timestamp (w_now w))]
                     [("id", row_get admin "id")]) w1 with
    | (w2, Ret (SbOk _)) => (w2, Ret password_updated)
    | (w2, _) => (w2, Ret (json [("error", JStr "Errore nell'aggiornamento della password")] 500))
    end
  else (drop_fault w, Ret wrong_current_password).
Proof.
  intros Hc Hn Hc0 Hn0 Hr Ht Hh.
  unfold password_PUT. handler_simpl. rewrite Hc, Hn. handler_simpl.
  rewrite !truthy_str_nonempty by done. handler_simpl.
  rewrite sb_select, Hr, (select_single_all_singleton _ admin) by done.
  handler_simpl. rewrite Hh. cbn [bcrypt_compare]. handler_simpl.
  destruct (bcrypt_check c h); [|done]. cbn [bcrypt_hash_js].
  destruct w as [db [|[] fl] out t ent]; [| discriminate Hr |]; world_simpl;
    unfold sb; destruct (next_fault _) as [[] w2]; try done;
    destruct (update _ _ _ _) as [[]]; done.
Qed.
(** C12. [PUT /api/admin/settings/password] with a current password
    that does not match the stored hash answers 401 and changes nothing:
    the only effect is the one read request. *)
Theorem password_PUT_wrong_current_keeps_hash b c n w admin h :
  js_get b "currentPassword" = Some (JStr c) -> js_get b "newPassword" = Some (JStr n) ->
  c <> "" -> n <> "" -> request_ok w = true ->
  t_admin_users (w_db w) = [admin] -> row_get admin "password_hash" = JStr h ->
  bcrypt_check c h = false ->
  password_PUT (Some b) w = (drop_fault w, Ret wrong_current_password).
Proof. intros Hc Hn Hc0 Hn0 Hr Ht Hh Hw. by rewrite (password_PUT_run b c n w admin h), Hw. Qed.

(** C11. With the right current password and both requests answered,
    [PUT /api/admin/settings/password] stores a fresh hash of the new
    password, whatever its length: afterwards a password logs in exactly
    when its first 72 bytes are those of the new password (so the old one
    no longer does, unless it shares them). *)
Theorem password_PUT_rotates b c n w fs admin h e :
  js_get b "currentPassword" = Some (JStr c) -> js_get b "newPassword" = Some (JStr n) ->
  c <> "" -> n <> "" -> w_faults w = false :: false :: fs ->
  t_admin_users (w_db w) = [admin] -> pg_text (row_get admin "id") <> None ->
  row_get admin "password_hash" = JStr h -> row_get admin "email" = JStr e ->
  bcrypt_check c h = true ->
  (password_PUT (Some b) w).2 = Ret password_updated ∧
  ∀ q, credentials_valid (w_db (password_PUT (Some b) w).1) e q =
       String.eqb (bcrypt_key q) (bcrypt_key n).
Proof.
  intros Hc Hn Hc0 Hn0 Hf Ht Hid Hh He Hok.
  rewrite (password_PUT_run b c n w admin h), Hok by (done || by unfold request_ok; rewrite Hf).
  unfold sb. destruct w as [db fl out t ent]. world_simpl. subst fl. world_simpl.
  rewrite update_admin_singleton by done. split; [done|]. intros q. world_simpl.
  by rewrite (credentials_valid_updated _ _ _ _ (bcrypt_hash n ent)), bcrypt_check_hash.
Qed.
(** The route with a truthy [notificationEmail], both requests
    answered, against the one administrator row. *)
Lemma email_PUT_run b v w admin :
  js_get b "notificationEmail" = Some v -> truthy v = true ->
  request_ok w = true -> request_ok (drop_fault w) = true ->
  t_admin_users (w_db w) = [admin] -> pg_text (row_get admin "id") <> None ->
  email_PUT (Some b) w =
  (set_db (drop_fault (drop_fault w))
          (set_table (w_db w) admin_users
                     [admin ++ [("notification_email", v); ("updated_at", timestamp (w_now w))]]),
   Ret notification_email_updated).
Proof.
  intros Hv Htv Hr1 Hr2 Ht Hid.
  unfold email_PUT. handler_simpl. rewrite Hv, Htv. handler_simpl.
  rewrite sb_select, Hr1, (select_single_all_singleton _ admin) by done.
  handler_simpl. rewrite sb_run, Hr2, w_db_drop_fault, w_now_drop_fault, update_admin_singleton by done.
  done.
Qed.

(** C24. [PUT /api/admin/settings/email] stores any truthy value as the
    notification email, with no check that it is an address (a number,
    an array or any non-empty string is accepted); the notification
    dispatcher then reads back that value as its recipient. *)
Theorem email_PUT_stores_any_truthy b v w fs admin :
  js_get b "notificationEmail" = Some v -> truthy v = true ->
  w_faults w = false :: false :: fs ->
  t_admin_users (w_db w) = [admin] -> pg_text (row_get admin "id") <> None ->
  (email_PUT (Some b) w).2 = Ret notification_email_updated ∧
  notification_email_of (select_single admin_users [] (w_db (email_PUT (Some b) w).1)).1 = v.
Proof.
  intros Hv Htv Hf Ht Hid.
  rewrite (email_PUT_run _ v _ admin) by (done || by unfold request_ok, drop_fault, next_fault; rewrite Hf).
  split; [done|]. cbn [fst]. rewrite w_db_set_db.
  rewrite (select_single_all_singleton _ (admin ++ _)) by (by destruct (w_db w)).
  by apply row_get_app_r.
Qed.
(** [POST /api/admin/fix-password] with its update answered, on the one
    administrator row. *)
Lemma fix_password_POST_run w admin :
  request_ok w = true -> t_admin_users (w_db w) = [admin] ->
  row_get admin "email" = JStr maintenance_email ->
  let set := [("password_hash", JStr (bcrypt_hash maintenance_password (w_entropy w)))] in
  fix_password_POST w =
  (mkWorld (set_table (w_db w) admin_users [admin ++ set]) (w_faults (drop_fault w)) (w_outbox w)
           (w_now w) (S (w_entropy w)),
   Ret (json [("message", JStr "Password hash fixed successfully"); ("hashTest", JBool true);
              ("admin", row_js (admin ++ set))] 200)).
Proof.
  intros Hr Ht He set. destruct w as [db [|[] fl] out t ent]; [| discriminate Hr |];
    world_simpl; unfold fix_password_POST; handler_simpl; world_simpl; unfold sb; world_simpl;
    rewrite <-He, update_admin_singleton by (done || by rewrite He);
    handler_simpl; cbn [bcrypt_compare]; handler_simpl;
    by rewrite bcrypt_check_hash, String.eqb_refl.
Qed.

(** C9. [POST /api/admin/fix-password] takes no credentials and sets the
    password of the administrator [oliodivaleria@server.com] to the
    [662002] written in the source: after one answered request, whatever
    the password was, exactly the passwords that agree with [662002] on
    their first 72 bytes log in, and the route answers 200 with the
    updated row, new password hash included. *)
Theorem fix_password_POST_resets_password w fs admin :
  w_faults w = false :: fs -> t_admin_users (w_db w) = [admin] ->
  row_get admin "email" = JStr maintenance_email ->
  (∃ resp, (fix_password_POST w).2 = Ret resp ∧ status resp = 200%Z ∧
     js_get_opt (js_get_opt (body resp) "admin") "password_hash" =
     JStr (bcrypt_hash maintenance_password (w_entropy w))) ∧
  ∀ q, credentials_valid (w_db (fix_password_POST w).1) maintenance_email q =
       String.eqb (bcrypt_key q) (bcrypt_key maintenance_password).
Proof.
  intros Hf Ht He. rewrite (fix_password_POST_run w admin) by (done || by unfold request_ok; rewrite Hf).
  split; [eexists; split; [reflexivity|]; split; [done|]|].
  { cbn. unfold js_get_opt, js_get. by rewrite assoc_last_app. }
  intros q. cbn [fst w_db].
  by rewrite (credentials_valid_updated _ _ _ _ (bcrypt_hash maintenance_password (w_entropy w))), bcrypt_check_hash.
Qed.

(** C25. [GET /api/admin/debug] and [GET /api/admin/test-auth] take no
    credentials, change no row, and tell anyone whether [662002] is
    currently the administrator's password, together with the
    administrator's email (and, for test-auth, id and notification
    email). *)
Theorem maintenance_GET_disclose w admin :
  request_ok w = true -> admin_hashes_wf (w_db w) = true ->
  admin_by_email (w_db w) (JStr maintenance_email) = Some admin ->
  let valid := credentials_valid (w_db w) maintenance_email maintenance_password in
  debug_GET w =
    (drop_fault w, Ret (json [("adminExists", JBool true); ("email", row_get admin "email");
                              ("passwordValid", JBool valid);
                              ("createdAt", row_get admin "created_at")] 200)) ∧
  (test_auth_GET w).1 = drop_fault w ∧
  ∃ resp, (test_auth_GET w).2 = Ret resp ∧ status resp = 200%Z ∧
          js_get_opt (body resp) "passwordTest" = JBool valid.
Proof.
  intros Hr Hwf Ha valid. destruct (admin_by_email_hash _ _ _ Hwf Ha) as [h Hh].
  unfold valid, credentials_valid. rewrite Ha, Hh.
  unfold admin_by_email in Ha. unfold debug_GET, test_auth_GET. handler_simpl.
  rewrite sb_select, Hr. destruct (select_single _ _ _).1; [|done]. injection Ha as ->.
  cbn [bcrypt_compare]. rewrite Hh. handler_simpl. split; [done|]. split; [done|].
  eexists; split; [reflexivity|]. split; [done|]. unfold json, jobj.
  by destruct (bcrypt_check _ _).
Qed.
End SettingsProofs.

Import Crypto.Reference.
From S2P Require Import Fixtures.

Definition password_body (cur nw : js) : js :=
  JObj [("currentPassword", cur); ("newPassword", nw)].

Lemma password_PUT_wrong_current_keeps_hash_witness :
  password_PUT (Some (password_body (JStr "wrong") (JStr "nuova"))) (world0 [])
  = (drop_fault (world0 []), Ret wrong_current_password).
Proof.
  apply (password_PUT_wrong_current_keeps_hash _ "wrong" "nuova" _ admin_row
           (bcrypt_hash admin_password 0)); try reflexivity; discriminate.
Defined.

Lemma password_PUT_rotates_witness :
  (password_PUT (Some (password_body (JStr admin_password) (JStr "x"))) (world0 [false; false])).2
  = Ret password_updated ∧
  ∀ q, credentials_valid (w_db (password_PUT (Some (password_body (JStr admin_password) (JStr "x")))
                                             (world0 [false; false])).1) admin_email q =
       String.eqb (bcrypt_key q) (bcrypt_key "x").
Proof.
  apply (password_PUT_rotates _ admin_password "x" _ [] admin_row (bcrypt_hash admin_password 0)
           admin_email); try reflexivity; vm_compute; discriminate.
Defined.

Lemma email_PUT_stores_any_truthy_witness :
  (email_PUT (Some (JObj [("notificationEmail", JStr "not an address")])) (world0 [false; false])).2
  = Ret notification_email_updated ∧
  notification_email_of (select_single admin_users []
    (w_db (email_PUT (Some (JObj [("notificationEmail", JStr "not an address")]))
                     (world0 [false; false])).1)).1 = JStr "not an address".
Proof.
  apply (email_PUT_stores_any_truthy _ _ _ [] admin_row); try reflexivity; vm_compute; discriminate.
Defined.

Lemma fix_password_POST_resets_password_witness :
  (∃ resp, (fix_password_POST (world0 [false])).2 = Ret resp ∧ status resp = 200%Z ∧
     js_get_opt (js_get_opt (body resp) "admin") "password_hash" =
     JStr (bcrypt_hash maintenance_password (w_entropy (world0 [false])))) ∧
  ∀ q, credentials_valid (w_db (fix_password_POST (world0 [false])).1) maintenance_email q =
       String.eqb (bcrypt_key q) (bcrypt_key maintenance_password).
Proof. apply (fix_password_POST_resets_password _ [] admin_row); reflexivity. Defined.

Lemma maintenance_GET_disclose_witness :
  let valid := credentials_valid db0 maintenance_email maintenance_password in
  debug_GET (world0 []) =
    (drop_fault (world0 []),
     Ret (json [("adminExists", JBool true); ("email", row_get admin_row "email");
                ("passwordValid", JBool valid); ("createdAt", row_get admin_row "created_at")] 200)) ∧
  (test_auth_GET (world0 [])).1 = drop_fault (world0 []) ∧
  ∃ resp, (test_auth_GET (world0 [])).2 = Ret resp ∧ status resp = 200%Z ∧
          js_get_opt (body resp) "passwordTest" = JBool valid.
Proof. apply (maintenance_GET_disclose (world0 []) admin_row); vm_compute; reflexivity. Defined.
