(* ===== verification/Admin.v ===== *)
(** * The administrator's record routes

    [GET /api/admin/orders], [GET /api/admin/messages],
    [GET /api/admin/clients], [POST /api/admin/clients],
    [GET /api/admin/products] (and the identical public
    [GET /api/orders]) list or create rows; the three routes
    [/api/admin/{orders,messages,clients}/[id]] update a row with the
    request body ([PUT]) or delete it ([DELETE]). The three [[id]] files
    are the same code on a different table with different messages, so
    each pair of handlers is written once over the table and the
    messages, and each file is that definition at its own arguments.

    The theorems show that a [PUT] writes whatever columns the body has,
    statuses included (section 4.7 of the spec: no transition is
    blocked), that a [PUT] on an absent id or that would duplicate a
    client email is refused with 500 and changes nothing, and that a
    [DELETE] of an absent id still answers success. *)

From stdpp Require Import sorting.
From S2P Require Import Prelude Js Store.

Open Scope string_scope.

(** ** Object spread [{ ...v }] of a parsed JSON body *)

(** Objects give their fields, arrays and strings their indexed
    elements, every other value nothing. *)
Definition spread (v : js) : list (string * js) :=
  match v with
  | JObj l => l
  | JArr l => imap (fun i x => (num_to_string (Z.of_nat i), x)) l
  | JStr s => imap (fun i c => (num_to_string (Z.of_nat i), JStr (String c EmptyString)))
                   (String.list_ascii_of_string s)
  | _ => []
  end.

(** ** The [[id]] routes *)

(** [PUT(request, { params })]: [update({ ...updateData, updated_at })
    .eq("id", id).select().single()], lines 4-27 *)
Definition record_PUT (t : table) (key err : string) (id : string) (body : option js) : App Response :=
  sm_catch (
    updateData ← read_json body;
    now_ ← now;
    r ← sb (update_single t (spread updateData ++ [("updated_at", timestamp now_)])%list
                           [("id", JStr id)]);
    match r with
    | SbErr _ => mret (json [("error", JStr err)] 500)
    | SbOk row => mret (json [(key, row_js row)] 200)
    end)
    (fun _ => mret internal_error).

(** [DELETE(request, { params })]: [delete().eq("id", id)], lines 29-46 *)
Definition record_DELETE (t : table) (err ok : string) (id : string) : App Response :=
  sm_catch (
    r ← sb (delete t [("id", JStr id)]);
    match r with
    | SbErr _ => mret (json [("error", JStr err)] 500)
    | SbOk _ => mret (json [("message", JStr ok)] 200)
    end)
    (fun _ => mret internal_error).

(** [src/app/api/admin/orders/[id]/route.ts] *)
Definition orders_id_PUT : string -> option js -> App Response :=
  record_PUT orders "order" "Errore nell'aggiornamento dell'ordine".
Definition orders_id_DELETE : string -> App Response :=
  record_DELETE orders "Errore nell'eliminazione dell'ordine" "Ordine eliminato con successo".

(** [src/app/api/admin/messages/[id]/route.ts] *)
Definition messages_id_PUT : string -> option js -> App Response :=
  record_PUT messages "message" "Errore nell'aggiornamento del messaggio".
Definition messages_id_DELETE : string -> App Response :=
  record_DELETE messages "Errore nell'eliminazione del messaggio" "Messaggio eliminato con successo".

(** [src/app/api/admin/clients/[id]/route.ts] *)
Definition clients_id_PUT : string -> option js -> App Response :=
  record_PUT clients "client" "Errore nell'aggiornamento del cliente".
Definition clients_id_DELETE : string -> App Response :=
  record_DELETE clients "Errore nell'eliminazione del cliente" "Cliente eliminato con successo".

(** ** The list routes *)

(** [GET()]: [select("*").order(col, { ascending })] answered as
    [{ key: rows }] *)
Definition list_GET (t : table) (col : string) (ascending : bool) (key err : string) : App Response :=
  sm_catch (
    r ← sb (select_ordered t col ascending);
    match r with
    | SbErr _ => mret (json [("error", JStr err)] 500)
    | SbOk rows => mret (json [(key, JArr (map row_js rows))] 200)
    end)
    (fun _ => mret internal_error).

(** [src/app/api/admin/orders/route.ts], lines 5-21 *)
Definition admin_orders_GET : App Response :=
  list_GET orders "created_at" false "orders" "Errore nel recupero degli ordini".

(** [src/app/api/admin/messages/route.ts], lines 5-24 *)
Definition admin_messages_GET : App Response :=
  list_GET messages "created_at" false "messages" "Errore nel recupero dei messaggi".

(** [src/app/api/admin/clients/route.ts], lines 4-23 *)
Definition admin_clients_GET : App Response :=
  list_GET clients "created_at" false "clients" "Errore nel recupero dei clienti".

(** [src/app/api/admin/products/route.ts], lines 4-20 *)
Definition products_GET : App Response :=
  list_GET products "name" true "products" "Errore nel recupero dei prodotti".

(** [GET] of [src/app/api/orders/route.ts], lines 85-101: the same code *)
Definition orders_products_GET : App Response :=
  list_GET products "name" true "products" "Errore nel recupero dei prodotti".

(** [POST] of [src/app/api/admin/clients/route.ts], lines 25-42:
    [insert([clientData]).select().single()] *)
Definition admin_clients_POST (body : option js) : App Response :=
  sm_catch (
    clientData ← read_json body;
    now_ ← now;
    r ← sb (insert_json clients clientData now_);
    match r with
    | SbErr _ => mret (json [("error", JStr "Errore nella creazione del cliente")] 500)
    | SbOk client => mret (json [("client", row_js client)] 200)
    end)
    (fun _ => mret internal_error).

(** ** Proofs *)

Open Scope list_scope.

Lemma record_PUT_run t key err id v w :
  record_PUT t key err id (Some v) w =
  if request_ok w then
    match update_single t (spread v ++ [("updated_at", timestamp (w_now w))]) [("id", JStr id)] (w_db w) with
    | (SbOk row, db') => (set_db (drop_fault w) db', Ret (json [(key, row_js row)] 200))
    | (SbErr _, db') => (set_db (drop_fault w) db', Ret (json [("error", JStr err)] 500))
    end
  else (drop_fault w, Ret (json [("error", JStr err)] 500)).
Proof.
  unfold record_PUT. handler_simpl. rewrite sb_run. destruct (request_ok w); [|done].
  by destruct (update_single _ _ _ _) as [[]].
Qed.

Lemma record_DELETE_run t err ok id w :
  record_DELETE t err ok id w =
  if request_ok w then (set_db (drop_fault w) (delete t [("id", JStr id)] (w_db w)).2,
                        Ret (json [("message", JStr ok)] 200))
  else (drop_fault w, Ret (json [("error", JStr err)] 500)).
Proof. unfold record_DELETE. handler_simpl. rewrite sb_run. by destruct (request_ok w). Qed.

Lemma list_GET_run t col asc key err w :
  list_GET t col asc key err w =
  if request_ok w then
    match (select_ordered t col asc (w_db w)).1 with
    | SbOk rows => (drop_fault w, Ret (json [(key, JArr (map row_js rows))] 200))
    | SbErr _ => (drop_fault w, Ret (json [("error", JStr err)] 500))
    end
  else (drop_fault w, Ret (json [("error", JStr err)] 500)).
Proof.
  unfold list_GET. handler_simpl. rewrite sb_run. destruct (request_ok w); [|done].
  cbn [select_ordered fst snd]. by rewrite <-(w_db_drop_fault w), set_db_same.
Qed.

Lemma columns_ok_app t l1 l2 :
  columns_ok t (l1 ++ l2) = columns_ok t l1 && columns_ok t l2.
Proof. apply forallb_app. Qed.

(** An update that fails leaves the world as the request found it, but
    for the request consumed. *)
Lemma record_PUT_refused t key err id v w c :
  request_ok w = true ->
  update_single t (spread v ++ [("updated_at", timestamp (w_now w))]) [("id", JStr id)] (w_db w)
  = (SbErr c, w_db w) ->
  record_PUT t key err id (Some v) w = (drop_fault w, Ret (json [("error", JStr err)] 500)).
Proof. intros Hr Hu. by rewrite record_PUT_run, Hr, Hu, <-(w_db_drop_fault w), set_db_same. Qed.

(** C23. [PUT /api/admin/orders/[id]] and [PUT /api/admin/messages/[id]]
    write every column the body names onto the row with that id, with a
    fresh [updated_at], and answer the updated row: a status can be set
    to any value from any value, as section 4.7 of the spec says. *)
Theorem record_PUT_writes_body t key err id l w r :
  t = orders ∨ t = messages -> request_ok w = true -> columns_ok t l = true ->
  List.filter (matches [("id", JStr id)]) (get_table (w_db w) t) = [r] ->
  let set := l ++ [("updated_at", timestamp (w_now w))] in
  record_PUT t key err id (Some (JObj l)) w =
  (set_db (drop_fault w) (set_table (w_db w) t (update_rows [("id", JStr id)] set (get_table (w_db w) t))),
   Ret (json [(key, row_js (r ++ set))] 200)).
Proof.
  intros Ht Hr Hc Hf set. rewrite record_PUT_run, Hr. cbn [spread].
  rewrite (update_single_one _ _ _ _ r); [done|done| |].
  - rewrite columns_ok_app, Hc. by destruct Ht as [-> | ->].
  - by destruct Ht as [-> | ->].
Qed.

(** C28. A [PUT] on an id that no row has is answered 500 with the
    route's update error, not 404, and changes nothing. *)
Theorem record_PUT_absent_id t key err id v w :
  request_ok w = true ->
  List.filter (matches [("id", JStr id)]) (get_table (w_db w) t) = [] ->
  record_PUT t key err id (Some v) w = (drop_fault w, Ret (json [("error", JStr err)] 500)).
Proof.
  intros Hr Hn. destruct (update_single_none t (spread v ++ [("updated_at", timestamp (w_now w))]) _ _ Hn)
    as [c Hc].
  by apply (record_PUT_refused _ _ _ _ _ _ c).
Qed.

(** C22. [PUT /api/admin/clients/[id]] that would give a client the email
    of another client is refused with 500 and changes nothing: the
    unique constraint on [clients.email] holds across updates. *)
Theorem clients_id_PUT_duplicate_email id l w r r2 e :
  request_ok w = true ->
  r ∈ t_clients (w_db w) -> matches [("id", JStr id)] r = true ->
  r2 ∈ t_clients (w_db w) -> matches [("id", JStr id)] r2 = false -> email_key r2 = Some e ->
  assoc_last "email" l = Some (JStr e) ->
  clients_id_PUT id (Some (JObj l)) w =
  (drop_fault w, Ret (json [("error", JStr "Errore nell'aggiornamento del cliente")] 500)).
Proof.
  intros Hr Hin Hm Hin2 Hm2 He2 Hl.
  destruct (update_single_duplicate_email (spread (JObj l) ++ [("updated_at", timestamp (w_now w))])
              [("id", JStr id)] (w_db w) r r2 e) as [c Hc]; try done.
  { cbn [spread]. rewrite assoc_last_app. simpl. by rewrite Hl. }
  by apply (record_PUT_refused _ _ _ _ _ _ c).
Qed.

(** C27. A [DELETE] of an id that no row has still answers the route's
    success message with 200, where the spec (section 7) has a 404
    NotFoundError for an absent entity; nothing changes. *)
Theorem record_DELETE_absent_id t err ok id w :
  request_ok w = true ->
  List.filter (matches [("id", JStr id)]) (get_table (w_db w) t) = [] ->
  record_DELETE t err ok id w = (drop_fault w, Ret (json [("message", JStr ok)] 200)).
Proof.
  intros Hr Hn. rewrite record_DELETE_run, Hr, delete_none by done. cbn [snd].
  by rewrite <-(w_db_drop_fault w), set_db_same.
Qed.

(** The list routes answer every row of their table, and only those,
    ordered by their column ([created_at] newest first, products by
    name). *)
Theorem list_GET_all_sorted t col asc key err w :
  request_ok w = true ->
  ∃ rows, list_GET t col asc key err w =
            (drop_fault w, Ret (json [(key, JArr (map row_js rows))] 200)) ∧
          rows ≡ₚ get_table (w_db w) t ∧ Sorted (row_order col asc) rows.
Proof.
  intros Hr. destruct (select_ordered_spec t col asc (w_db w)) as (rows & Hs & Hp & Hsort).
  exists rows. split; [|done]. rewrite list_GET_run, Hr. by rewrite Hs.
Qed.

From S2P Require Import Fixtures.
Open Scope list_scope.

Lemma record_PUT_writes_body_witness :
  let set := [("status", JStr "Spedito")] ++ [("updated_at", timestamp (w_now (world1 [])))] in
  orders_id_PUT "11" (Some (JObj [("status", JStr "Spedito")])) (world1 []) =
  (set_db (drop_fault (world1 [])) (set_table db1 orders (update_rows [("id", JStr "11")] set [order_row0])),
   Ret (json [("order", row_js (order_row0 ++ set))] 200)).
Proof. apply (record_PUT_writes_body orders _ _ "11" _ (world1 []) order_row0); [by left|reflexivity..]. Defined.

Lemma record_PUT_absent_id_witness :
  messages_id_PUT "99" (Some (JObj [("status", JStr "Letto")])) (world1 []) =
  (drop_fault (world1 []), Ret (json [("error", JStr "Errore nell'aggiornamento del messaggio")] 500)).
Proof. apply (record_PUT_absent_id messages _ _ "99"); reflexivity. Defined.

Lemma clients_id_PUT_duplicate_email_witness :
  clients_id_PUT "13" (Some (JObj [("email", JStr "maria@example.com")])) (world1 []) =
  (drop_fault (world1 []), Ret (json [("error", JStr "Errore nell'aggiornamento del cliente")] 500)).
Proof.
  apply (clients_id_PUT_duplicate_email "13" _ (world1 []) client_b client_a "maria@example.com");
    try reflexivity; vm_compute; [right; left | left]; reflexivity.
Defined.

Lemma record_DELETE_absent_id_witness :
  orders_id_DELETE "99" (world1 []) =
  (drop_fault (world1 []), Ret (json [("message", JStr "Ordine eliminato con successo")] 200)).
Proof. apply (record_DELETE_absent_id orders _ _ "99"); reflexivity. Defined.

Lemma list_GET_all_sorted_witness :
  ∃ rows, admin_clients_GET (world1 []) =
            (drop_fault (world1 []), Ret (json [("clients", JArr (map row_js rows))] 200)) ∧
          rows ≡ₚ get_table db1 clients ∧ Sorted (row_order "created_at" false) rows.
Proof. apply (list_GET_all_sorted clients "created_at" false _ _ (world1 [])). reflexivity. Defined.
