(* ===== verification/System.v ===== *)
(** * The back-office as a transition system

    The server has no state of its own between requests (section 5 of the
    spec): every route handler runs to completion on the world it finds
    and leaves a new one. This file closes the handlers of the other
    files into one system: [Request] names every route of [src/app/api]
    with its input, [handle] dispatches it to its handler, and [step]
    is one request, or the clock moving forward between requests.

    The invariant [inv] is what the handlers rely on of the database: the
    unique constraint on [clients.email], exactly one administrator row,
    and a string password hash in it. [preserves] lifts a property of the
    database to a computation of [App]; its combinator lemmas go into the
    hint database [preserve], so that each handler is shown to preserve
    the invariant by the same few lines. The theorems show that every
    world reachable from a provisioned database satisfies the invariant,
    and what that buys: no request with string credentials can make the
    login fail with 500. *)

From stdpp Require Import relations.
From S2P Require Import Prelude Js Store Crypto Auth Email Intake Settings Admin.

Open Scope string_scope.

(** ** Routes *)

Inductive Request :=
| LoginPOST (body : option js)                            (** admin/auth/login *)
| SettingsGET                                             (** admin/settings *)
| PasswordPUT (body : option js)                          (** admin/settings/password *)
| EmailPUT (body : option js)                             (** admin/settings/email *)
| FixPasswordPOST                                         (** admin/fix-password *)
| DebugGET                                                (** admin/debug *)
| TestAuthGET                                             (** admin/test-auth *)
| OrdersPOST (body : option js)                           (** orders *)
| OrdersProductsGET                                       (** orders, GET *)
| ContactPOST (body : option js)                          (** contact *)
| AdminOrdersGET | AdminOrdersPOST (body : option js)     (** admin/orders *)
| AdminMessagesGET | AdminMessagesPOST (body : option js) (** admin/messages *)
| AdminClientsGET | AdminClientsPOST (body : option js)   (** admin/clients *)
| ProductsGET                                             (** admin/products *)
| OrdersIdPUT (id : string) (body : option js) | OrdersIdDELETE (id : string)
| MessagesIdPUT (id : string) (body : option js) | MessagesIdDELETE (id : string)
| ClientsIdPUT (id : string) (body : option js) | ClientsIdDELETE (id : string).

Section System.
Context `{Bcrypt, Jwt, Env}.

(** The Next.js router: each request to its handler. *)
Definition handle (r : Request) : App Response :=
  match r with
  | LoginPOST b => login_POST b
  | SettingsGET => settings_GET
  | PasswordPUT b => password_PUT b
  | EmailPUT b => email_PUT b
  | FixPasswordPOST => fix_password_POST
  | DebugGET => debug_GET
  | TestAuthGET => test_auth_GET
  | OrdersPOST b => orders_POST b
  | OrdersProductsGET => orders_products_GET
  | ContactPOST b => contact_POST b
  | AdminOrdersGET => admin_orders_GET
  | AdminOrdersPOST b => admin_orders_POST b
  | AdminMessagesGET => admin_messages_GET
  | AdminMessagesPOST b => admin_messages_POST b
  | AdminClientsGET => admin_clients_GET
  | AdminClientsPOST b => admin_clients_POST b
  | ProductsGET => products_GET
  | OrdersIdPUT id b => orders_id_PUT id b
  | OrdersIdDELETE id => orders_id_DELETE id
  | MessagesIdPUT id b => messages_id_PUT id b
  | MessagesIdDELETE id => messages_id_DELETE id
  | ClientsIdPUT id b => clients_id_PUT id b
  | ClientsIdDELETE id => clients_id_DELETE id
  end.

Definition tick (w : World) (d : Z) : World :=
  mkWorld (w_db w) (w_faults w) (w_outbox w) (w_now w + d) (w_entropy w).

(** One request, or time passing between two requests. *)
Inductive step : World -> World -> Prop :=
| step_request r w : step w (handle r w).1
| step_tick w d : (0 <= d)%Z -> step w (tick w d).

Definition reachable : World -> World -> Prop := rtc step.

(** ** The database invariant *)

Definition inv (db : DB) : Prop :=
  clients_unique (t_clients db) ∧ admin_hashes_wf db = true ∧ length (t_admin_users db) = 1.

(** An update that writes a password hash writes a string. *)
Definition hash_set_ok (set : Row) : bool :=
  match assoc_last "password_hash" set with
  | None | Some (JStr _) => true
  | Some _ => false
  end.

(** The login emails of the administrator rows. *)
Definition admin_emails (db : DB) : list js := map (fun r => row_get r "email") (t_admin_users db).

(** [c] keeps [P] of the database, whatever it answers. *)
Definition preserves (P : DB -> Prop) {A} (c : App A) : Prop :=
  ∀ w, P (w_db w) -> P (w_db (c w).1).

(** A database operation keeps [P]. *)
Definition op_preserves (P : DB -> Prop) {A} (op : DB -> sb_result A * DB) : Prop :=
  ∀ db, P db -> P (op db).2.
End System.

(** ** Preservation, compositionally *)

Create HintDb preserve discriminated.

Section Preserves.
Context `{Bcrypt, Jwt, Env}.
Variable P : DB -> Prop.

(** A step that does not touch the database. *)
Lemma preserves_db_same {A} (c : App A) : (∀ w, w_db (c w).1 = w_db w) -> preserves P c.
Proof. intros Hc w Hw. by rewrite Hc. Qed.

Lemma preserves_ret {A} (a : A) : preserves P (mret a).
Proof. by apply preserves_db_same. Qed.

Lemma preserves_throw {A} e : preserves P (sm_throw e : App A).
Proof. by apply preserves_db_same. Qed.

Lemma preserves_now : preserves P now.
Proof. by apply preserves_db_same. Qed.

Lemma preserves_bind {A B} (c : App A) (f : A -> App B) :
  preserves P c -> (∀ a, preserves P (f a)) -> preserves P (c ≫= f).
Proof.
  intros Hc Hf w Hw. rewrite sm_bind_run. specialize (Hc w Hw).
  destruct (c w) as [w1 [a|e]]; [by apply Hf|done].
Qed.

Lemma preserves_catch {A} (c : App A) h :
  preserves P c -> (∀ e, preserves P (h e)) -> preserves P (sm_catch c h).
Proof.
  intros Hc Hh w Hw. rewrite sm_catch_run. specialize (Hc w Hw).
  destruct (c w) as [w1 [a|e]]; [done|by apply Hh].
Qed.

Lemma preserves_sb {A} (op : DB -> sb_result A * DB) : op_preserves P op -> preserves P (sb op).
Proof.
  intros Hop w Hw. rewrite sb_run. destruct (request_ok w); cbn [fst].
  - rewrite w_db_set_db. by apply Hop.
  - by rewrite w_db_drop_fault.
Qed.

Lemma preserves_bcrypt_hash_js v : preserves P (bcrypt_hash_js v).
Proof. apply preserves_db_same. by destruct v. Qed.

Lemma preserves_sendMail m : preserves P (sendMail m).
Proof. apply preserves_db_same. intros [db [|[] fs] out t ent]; reflexivity. Qed.

Lemma op_preserves_select t flt : op_preserves P (select_single t flt).
Proof. by intros db. Qed.

Lemma op_preserves_ordered t col asc : op_preserves P (select_ordered t col asc).
Proof. by intros db. Qed.

(** [update_single] either is the update or changes nothing. *)
Lemma op_preserves_update_single t set flt :
  op_preserves P (update t set flt) -> op_preserves P (update_single t set flt).
Proof.
  intros Hu db Hdb. unfold update_single. specialize (Hu db Hdb).
  destruct (update t set flt db) as [[[|r [|]]|] db']; done.
Qed.
End Preserves.

#[export] Hint Resolve preserves_ret preserves_throw preserves_now preserves_bcrypt_hash_js
  preserves_sendMail op_preserves_select op_preserves_ordered : preserve.

(** ** The operations the handlers issue keep the invariant *)

Lemma admin_hashes_wf_same db db' :
  t_admin_users db' = t_admin_users db -> admin_hashes_wf db' = admin_hashes_wf db.
Proof. unfold admin_hashes_wf. by intros ->. Qed.

Lemma inv_same_admin db db' :
  inv db -> clients_unique (t_clients db') -> t_admin_users db' = t_admin_users db -> inv db'.
Proof.
  intros (Hc & Hw & Hl) Hc' Ha. split; [done|]. rewrite (admin_hashes_wf_same _ _ Ha), Ha. done.
Qed.

Lemma inv_insert t payload now : t <> admin_users -> op_preserves inv (insert t payload now).
Proof.
  intros Ht db Hdb. apply (inv_same_admin db); [done| |by apply insert_admin_users].
  destruct Hdb. eauto with backend.
Qed.

Lemma inv_insert_json t v now : t <> admin_users -> op_preserves inv (insert_json t v now).
Proof. intros Ht db Hdb. destruct v; try done. by apply inv_insert. Qed.

Lemma inv_upsert payload now : op_preserves inv (upsert_clients payload now).
Proof.
  intros db Hdb. apply (inv_same_admin db); [done| |apply upsert_admin_users].
  destruct Hdb. eauto with backend.
Qed.

Lemma inv_delete t flt : t <> admin_users -> op_preserves inv (delete t flt).
Proof.
  intros Ht db Hdb. apply (inv_same_admin db); [done| |by apply delete_admin_users].
  destruct Hdb. eauto with backend.
Qed.

Lemma update_other_table t set flt db t' :
  t <> t' -> get_table (update t set flt db).2 t' = get_table db t'.
Proof.
  intros Ht. unfold update. destruct (negb _); [done|].
  case_bool_decide; [|done]. cbn [snd]. by rewrite get_set_table, decide_False.
Qed.

Lemma hashes_update_rows flt set rs :
  hash_set_ok set = true ->
  forallb (fun r => match row_get r "password_hash" with JStr _ => true | _ => false end) rs = true ->
  forallb (fun r => match row_get r "password_hash" with JStr _ => true | _ => false end)
          (update_rows flt set rs) = true.
Proof.
  unfold hash_set_ok, update_rows. intros Hs. rewrite !forallb_forall. intros Hrs r' Hin.
  apply in_map_iff in Hin as (r & <- & Hin). specialize (Hrs r Hin).
  destruct (matches flt r); [|done]. unfold row_get in *. rewrite assoc_last_app.
  destruct (assoc_last "password_hash" set) as [[]|]; done.
Qed.

Lemma inv_update t set flt :
  (t = admin_users -> hash_set_ok set = true) -> op_preserves inv (update t set flt).
Proof.
  intros Hs db (Hc & Hw & Hl). destruct (decide (t = admin_users)) as [->|Ht].
  - split; [by apply update_clients_unique|]. split; [|by rewrite update_admin_users_length].
    unfold update. destruct (negb _); [done|]. case_bool_decide; [|done]. cbn [snd].
    unfold admin_hashes_wf. rewrite t_admin_users_get, get_set_table, decide_True by done.
    by apply hashes_update_rows; [apply Hs|].
  - apply (inv_same_admin db); [done|by apply update_clients_unique|].
    rewrite !t_admin_users_get. by apply update_other_table.
Qed.

(** *** The administrator's login email *)

Section Emails.
Variable E : list js.

Lemma emails_same db db' : t_admin_users db' = t_admin_users db -> admin_emails db' = admin_emails db.
Proof. unfold admin_emails. by intros ->. Qed.

Lemma emails_insert t payload now : t <> admin_users -> op_preserves (fun db => admin_emails db = E) (insert t payload now).
Proof. intros Ht db <-. apply emails_same. by apply insert_admin_users. Qed.

Lemma emails_insert_json t v now :
  t <> admin_users -> op_preserves (fun db => admin_emails db = E) (insert_json t v now).
Proof. intros Ht db Hdb. destruct v; try done. by apply emails_insert. Qed.

Lemma emails_upsert payload now : op_preserves (fun db => admin_emails db = E) (upsert_clients payload now).
Proof. intros db <-. apply emails_same, upsert_admin_users. Qed.

Lemma emails_delete t flt : t <> admin_users -> op_preserves (fun db => admin_emails db = E) (delete t flt).
Proof. intros Ht db <-. apply emails_same. by apply delete_admin_users. Qed.

Lemma emails_update t set flt :
  (t = admin_users -> assoc_last "email" set = None) ->
  op_preserves (fun db => admin_emails db = E) (update t set flt).
Proof.
  intros Hs db <-. destruct (decide (t = admin_users)) as [->|Ht].
  - unfold update. destruct (negb _); [done|]. case_bool_decide; [|done]. cbn [snd].
    unfold admin_emails. rewrite t_admin_users_get, get_set_table, decide_True by done.
    unfold update_rows. rewrite map_map. apply map_ext. intros r.
    destruct (matches flt r); [|done]. by apply row_get_app_l, Hs.
  - apply emails_same. rewrite !t_admin_users_get. by apply update_other_table.
Qed.
End Emails.

(** ** Every handler keeps the invariant *)

Ltac head_of t := lazymatch t with ?f _ => head_of f | _ => constr:(t) end.

(** The side condition of an update: another table, or a hash that is a
    string. *)
Ltac preserve_op :=
  first [ apply op_preserves_select | apply op_preserves_ordered | apply inv_upsert
        | apply inv_insert; discriminate | apply inv_insert_json; discriminate
        | apply inv_delete; discriminate
        | apply op_preserves_update_single, inv_update; intros ?; (discriminate || reflexivity)
        | apply inv_update; intros ?; (discriminate || reflexivity) ].

(** The same for the administrator's email: no update writes it. *)
Ltac preserve_op_email :=
  first [ apply op_preserves_select | apply op_preserves_ordered | apply emails_upsert
        | apply emails_insert; discriminate | apply emails_insert_json; discriminate
        | apply emails_delete; discriminate
        | apply op_preserves_update_single, emails_update; intros ?; (discriminate || reflexivity)
        | apply emails_update; intros ?; (discriminate || reflexivity) ].

(** Walk a handler: the monad's combinators, its branches, and the
    functions it calls, unfolded; [op_tac] discharges the requests. *)
Ltac preserve_with op_tac :=
  repeat match goal with
  | |- ∀ _, _ => intro
  | |- op_preserves _ _ => op_tac
  | |- preserves _ (sm_catch _ _) => apply preserves_catch
  | |- preserves _ (mbind _ _) => apply preserves_bind
  | |- preserves _ (sb _) => apply preserves_sb
  | |- preserves _ (let _ := _ in _) => cbv zeta
  | |- preserves _ (match ?x with _ => _ end) => destruct x
  | |- preserves _ (if ?b then _ else _) => destruct b
  | |- preserves _ _ => solve [eauto with preserve]
  | |- preserves _ ?c => let h := head_of c in progress unfold h
  end.

Ltac preserve := preserve_with preserve_op.

Section Handlers.
Context `{Bcrypt, Jwt, Env}.

Lemma handle_preserves_inv r : preserves inv (handle r).
Proof. destruct r; cbn [handle]; preserve. Qed.

Lemma handle_preserves_admin_emails r E : preserves (fun db => admin_emails db = E) (handle r).
Proof. destruct r; cbn [handle]; preserve_with preserve_op_email. Qed.
End Handlers.

Section Reachable.
Context `{Bcrypt, Jwt, Env}.

Lemma inv_rtc w0 w : inv (w_db w0) -> rtc step w0 w -> inv (w_db w).
Proof.
  intros Hw0 Hr. induction Hr as [w1|w1 w2 w3 Hs _ IH]; [done|]. apply IH.
  destruct Hs as [r w1|w1 d Hd]; [by apply handle_preserves_inv|done].
Qed.

Lemma admin_emails_rtc w0 w : rtc step w0 w -> admin_emails (w_db w) = admin_emails (w_db w0).
Proof.
  induction 1 as [w1|w1 w2 w3 Hs _ IH]; [done|]. rewrite IH.
  destruct Hs as [r w1|w1 d Hd]; [by apply handle_preserves_admin_emails|done].
Qed.

(** Responses with different statuses differ. *)
Lemma ret_status_neq (r1 r2 : Response) : status r1 <> status r2 -> Ret r1 <> (Ret r2 : outcome exn Response).
Proof. intros Hs [= ->]. done. Qed.

(** C5. Every world reachable from a database that satisfies the
    invariant satisfies it: whatever requests arrive, in whatever order
    and with whatever bodies, and whichever requests to the database
    fail, [clients.email] stays unique, there is exactly one
    administrator row, and its password hash is a string. *)
Theorem reachable_inv w0 w : inv (w_db w0) -> reachable w0 w -> inv (w_db w).
Proof. apply inv_rtc. Qed.

(** C15. In every reachable world, a login whose email and password are
    strings never fails with 500: it answers 400, 401 or 200. (The
    invariant is what rules out the [bcrypt.compare] exception; see
    [Auth.login_password_type_leaks] for a password that is not a
    string.) *)
Theorem reachable_login_no_internal_error w0 w b e p :
  inv (w_db w0) -> reachable w0 w ->
  js_get b "email" = Some (JStr e) -> js_get b "password" = Some (JStr p) ->
  (login_POST (Some b) w).2 <> Ret internal_error.
Proof.
  intros Hw0 Hr He Hp. destruct (inv_rtc _ _ Hw0 Hr) as (_ & Hwf & _).
  rewrite (login_POST_run _ _ _ _ He Hp).
  destruct (negb _ || negb _) eqn:Hm; [by apply ret_status_neq|].
  rewrite authenticateAdmin_run.
  destruct (request_ok w); [|by apply ret_status_neq].
  destruct (admin_by_email _ _) as [admin|] eqn:Ha; [|by apply ret_status_neq].
  destruct (admin_by_email_hash _ _ _ Hwf Ha) as [h ->].
  destruct (bcrypt_check p h); by apply ret_status_neq.
Qed.
End Reachable.

Import Crypto.Reference.
From S2P Require Import Fixtures.

Lemma inv_db1 : inv db1.
Proof. split; [apply (bool_decide_unpack _); vm_compute|split]; reflexivity. Qed.

Lemma reachable_inv_witness :
  inv (w_db (handle (ClientsIdPUT "13" (Some (JObj [("email", JStr "maria@example.com")])))
                    (world1 [])).1).
Proof.
  apply (reachable_inv (world1 [])); [exact inv_db1|].
  apply rtc_once, step_request.
Defined.

Lemma reachable_login_no_internal_error_witness :
  let w := (handle (PasswordPUT (Some (JObj [("currentPassword", JStr admin_password);
                                             ("newPassword", JStr "x")]))) (world1 [])).1 in
  (login_POST (Some (JObj [("email", JStr admin_email); ("password", JStr "662002")])) w).2
  <> Ret internal_error.
Proof.
  apply (reachable_login_no_internal_error (world1 []) _ _ admin_email "662002");
    [exact inv_db1| |reflexivity..].
  apply rtc_once, step_request.
Defined.
