(* ===== verification/Responses.v ===== *)
(** * What every route answers

    Every route handler of [src/app/api] wraps its body in
    [try { ... } catch (error) { return NextResponse.json(..., { status:
    500 }) }], and every [return] in the body is a [NextResponse.json]
    of an object literal with one of the statuses 200, 400, 401, 404 or
    500. This file states the first as a property of [System.handle]:
    every request, in every world and under every fault script, is
    answered (no exception escapes a route). The proof carries the
    well-formedness of the answers ([response_wf]) along, which holds by
    the shape of [json] and is not a claim of its own.

    The proof is compositional: [results P c] says that every normal
    return of [c] satisfies [P]; it goes through binds, conditionals and
    matches ([results_tac]), and [sm_catch] with a handler that always
    answers turns it into [answers P]: a run of [c] always returns, with
    [P]. *)

From S2P Require Import Prelude Js Store Crypto Auth Email Intake Settings Admin System.

Open Scope string_scope.

(** The statuses the routes use. *)
Definition http_statuses : list Z := [200; 400; 401; 404; 500]%Z.

(** A well-formed answer: a known status and a JSON object as body. *)
Definition response_wf (r : Response) : Prop :=
  status r ∈ http_statuses ∧ ∃ l, body r = JObj l.

Section Results.
Context {S E : Type}.

(** Every normal return of [c] satisfies [P]. *)
Definition results {A} (P : A -> Prop) (c : SM S E A) : Prop :=
  ∀ s s' a, c s = (s', Ret a) -> P a.

(** Every run of [c] returns normally, with [P]. *)
Definition answers {A} (P : A -> Prop) (c : SM S E A) : Prop :=
  ∀ s, ∃ s' a, c s = (s', Ret a) ∧ P a.

Lemma results_ret {A} (P : A -> Prop) a : P a -> results P (mret a).
Proof. intros Ha s s' a' [= _ <-]. done. Qed.

Lemma results_bind {A B} (P : B -> Prop) (c : SM S E A) (k : A -> SM S E B) :
  (∀ a, results P (k a)) -> results P (c ≫= k).
Proof.
  intros Hk s s' b. rewrite sm_bind_run. destruct (c s) as [s1 [a|e]]; [|done]. apply Hk.
Qed.

Lemma results_catch {A} (P : A -> Prop) (c : SM S E A) h :
  results P c -> (∀ e, results P (h e)) -> results P (sm_catch c h).
Proof.
  intros Hc Hh s s' a. rewrite sm_catch_run. destruct (c s) as [s1 [a'|e]] eqn:Hs.
  - intros [= <- <-]. by eapply Hc.
  - apply Hh.
Qed.

Lemma answers_ret {A} (P : A -> Prop) a : P a -> answers P (mret a).
Proof. intros Ha s. by exists s, a. Qed.

(** A [catch] whose handler always answers makes the whole always answer. *)
Lemma answers_catch {A} (P : A -> Prop) (c : SM S E A) h :
  results P c -> (∀ e, answers P (h e)) -> answers P (sm_catch c h).
Proof.
  intros Hc Hh s. rewrite sm_catch_run. destruct (c s) as [s1 [a|e]] eqn:Hs.
  - exists s1, a. split; [done|]. by apply (Hc s s1).
  - apply Hh.
Qed.

Lemma answers_results {A} (P : A -> Prop) (c : SM S E A) : answers P c -> results P c.
Proof. intros Hc s s' a Hs. destruct (Hc s) as (s1 & a' & Hs' & HP). congruence. Qed.
End Results.

(** A [NextResponse.json] literal is well formed. *)
Ltac response_wf_tac :=
  split; [apply list_elem_of_In; vm_compute; lia | eexists; reflexivity].

(** Through the body of a handler, down to its [return]s. *)
Ltac results_tac :=
  repeat first
    [ apply results_bind; intros ?
    | apply results_catch; [|intros ?]
    | apply results_ret; response_wf_tac
    | match goal with
      | |- results _ (match ?x with _ => _ end) => destruct x
      end ].

(** A route: its [try] body, and a [catch] that answers. *)
Ltac route_tac :=
  apply answers_catch; [results_tac | intros ?; apply answers_ret; response_wf_tac].

Section Routes.
Context `{Bcrypt, Jwt, Env}.

Lemma record_PUT_answers t key err id b : answers response_wf (record_PUT t key err id b).
Proof. unfold record_PUT. route_tac. Qed.

Lemma record_DELETE_answers t err ok id : answers response_wf (record_DELETE t err ok id).
Proof. unfold record_DELETE. route_tac. Qed.

Lemma list_GET_answers t col asc key err : answers response_wf (list_GET t col asc key err).
Proof. unfold list_GET. route_tac. Qed.

(** Every route, one by one. *)
Lemma handle_answers_wf r : answers response_wf (handle r).
Proof.
  destruct r; cbn [handle];
    try apply record_PUT_answers; try apply record_DELETE_answers; try apply list_GET_answers.
  all: first [ unfold login_POST | unfold settings_GET | unfold password_PUT | unfold email_PUT
             | unfold fix_password_POST | unfold debug_GET | unfold test_auth_GET | unfold orders_POST
             | unfold contact_POST | unfold admin_orders_POST | unfold admin_messages_POST
             | unfold admin_clients_POST ]; route_tac.
Qed.
End Routes.

Section Claims.
Context `{Bcrypt, Jwt, Env}.

(** C6. Every request is answered: in every world and under every fault
    script, each route returns a response and no exception escapes it
    (a body that is not JSON, a missing field, a non-string password or
    a failed database request all end in an answer). *)
Theorem handle_always_answers r w : ∃ w' resp, handle r w = (w', Ret resp).
Proof. destruct (handle_answers_wf r w) as (w' & resp & Hr & _). by exists w', resp. Qed.

End Claims.
