(* ===== verification/Client.v ===== *)
(** * The browser side: pages that call the routes

    The administrator's pages under [src/app/admin] are React client
    components: their state is a set of [useState] cells, and their event
    handlers call the routes with [fetch] and store what comes back. A
    page is modelled as a record of its state cells, and each handler as
    a function from the page to [App page]: the server's world is threaded
    through the [fetch] calls, so that a page and the routes it calls run
    as one program.

    [fetch] reaches the route through [System.handle]; the network
    between browser and server is taken to deliver every request (the
    requests of the routes to the database may still fail). Every route
    catches its exceptions, so [await response.json()] always finds the
    JSON body of the route's answer.

    The browser also checks a form before its [onSubmit] runs: this file
    holds the checks the pages share, [text_value] (what an input shows)
    and [email_input_valid] (the "valid e-mail address" of the HTML
    standard that [type="email"] requires). *)

From Stdlib Require Import Ascii.
From S2P Require Import Prelude Js Store Crypto System.

Open Scope string_scope.

(** ** The browser's constraint validation

    A form's [onSubmit] only runs when its inputs are valid; the pages
    rely on [required] (a non-empty value) and [type="email"]. *)

(** The text an input shows for [value={v}]: [null] shows nothing. *)
Definition text_value (v : js) : string :=
  match v with JNull | JUndef => "" | _ => js_to_string v end.

Definition is_alnum (c : ascii) : bool :=
  let n := nat_of_ascii c in
  (Nat.leb 48 n && Nat.leb n 57) || (Nat.leb 65 n && Nat.leb n 90) || (Nat.leb 97 n && Nat.leb n 122).

(** The characters of the local part of a valid e-mail address. *)
Definition is_atext (c : ascii) : bool :=
  is_alnum c || existsb (Ascii.eqb c) (String.list_ascii_of_string ".!#$%&'*+/=?^_`{|}~-").

Fixpoint split_on (sep : ascii) (l : list ascii) : list (list ascii) :=
  match l with
  | [] => [[]]
  | c :: l' =>
      if Ascii.eqb c sep then [] :: split_on sep l'
      else match split_on sep l' with x :: xs => (c :: x) :: xs | [] => [[c]] end
  end.

(** A domain label: 1 to 63 letters, digits and hyphens, neither first
    nor last a hyphen. *)
Definition label_ok (s : list ascii) : bool :=
  Nat.leb 1 (length s) && Nat.leb (length s) 63 && forallb (fun c => is_alnum c || Ascii.eqb c "-"%char) s &&
  match s with c :: _ => is_alnum c | [] => false end && is_alnum (List.last s "-"%char).

(** A "valid e-mail address" of the HTML standard, which [type="email"]
    requires: [atext] characters and dots, one [@], dot-separated labels. *)
Definition email_input_valid (s : string) : bool :=
  match split_on "@"%char (String.list_ascii_of_string s) with
  | [local; domain] => negb (Nat.eqb (length local) 0) && forallb is_atext local && forallb label_ok (split_on "."%char domain)
  | _ => false
  end.

(** ** Rendering *)

(** A value as a JSX child ([{v}]) shows it: [null], [undefined] and the
    booleans show nothing. *)
Definition jsx_text (v : js) : string :=
  match v with JNull | JUndef | JBool _ => "" | _ => js_to_string v end.

(** [switch (v)] on a column value, as the pages' colour functions do: a
    value that is not a string matches no case, as [""] does not. *)
Definition color_of (f : string -> string) (v : js) : string :=
  match v with JStr s => f s | _ => f "" end.

Section Client.
Context `{Bcrypt, Jwt, Env}.

(** [const response = await fetch(url, init)]: [response.ok] and
    [await response.json()] *)
Definition fetch (r : Request) : App (bool * js) :=
  resp ← handle r;
  mret (bool_decide (200 <= status resp < 300)%Z, body resp).

(** [body: JSON.stringify({ ... })] as the route's [request.json()] reads
    it: fields whose value is [undefined] are left out. *)
Definition json_body (fields : list (string * js)) : option js := Some (jobj fields).

(** An exception that escapes an event handler is an unhandled promise
    rejection: the state cells keep what was set before it. *)
Definition unhandled {P} (p : P) (c : App P) : App P := sm_catch c (fun _ => mret p).
End Client.

(** ** Lemmas *)

Lemma fetch_run `{Bcrypt, Jwt, Env} r w :
  fetch r w =
  match handle r w with
  | (w', Ret resp) => (w', Ret (bool_decide (200 <= status resp < 300)%Z, body resp))
  | (w', Throw e) => (w', Throw e)
  end.
Proof. unfold fetch. by rewrite sm_bind_run. Qed.

Lemma drop_fault_empty w : w_faults w = [] -> drop_fault w = w.
Proof. unfold drop_fault, next_fault. by intros ->. Qed.

Lemma request_ok_empty w : w_faults w = [] -> request_ok w = true.
Proof. unfold request_ok. by intros ->. Qed.
