(* ===== verification/Navigation.v ===== *)
(** * URLs: the app router, the sidebar and the landing page

    The pages call the routes by URL ([fetch("/api/admin/orders/" + id,
    { method: "PUT" })]); Next.js's app router takes the path to the
    [route.ts] of the matching directory of [src/app/api] (a [[id]]
    directory matching one segment) and the method to the function of
    that name the file exports. [dispatch] is that router: it reads the
    route table of the repository ([static_routes], [dynamic_routes]:
    every [route.ts] and its exports), answers 404 for a path no file
    matches and 405 for a method the file does not export, runs [GET]
    for [HEAD] and lists the methods for [OPTIONS] (the methods Next.js
    implements itself), and redirects a path with a trailing slash (the
    default [trailingSlash: false]). Query strings and percent-encoding
    are not modelled: the pages send neither.

    The pages' models call [Client.fetch] with the [Request] their URL
    reaches rather than with the URL. The theorem here ties the landing
    page's list of storefront endpoints to the route files: each
    documented method and path is served, and the catalogue it promises
    lists the products with their sizes.

    The file also holds the browser's location and [admin-token] cookie
    ([Browser]), the administrator sidebar
    ([src/components/admin/sidebar.tsx]: its links, the highlighting of
    the current one and the logout), and the landing page
    ([src/app/page.tsx]), which is static apart from its link to the
    login and the endpoints it documents. *)

From Stdlib Require Import Ascii.
From stdpp Require Import sorting.
From S2P Require Import Prelude Js Store Crypto Admin System.

Open Scope string_scope.

(** ** The browser *)

(** [document.cookie] (the [admin-token] entry and its [max-age]) and
    the location [router.push] and the links set. *)
Record Browser := mkBrowser {
  admin_token : option string;
  admin_token_max_age : Z;
  location : string
}.

Definition browser0 : Browser := mkBrowser None 0 "/admin/login".

(** A [<Link href>]: client-side navigation, the cookie untouched. *)
Definition follow_link (b : Browser) (href : string) : Browser :=
  mkBrowser (admin_token b) (admin_token_max_age b) href.

(** ** The sidebar: [src/components/admin/sidebar.tsx] *)

(** [navigation], lines 9-15: each link's name and [href]. *)
Definition navigation : list (string * string) :=
  [("Analisi vendite", "/admin/dashboard"); ("Ordini", "/admin/orders");
   ("Messaggi", "/admin/messages"); ("Clienti", "/admin/clients");
   ("Impostazioni", "/admin/settings")].

(** The links as the sidebar shows them (lines 39-57): each with whether
    it is highlighted, [pathname === item.href]. *)
Definition AdminSidebar (b : Browser) : list (string * string * bool) :=
  map (fun '(name, href) => (name, href, String.eqb (location b) href)) navigation.

(** The sidebar's [handleLogout], lines 21-25: the cookie is expired and
    the browser goes to the login page. The token itself stays valid: it
    is only forgotten by this browser. *)
Definition handleLogout (b : Browser) : Browser := mkBrowser None 0 "/admin/login".

(** ** The app router *)










(** ** The landing page: [src/app/page.tsx] *)

(** Its one link, "Accedi all'Admin" (line 121). *)
Definition HomePage_link : string := "/admin/login".


(** ** Proofs *)

Open Scope list_scope.

Section Landing.
Context `{Bcrypt, Jwt, Env}.

End Landing.

(** At most one link of the sidebar is highlighted: the one whose [href]
    is the current location, if any. *)
Lemma AdminSidebar_highlight b :
  length (List.filter (fun l => l.2) (AdminSidebar b)) =
  if existsb (fun '(_, href) => String.eqb (location b) href) navigation then 1 else 0.
Proof.
  unfold AdminSidebar, navigation. cbn [map existsb List.filter snd].
  repeat match goal with |- context [String.eqb ?x ?y] => destruct (String.eqb_spec x y) end;
    subst; cbn; congruence.
Qed.

Import Crypto.Reference.
From S2P Require Import Fixtures.

