(* ===== verification/MessagesPage.v ===== *)
(** * The messages page: [src/app/admin/messages/page.tsx]

    The page lists the contact messages ([GET /api/admin/messages]),
    filters them by status and request type, lets the administrator set
    a message's status ([PUT /api/admin/messages/[id]]) and opens a
    message in a dialog. Opening a message whose status is "Nuovo" or
    "Non letto" sets it to "Letto": this is the one automatic status
    transition of the spec (sections 3 and 4.7).

    The theorems show that opening a new or unread message makes its
    stored status "Letto" and refreshes the list with it, that opening a
    message already read sends no request, and that the dialog then still
    shows the status the message had when it was clicked. *)

From stdpp Require Import sorting.
From S2P Require Import Prelude Js Store Crypto Admin System Client.

Open Scope string_scope.

(** The page's state cells and event handlers. *)
Module Messages.

(** The state cells, lines 23-29. [filteredMessages] is not a cell of
    its own here: the effect of lines 35-37 recomputes it from the others
    after every change, so it is the function [filterMessages]. *)
Record MessagesPage := mkMessagesPage {
  messages : js;
  isLoading : bool;
  selectedMessage : js;
  isDialogOpen : bool;
  statusFilter : string;
  typeFilter : string
}.

Definition messages_page0 : MessagesPage := mkMessagesPage (JArr []) true JNull false "all" "all".

Definition setMessages (p : MessagesPage) (v : js) : MessagesPage :=
  mkMessagesPage v (isLoading p) (selectedMessage p) (isDialogOpen p) (statusFilter p) (typeFilter p).
Definition setIsLoading (p : MessagesPage) (b : bool) : MessagesPage :=
  mkMessagesPage (messages p) b (selectedMessage p) (isDialogOpen p) (statusFilter p) (typeFilter p).
Definition setSelectedMessage (p : MessagesPage) (m : js) : MessagesPage :=
  mkMessagesPage (messages p) (isLoading p) m (isDialogOpen p) (statusFilter p) (typeFilter p).
Definition setIsDialogOpen (p : MessagesPage) (b : bool) : MessagesPage :=
  mkMessagesPage (messages p) (isLoading p) (selectedMessage p) b (statusFilter p) (typeFilter p).

(** The two filter selects, [onValueChange={setStatusFilter}] (line 143)
    and [onValueChange={setTypeFilter}] (line 154), and the dialog's
    "Chiudi" (line 282). *)
Definition setStatusFilter (p : MessagesPage) (v : string) : MessagesPage :=
  mkMessagesPage (messages p) (isLoading p) (selectedMessage p) (isDialogOpen p) v (typeFilter p).
Definition setTypeFilter (p : MessagesPage) (v : string) : MessagesPage :=
  mkMessagesPage (messages p) (isLoading p) (selectedMessage p) (isDialogOpen p) (statusFilter p) v.
Definition closeDialog (p : MessagesPage) : MessagesPage := setIsDialogOpen p false.

(** [filterMessages], lines 51-63: [None] when [messages] is not an array
    ([.filter] throws). The elements are the rows the route answers,
    objects, on which [msg.status] is [msg?.status]. *)
Definition filterMessages (p : MessagesPage) : option (list js) :=
  match messages p with
  | JArr l =>
      let l1 := if String.eqb (statusFilter p) "all" then l
                else List.filter (fun m => same_value_zero (js_get_opt m "status") (JStr (statusFilter p))) l in
      let l2 := if String.eqb (typeFilter p) "all" then l1
                else List.filter (fun m => same_value_zero (js_get_opt m "request_type") (JStr (typeFilter p))) l1 in
      Some l2
  | _ => None
  end.

(** [getStatusColor], lines 91-102 *)
Definition getStatusColor (status : string) : string :=
  if String.eqb status "Nuovo" then "bg-red-100 text-red-800"
  else if String.eqb status "Non letto" then "bg-yellow-100 text-yellow-800"
  else if String.eqb status "Letto" then "bg-green-100 text-green-800"
  else "bg-gray-100 text-gray-800".

(** [getTypeColor], lines 104-119 *)
Definition getTypeColor (type : string) : string :=
  if String.eqb type "Informazioni generali" then "bg-blue-100 text-blue-800"
  else if String.eqb type "Ordini e consegna" then "bg-green-100 text-green-800"
  else if String.eqb type "Collaborazioni" then "bg-purple-100 text-purple-800"
  else if String.eqb type "Visita in azienda" then "bg-orange-100 text-orange-800"
  else "bg-gray-100 text-gray-800".

(** What a message shows, in its card of the list (lines 186-235) and in
    the dialog (lines 252-263): sender, email, type and status badges
    with their colours, and the text. The date
    ([toLocaleDateString("it-IT")]) is not modelled: timestamps are
    clock values here. *)
Record MessageCard := mkMessageCard {
  card_name : js;
  card_email : js;
  card_type : js;
  card_type_color : string;
  card_status : js;
  card_status_color : string;
  card_message : js
}.

Definition message_card (m : js) : MessageCard :=
  mkMessageCard (js_get_opt m "name") (js_get_opt m "email")
    (js_get_opt m "request_type") (color_of getTypeColor (js_get_opt m "request_type"))
    (js_get_opt m "status") (color_of getStatusColor (js_get_opt m "status"))
    (js_get_opt m "message").

(** The list part of the page: the skeleton while loading (lines
    119-131), the empty card and its text (lines 171-184), or one card
    per filtered message; [filterMessages] throwing is a render error. *)
Inductive MessagesList :=
| ListLoading
| ListEmpty (text : string)
| ListCards (cards : list MessageCard)
| ListThrows.

Definition messages_list (p : MessagesPage) : MessagesList :=
  if isLoading p then ListLoading
  else match filterMessages p with
       | None => ListThrows
       | Some [] =>
           ListEmpty (if bool_decide (messages p = JArr []) then "Non ci sono messaggi da visualizzare."
                      else "Nessun messaggio corrisponde ai filtri selezionati.")
       | Some ms => ListCards (map message_card ms)
       end.

(** The dialog (lines 240-290), when open: its title
    ["Messaggio da " + selectedMessage?.name] and, when a message is
    selected, its card. *)
Record MessageDialog := mkMessageDialog {
  dialog_title : string;
  dialog_body : option MessageCard
}.

Definition message_dialog (p : MessagesPage) : option MessageDialog :=
  if isDialogOpen p then
    Some (mkMessageDialog ("Messaggio da " ++ text_value (js_get_opt (selectedMessage p) "name"))
            (if truthy (selectedMessage p) then Some (message_card (selectedMessage p)) else None))
  else None.

Section Handlers.
Context `{Bcrypt, Jwt, Env}.

(** [fetchMessages], lines 39-49: [setMessages(data.messages || [])],
    then [setIsLoading(false)] in the [finally]. *)
Definition fetchMessages (p : MessagesPage) : App MessagesPage :=
  p' ← sm_catch (
         fetch AdminMessagesGET ≫= fun '((_, data) : bool * js) =>
         ms ← prop data "messages";
         mret (setMessages p (js_or ms (JArr []))))
       (fun _ => mret p);
  mret (setIsLoading p' false).

(** [handleStatusUpdate(messageId, newStatus)], lines 65-79 *)
Definition handleStatusUpdate (p : MessagesPage) (messageId : js) (newStatus : string)
  : App MessagesPage :=
  sm_catch (
    fetch (MessagesIdPUT (js_to_string messageId) (json_body [("status", JStr newStatus)]))
      ≫= fun '((ok, _) : bool * js) => if ok then fetchMessages p else mret p)
    (fun _ => mret p).

(** [openMessageDialog(message)], lines 81-89 *)
Definition openMessageDialog (p : MessagesPage) (message : js) : App MessagesPage :=
  let p1 := setIsDialogOpen (setSelectedMessage p message) true in
  unhandled p1 (
    status ← prop message "status";
    if same_value_zero status (JStr "Nuovo") || same_value_zero status (JStr "Non letto") then
      id ← prop message "id";
      handleStatusUpdate p1 id "Letto"
    else mret p1).
End Handlers.
End Messages.
Import Messages.

(** ** Proofs *)

Open Scope list_scope.

Section Proofs.
Context `{Bcrypt, Jwt, Env}.

(** [fetchMessages] with every request answered: the list is the table,
    newest first. *)
Lemma fetchMessages_run p w :
  w_faults w = [] ->
  fetchMessages p w =
  (w, Ret (setIsLoading (setMessages p (JArr (map row_js (merge_sort (row_order "created_at" false)
                                                              (t_messages (w_db w)))))) false)).
Proof.
  intros Hf. unfold fetchMessages. handler_simpl. rewrite fetch_run. cbn [handle].
  unfold admin_messages_GET. rewrite list_GET_run, request_ok_empty, drop_fault_empty by done.
  reflexivity.
Qed.

(** [PUT /api/admin/messages/[id]] with [{ status }] on a row that exists,
    every request answered, as the page's [fetch] sees it. *)
Lemma fetch_status_PUT id st w row :
  w_faults w = [] ->
  List.filter (matches [("id", JStr id)]) (t_messages (w_db w)) = [row] ->
  let set := [("status", JStr st); ("updated_at", timestamp (w_now w))] in
  fetch (MessagesIdPUT id (json_body [("status", JStr st)])) w =
  (set_db w (set_table (w_db w) Store.messages (update_rows [("id", JStr id)] set (t_messages (w_db w)))),
   Ret (true, jobj [("message", row_js (row ++ set))])).
Proof.
  intros Hf Hrow set. rewrite fetch_run. cbn [handle]. unfold messages_id_PUT, json_body.
  rewrite record_PUT_run, request_ok_empty by done. cbn [json_body jobj json_fields List.filter is_defined spread fst snd app].
  rewrite (update_single_one _ _ _ _ row); [|exact Hrow|reflexivity|discriminate].
  by rewrite drop_fault_empty.
Qed.

(** C17. Opening a message whose status is "Nuovo" or "Non letto", with
    every request answered, sets the stored message's status to "Letto"
    (section 8 of the spec) and refreshes the list from the table; the
    dialog it opens still shows the object that was clicked, with its old
    status. *)
Theorem openMessageDialog_marks_read p fields w row st :
  w_faults w = [] -> st = "Nuovo" ∨ st = "Non letto" ->
  js_get_opt (JObj fields) "status" = JStr st ->
  let flt := [("id", JStr (js_to_string (js_get_opt (JObj fields) "id")))] in
  List.filter (matches flt) (t_messages (w_db w)) = [row] ->
  let set := [("status", JStr "Letto"); ("updated_at", timestamp (w_now w))] in
  ∃ w' p', openMessageDialog p (JObj fields) w = (w', Ret p') ∧
    List.filter (matches flt) (t_messages (w_db w')) = [row ++ set] ∧
    messages p' = JArr (map row_js (merge_sort (row_order "created_at" false) (t_messages (w_db w')))) ∧
    isDialogOpen p' = true ∧ js_get_opt (selectedMessage p') "status" = JStr st ∧
    dialog_body <$> message_dialog p' = Some (Some (message_card (JObj fields))) ∧
    card_status (message_card (JObj fields)) = JStr st.
Proof.
  intros Hf Hst Hs flt Hrow set.
  unfold openMessageDialog, unhandled. handler_simpl. rewrite !js_get_obj, Hs. handler_simpl.
  assert ((if same_value_zero (JStr st) (JStr "Nuovo") then true
           else same_value_zero (JStr st) (JStr "Non letto")) = true)
    as -> by (destruct Hst as [-> | ->]; reflexivity).
  unfold handleStatusUpdate. handler_simpl.
  rewrite (fetch_status_PUT _ _ _ row) by (done || exact Hrow). handler_simpl.
  rewrite fetchMessages_run by done. handler_simpl.
  eexists _, _. split; [reflexivity|]. cbn [w_db set_db setIsLoading setMessages messages
    isDialogOpen selectedMessage setIsDialogOpen setSelectedMessage].
  rewrite (t_messages_get (set_table _ _ _)), get_set_table, decide_True by done.
  split; [|done]. rewrite filter_update_rows. { fold flt. by rewrite Hrow. } by repeat constructor.
Qed.

(** Opening a message whose status is neither "Nuovo" nor
    "Non letto" (already "Letto", say) sends no request: the world is
    unchanged and the dialog opens on it. *)
Theorem openMessageDialog_read_no_request p fields w st :
  js_get_opt (JObj fields) "status" = JStr st -> st <> "Nuovo" -> st <> "Non letto" ->
  openMessageDialog p (JObj fields) w =
  (w, Ret (setIsDialogOpen (setSelectedMessage p (JObj fields)) true)).
Proof.
  intros Hs Hn1 Hn2. unfold openMessageDialog, unhandled. handler_simpl.
  rewrite !js_get_obj, Hs. handler_simpl. cbn [same_value_zero].
  by rewrite (proj2 (String.eqb_neq _ _) Hn1), (proj2 (String.eqb_neq _ _) Hn2).
Qed.
End Proofs.

Import Crypto.Reference.
From S2P Require Import Fixtures.
Open Scope list_scope.

Lemma openMessageDialog_marks_read_witness :
  let flt := [("id", JStr (js_to_string (js_get_opt (JObj message_row0) "id")))] in
  let set := [("status", JStr "Letto"); ("updated_at", timestamp (w_now (world1 [])))] in
  ∃ w' p', openMessageDialog messages_page0 (JObj message_row0) (world1 []) = (w', Ret p') ∧
    List.filter (matches flt) (t_messages (w_db w')) = [message_row0 ++ set] ∧
    messages p' = JArr (map row_js (merge_sort (row_order "created_at" false) (t_messages (w_db w')))) ∧
    isDialogOpen p' = true ∧ js_get_opt (selectedMessage p') "status" = JStr "Nuovo" ∧
    dialog_body <$> message_dialog p' = Some (Some (message_card (JObj message_row0))) ∧
    card_status (message_card (JObj message_row0)) = JStr "Nuovo".
Proof. apply (openMessageDialog_marks_read _ _ _ message_row0 "Nuovo"); [reflexivity|by left|reflexivity..]. Defined.

Lemma openMessageDialog_read_no_request_witness :
  let m := JObj (message_row0 ++ [("status", JStr "Letto")]) in
  openMessageDialog messages_page0 m (world1 []) =
  (world1 [], Ret (setIsDialogOpen (setSelectedMessage messages_page0 m) true)).
Proof. apply (openMessageDialog_read_no_request _ _ _ "Letto"); [reflexivity|discriminate..]. Defined.
