(* ===== verification/LoginPage.v ===== *)
(** * The login page: [src/app/admin/login/page.tsx]

    The page's form starts filled in with the email
    [oliodivaleria@server.com] and the password [662002] (lines 14-15).
    Besides the submit button ([handleLogin]: [POST /api/admin/auth/login],
    then the token in the [admin-token] cookie and a redirect to the
    dashboard) it has a "Test Authentication" button ([testAuth]:
    [GET /api/admin/test-auth]) and a "Fix Password Hash" button
    ([fixPassword]: [POST /api/admin/fix-password]).

    The browser's part of the state, the cookie and the location, is the
    record [Navigation.Browser], next to the page's state cells.

    The theorem shows what the two buttons make of the page: in every
    world reachable from a provisioned database, a visitor who presses
    "Fix Password Hash" and then "Accedi" on the form as it loads ends up
    on the dashboard holding an administrator token, valid for 24 hours. *)

From stdpp Require Import relations.
From S2P Require Import Prelude Js Store Crypto Auth Settings System Client Navigation.

Open Scope string_scope.

(** The page's state cells and event handlers. *)
Module Login.

(** The state cells, lines 14-17; the inputs set [email] and
    [password], and "Accedi" is [submitLoginForm]: the browser's checks,
    then [handleLogin]. *)
Record LoginPage := mkLoginPage {
  email : string;
  password : string;
  error : option string;
  isLoading : bool
}.

(** The form as it loads, "Pre-fill ... for testing" *)
Definition login_page0 : LoginPage := mkLoginPage "oliodivaleria@server.com" "662002" None false.

Definition setError (p : LoginPage) (e : option string) : LoginPage :=
  mkLoginPage (email p) (password p) e (isLoading p).
Definition setIsLoading (p : LoginPage) (b : bool) : LoginPage :=
  mkLoginPage (email p) (password p) (error p) b.

(** The inputs' [onChange={(e) => setEmail(e.target.value)}] (line 103)
    and [setPassword] (line 113). *)
Definition setEmail (p : LoginPage) (v : string) : LoginPage :=
  mkLoginPage v (password p) (error p) (isLoading p).
Definition setPassword (p : LoginPage) (v : string) : LoginPage :=
  mkLoginPage (email p) v (error p) (isLoading p).

(** The browser's validation of the form (lines 97-114): the email is
    [type="email"] and [required], the password [required]. *)
Definition login_form_valid (p : LoginPage) : bool :=
  email_input_valid (email p) && negb (String.eqb (password p) "").

(** What the form shows besides its inputs: the error under them
    ([{error && <p>{error}</p>}], line 116; an empty message shows
    nothing) and the submit button's label (line 132). *)
Definition login_error_shown (p : LoginPage) : option string :=
  match error p with Some e => if String.eqb e "" then None else Some e | None => None end.
Definition login_button_label (p : LoginPage) : string :=
  if isLoading p then "Accesso in corso..." else "Accedi".

Section Handlers.
Context `{Bcrypt, Jwt, Env}.

(** [handleLogin], lines 20-48. [throw new Error(data.error || "Login
    failed")] is caught by the [catch] below it, which shows its
    message: the not-ok branch sets that message directly. *)
Definition handleLogin (p : LoginPage) (b : Browser) : App (LoginPage * Browser) :=
  let p1 := setError (setIsLoading p true) None in
  q ← sm_catch (
        fetch (LoginPOST (json_body [("email", JStr (email p)); ("password", JStr (password p))]))
          ≫= fun '((ok, data) : bool * js) =>
        if negb ok then
          mret (setError p1 (Some (js_to_string (js_or (js_get_opt data "error") (JStr "Login failed")))), b)
        else
          mret (p1, mkBrowser (Some (js_to_string (js_get_opt data "token"))) 86400 "/admin/dashboard"))
      (fun e => mret (setError p1 (Some (exn_message e)), b));
  mret (setIsLoading q.1 false, q.2).

(** [testAuth], lines 50-62 *)
Definition testAuth (p : LoginPage) : App LoginPage :=
  sm_catch (
    fetch TestAuthGET ≫= fun '((_, data) : bool * js) =>
    if truthy (js_get_opt data "error") then
      mret (setError p (Some ("Test failed: " ++ js_to_string (js_get_opt data "error") ++ ". "
                              ++ js_to_string (js_or (js_get_opt data "suggestion") (JStr "")))))
    else
      mret (setError p (Some ("Test passed: " ++ js_to_string (js_get_opt data "message")
                              ++ ". Password test: " ++ js_to_string (js_get_opt data "passwordTest")))))
    (fun _ => mret (setError p (Some "Test request failed"))).

(** [fixPassword], lines 64-82 *)
Definition fixPassword (p : LoginPage) : App LoginPage :=
  let p1 := setIsLoading p true in
  q ← sm_catch (
        fetch FixPasswordPOST ≫= fun '((_, data) : bool * js) =>
        if truthy (js_get_opt data "error") then
          mret (setError p1 (Some ("Fix failed: " ++ js_to_string (js_get_opt data "error"))))
        else
          mret (setError p1 (Some ("Password fixed successfully! Hash test: "
                                   ++ js_to_string (js_get_opt data "hashTest")))))
      (fun _ => mret (setError p1 (Some "Fix request failed")));
  mret (setIsLoading q false).

(** "Accedi": the form's submit, through the browser's validation, while
    the button is not [disabled={isLoading}] (line 131), runs
    [onSubmit={handleLogin}] (line 93). *)
Definition submitLoginForm (p : LoginPage) (b : Browser) : App (LoginPage * Browser) :=
  if login_form_valid p && negb (isLoading p) then handleLogin p b else mret (p, b).
End Handlers.
End Login.
Import Login.

(** ** Proofs *)

Open Scope list_scope.

Section Proofs.
Context `{Bcrypt, Jwt, Env}.

(** "Fix Password Hash" with its requests answered. *)
Lemma fixPassword_run p w admin :
  request_ok w = true -> t_admin_users (w_db w) = [admin] ->
  row_get admin "email" = JStr maintenance_email ->
  fixPassword p w =
  ((fix_password_POST w).1,
   Ret (setIsLoading (setError (setIsLoading p true) (Some "Password fixed successfully! Hash test: true"))
                     false)).
Proof.
  intros Hr Ht He. unfold fixPassword. handler_simpl. rewrite fetch_run. cbn [handle].
  rewrite (fix_password_POST_run w admin) by done. reflexivity.
Qed.

(** "Accedi" with credentials the administrator row accepts. *)
Lemma handleLogin_run p b w admin h :
  email p <> "" -> password p <> "" -> request_ok w = true ->
  admin_by_email (w_db w) (JStr (email p)) = Some admin ->
  row_get admin "password_hash" = JStr h -> bcrypt_check (password p) h = true ->
  handleLogin p b w =
  (drop_fault w,
   Ret (setIsLoading (setError (setIsLoading p true) None) false,
        mkBrowser (Some (jwt_encode JWT_SECRET (token_claims admin (w_now w)))) 86400 "/admin/dashboard")).
Proof.
  intros He Hp Hr Ha Hh Hc. unfold handleLogin. handler_simpl. rewrite fetch_run. cbn [handle]. unfold json_body.
  rewrite (login_POST_run _ (JStr (email p)) (JStr (password p))) by reflexivity.
  rewrite !truthy_str_nonempty by done. cbn [negb orb].
  rewrite authenticateAdmin_run, Hr, Ha, Hh, Hc. reflexivity.
Qed.

(** The form as it loads passes the browser's checks, whatever the
    buttons did to the message. *)
Lemma login_form_valid_fixed e b : login_form_valid (setIsLoading (setError (setIsLoading login_page0 b) e) false) = true.
Proof. reflexivity. Qed.

(** C3. In every world reachable from a database whose one
    administrator logs in as [oliodivaleria@server.com], with every
    request answered, a visitor who opens the login page, presses "Fix
    Password Hash" and then "Accedi" on the form as it loads (which the
    browser's checks let through) is sent to
    the dashboard with an administrator token in the [admin-token]
    cookie, one that verifies to the administrator's claims for the next
    24 hours. No credential is needed: the page carries both the button
    and the password. *)
Theorem login_page_takeover w0 w :
  inv (w_db w0) -> admin_emails (w_db w0) = [JStr maintenance_email] ->
  reachable w0 w -> w_faults w = [] ->
  ∃ w' p b admin,
    (fixPassword login_page0 ≫= fun p => submitLoginForm p browser0) w = (w', Ret (p, b)) ∧
    location b = "/admin/dashboard" ∧ t_admin_users (w_db w') = [admin] ∧
    admin_token b = Some (jwt_encode JWT_SECRET (token_claims admin (w_now w))) ∧
    ∀ t, jwt_verify (jwt_encode JWT_SECRET (token_claims admin (w_now w))) JWT_SECRET t =
         if (t <? w_now w + 86400)%Z then Some (token_claims admin (w_now w)) else None.
Proof.
  intros Hinv Hem Hr Hf.
  destruct (inv_rtc _ _ Hinv Hr) as (_ & _ & Hlen).
  pose proof (admin_emails_rtc _ _ Hr) as He. rewrite Hem in He.
  destruct (t_admin_users (w_db w)) as [|admin [|]] eqn:Ht; try done.
  unfold admin_emails in He. rewrite Ht in He. injection He as He.
  assert (request_ok w = true) as Hok by (unfold request_ok; by rewrite Hf).
  set (set := [("password_hash", JStr (bcrypt_hash maintenance_password (w_entropy w)))]).
  rewrite sm_bind_run, (fixPassword_run _ _ admin) by done.
  rewrite (fix_password_POST_run w admin) by done. cbn [fst]. unfold submitLoginForm at 1.
  rewrite login_form_valid_fixed. cbn [isLoading setIsLoading negb andb].
  rewrite (handleLogin_run _ _ _ (admin ++ set) (bcrypt_hash maintenance_password (w_entropy w)));
    try done; cbn [w_db w_faults w_now email password login_page0 setIsLoading setError].
  - eexists _, _, _, (admin ++ set). split; [reflexivity|]. split; [done|].
    split; [rewrite w_db_drop_fault; cbn [w_db]; by rewrite t_admin_users_get, get_set_table, decide_True|].
    split; [done|].
    intros t. apply jwt_verify_token_claims.
  - unfold request_ok, drop_fault, next_fault. by rewrite Hf.
  - apply (admin_by_email_singleton _ (admin ++ set)); [by destruct (w_db w)|].
    by rewrite row_get_app_l.
  - by apply row_get_app_r.
  - by rewrite bcrypt_check_hash, String.eqb_refl.
Qed.
End Proofs.

Import Crypto.Reference.
From S2P Require Import Fixtures.
Open Scope list_scope.

(** The administrator has just changed the password: the takeover still
    works. *)
Lemma login_page_takeover_witness :
  let w := (handle (PasswordPUT (Some (JObj [("currentPassword", JStr "662002");
                                              ("newPassword", JStr "nuova-password-segreta")])))
                   (world1 [])).1 in
  ∃ w' p b admin,
    (fixPassword login_page0 ≫= fun p => submitLoginForm p browser0) w = (w', Ret (p, b)) ∧
    location b = "/admin/dashboard" ∧ t_admin_users (w_db w') = [admin] ∧
    admin_token b = Some (jwt_encode JWT_SECRET (token_claims admin (w_now w))) ∧
    ∀ t, jwt_verify (jwt_encode JWT_SECRET (token_claims admin (w_now w))) JWT_SECRET t =
         if (t <? w_now w + 86400)%Z then Some (token_claims admin (w_now w)) else None.
Proof.
  apply (login_page_takeover (world1 [])); [exact inv_db1|reflexivity| |reflexivity].
  apply rtc_once, step_request.
Defined.
