(* ===== verification/ClientsPage.v ===== *)
(** * The clients page: [src/app/admin/clients/page.tsx]

    The page lists the clients ([GET /api/admin/clients]), searches them
    by a term, creates ([POST /api/admin/clients]), edits
    ([PUT /api/admin/clients/[id]]) and deletes
    ([DELETE /api/admin/clients/[id]]) them through a form.

    The search keeps a client when its name, email or phone contains the
    term, ignoring case ([filterClients]). The theorems show that on
    well-formed rows it keeps exactly the clients one of whose fields has
    the term as a substring, and that one client whose email is [null]
    (which the routes accept) makes every search that does not match its
    name throw; that deleting a client removes its row and refreshes the
    list only once confirmed; and that saving a client with another
    client's email changes nothing and tells the administrator nothing.

    The inputs and the search box are setters of their cells;
    [submitClientForm] is the browser's [type="email"]/[required] check
    of the email followed by [handleSubmit]. *)

From stdpp Require Import sorting.
From S2P Require Import Prelude Js Store Crypto Admin System Client.

Open Scope string_scope.

(** The page's state cells and event handlers. *)
Module Clients.

(** The state cells, lines 30-42; [filteredClients] is recomputed from
    [clients] and [searchTerm] by the effect of lines 48-50, so it is the
    function [filterClients]. *)
Record ClientsPage := mkClientsPage {
  clients : js;
  isLoading : bool;
  editingClient : js;
  isDialogOpen : bool;
  searchTerm : string;
  form_name : js;
  form_email : js;
  form_phone : js
}.

Definition clients_page0 : ClientsPage :=
  mkClientsPage (JArr []) true JNull false "" (JStr "") (JStr "") (JStr "").

Definition setClients (p : ClientsPage) (v : js) : ClientsPage :=
  mkClientsPage v (isLoading p) (editingClient p) (isDialogOpen p) (searchTerm p)
                (form_name p) (form_email p) (form_phone p).
Definition setIsLoading (p : ClientsPage) (b : bool) : ClientsPage :=
  mkClientsPage (clients p) b (editingClient p) (isDialogOpen p) (searchTerm p)
                (form_name p) (form_email p) (form_phone p).
Definition setIsDialogOpen (p : ClientsPage) (b : bool) : ClientsPage :=
  mkClientsPage (clients p) (isLoading p) (editingClient p) b (searchTerm p)
                (form_name p) (form_email p) (form_phone p).

(** [resetForm], lines 117-124 *)
Definition resetForm (p : ClientsPage) : ClientsPage :=
  mkClientsPage (clients p) (isLoading p) JNull (isDialogOpen p) (searchTerm p)
                (JStr "") (JStr "") (JStr "").

(** [openEditDialog(client)], lines 126-134 *)
Definition openEditDialog (p : ClientsPage) (client : js) : ClientsPage :=
  mkClientsPage (clients p) (isLoading p) client true (searchTerm p)
                (js_or (js_get_opt client "name") (JStr "")) (js_get_opt client "email")
                (js_or (js_get_opt client "phone") (JStr "")).

(** The form's inputs (lines 178, 188, 198) and the search box (line
    222): [setFormData({ ...formData, field: value })] and
    [setSearchTerm(value)]. *)
Definition setName (p : ClientsPage) (v : string) : ClientsPage :=
  mkClientsPage (clients p) (isLoading p) (editingClient p) (isDialogOpen p) (searchTerm p)
                (JStr v) (form_email p) (form_phone p).
Definition setEmail (p : ClientsPage) (v : string) : ClientsPage :=
  mkClientsPage (clients p) (isLoading p) (editingClient p) (isDialogOpen p) (searchTerm p)
                (form_name p) (JStr v) (form_phone p).
Definition setPhone (p : ClientsPage) (v : string) : ClientsPage :=
  mkClientsPage (clients p) (isLoading p) (editingClient p) (isDialogOpen p) (searchTerm p)
                (form_name p) (form_email p) (JStr v).
Definition setSearchTerm (p : ClientsPage) (v : string) : ClientsPage :=
  mkClientsPage (clients p) (isLoading p) (editingClient p) (isDialogOpen p) v
                (form_name p) (form_email p) (form_phone p).

(** "Nuovo Cliente" (lines 158-160) resets the form and opens the
    dialog; "Annulla" (line 203) closes it. *)
Definition newClient (p : ClientsPage) : ClientsPage := setIsDialogOpen (resetForm p) true.
Definition cancelDialog (p : ClientsPage) : ClientsPage := setIsDialogOpen p false.

(** The browser's validation of the form: the email is [type="email"]
    and [required] (lines 186-189); name and phone are free. *)
Definition client_form_valid (p : ClientsPage) : bool := email_input_valid (text_value (form_email p)).

(** [x?.toLowerCase().includes(term)]: [undefined] (falsy) on a missing
    value, a [TypeError] ([None]) on a value that is not a string. *)
Definition opt_includes (v : js) (term : string) : option bool :=
  match v with
  | JUndef | JNull => Some false
  | JStr s => Some (str_includes (to_lower s) term)
  | _ => None
  end.

(** [x.toLowerCase().includes(term)]: [null] and [undefined] throw too. *)
Definition req_includes (v : js) (term : string) : option bool :=
  match v with
  | JStr s => Some (str_includes (to_lower s) term)
  | _ => None
  end.

(** The predicate of lines 70-74, with [||] short-circuiting. *)
Definition client_matches (term : string) (client : js) : option bool :=
  match opt_includes (js_get_opt client "name") term with
  | Some true => Some true
  | Some false =>
      match req_includes (js_get_opt client "email") term with
      | Some true => Some true
      | Some false => opt_includes (js_get_opt client "phone") term
      | None => None
      end
  | None => None
  end.

(** [Array.prototype.filter] with a predicate that may throw *)
Fixpoint filter_opt {A} (f : A -> option bool) (l : list A) : option (list A) :=
  match l with
  | [] => Some []
  | x :: r =>
      match f x, filter_opt f r with
      | Some b, Some r' => Some (if b then x :: r' else r')
      | _, _ => None
      end
  end.

(** [filterClients], lines 64-77: the new [filteredClients], or [None]
    when it throws. *)
Definition filterClients (p : ClientsPage) : option js :=
  if negb (truthy (JStr (searchTerm p))) then Some (clients p)
  else
    match clients p with
    | JArr l => JArr <$> filter_opt (client_matches (to_lower (searchTerm p))) l
    | _ => None
    end.

(** What the theorems are stated with: a field holds a string whose
    lower-case form has [term] as a substring. *)
Definition field_has (v : js) (term : string) : Prop :=
  ∃ s, v = JStr s ∧ ∃ pre suf, to_lower s = (pre ++ term ++ suf)%string.

(** A row as the table holds it: a string email, and a name and a phone
    that are strings or missing. *)
Definition client_wf (c : js) : bool :=
  match js_get_opt c "email" with JStr _ => true | _ => false end &&
  match js_get_opt c "name" with JUndef | JNull | JStr _ => true | _ => false end &&
  match js_get_opt c "phone" with JUndef | JNull | JStr _ => true | _ => false end.

(** The search on one field, when it cannot throw. *)
Definition includes_b (v : js) (term : string) : bool :=
  match v with JStr s => str_includes (to_lower s) term | _ => false end.

(** The three figures above the list (lines 229-257): the clients, those
    with a (truthy) phone, those with a name; [None] when [clients] is
    not an array ([.filter] throws). *)
Record ClientStats := mkClientStats {
  stat_total : nat;
  stat_with_phone : nat;
  stat_with_name : nat
}.

Definition client_stats (p : ClientsPage) : option ClientStats :=
  match clients p with
  | JArr l => Some (mkClientStats (length l)
                      (length (List.filter (fun c => truthy (js_get_opt c "phone")) l))
                      (length (List.filter (fun c => truthy (js_get_opt c "name")) l)))
  | _ => None
  end.

(** A client's card (lines 276-313): [client.name || "Nome non
    disponibile"], the email, the phone when it is truthy. The date is
    not modelled: timestamps are clock values here. *)
Record ClientCard := mkClientCard {
  card_title : js;
  card_email : js;
  card_phone : option js
}.

Definition client_card (c : js) : ClientCard :=
  mkClientCard (js_or (js_get_opt c "name") (JStr "Nome non disponibile")) (js_get_opt c "email")
               (if truthy (js_get_opt c "phone") then Some (js_get_opt c "phone") else None).

(** The list: the skeleton while loading (lines 136-149), the empty card
    and its text (lines 261-274), or one card per filtered client; a
    search that throws, or a result that is not an array, is a render
    error. *)
Inductive ClientsList :=
| ClientsLoading
| ClientsEmpty (text : string)
| ClientsCards (cards : list ClientCard)
| ClientsThrows.

Definition clients_list (p : ClientsPage) : ClientsList :=
  if isLoading p then ClientsLoading
  else match filterClients p with
       | Some (JArr []) =>
           ClientsEmpty (if bool_decide (clients p = JArr []) then "Non ci sono clienti registrati."
                         else "Nessun cliente corrisponde alla ricerca.")
       | Some (JArr l) => ClientsCards (map client_card l)
       | _ => ClientsThrows
       end.

Section Handlers.
Context `{Bcrypt, Jwt, Env}.

(** [fetchClients], lines 52-62 *)
Definition fetchClients (p : ClientsPage) : App ClientsPage :=
  p' ← sm_catch (
         fetch AdminClientsGET ≫= fun '((_, data) : bool * js) =>
         cs ← prop data "clients";
         mret (setClients p (js_or cs (JArr []))))
       (fun _ => mret p);
  mret (setIsLoading p' false).

(** [handleSubmit], lines 79-99: [PUT] of the edited client, or [POST]
    of a new one, with the form as body. *)
Definition handleSubmit (p : ClientsPage) : App ClientsPage :=
  let body := json_body [("name", form_name p); ("email", form_email p); ("phone", form_phone p)] in
  let req := if truthy (editingClient p)
             then ClientsIdPUT (js_to_string (js_get_opt (editingClient p) "id")) body
             else AdminClientsPOST body in
  sm_catch (
    fetch req ≫= fun '((ok, _) : bool * js) =>
    if ok then p' ← fetchClients p; mret (resetForm (setIsDialogOpen p' false))
    else mret p)
    (fun _ => mret p).

(** [handleDelete(clientId)], lines 101-115; [confirmed] is the answer
    to [confirm(...)]. *)
Definition handleDelete (p : ClientsPage) (clientId : js) (confirmed : bool) : App ClientsPage :=
  if negb confirmed then mret p
  else
    sm_catch (
      fetch (ClientsIdDELETE (js_to_string clientId)) ≫= fun '((ok, _) : bool * js) =>
      if ok then fetchClients p else mret p)
      (fun _ => mret p).

(** The form's submit: the browser's validation, then
    [onSubmit={handleSubmit}] (line 172). *)
Definition submitClientForm (p : ClientsPage) : App ClientsPage :=
  if client_form_valid p then handleSubmit p else mret p.
End Handlers.
End Clients.
Import Clients.

(** ** Proofs *)

Lemma filter_opt_total {A} (f : A -> option bool) (g : A -> bool) l :
  (∀ x, x ∈ l -> f x = Some (g x)) -> filter_opt f l = Some (List.filter g l).
Proof.
  induction l as [|x l IH]; intros Hf; [done|]. cbn [filter_opt List.filter].
  rewrite Hf by (by left). rewrite IH; [done|]. intros y Hy. apply Hf. by right.
Qed.

Lemma filter_opt_throws {A} (f : A -> option bool) l x :
  x ∈ l -> f x = None -> filter_opt f l = None.
Proof.
  induction l as [|y l IH]; [by intros ?%elem_of_nil|]. intros [->|Hx]%elem_of_cons Hfx; cbn [filter_opt].
  - by rewrite Hfx.
  - rewrite IH by done. by destruct (f y).
Qed.

Lemma sublist_List_filter {A} (g : A -> bool) l : sublist (List.filter g l) l.
Proof. induction l as [|x l IH]; cbn [List.filter]; [constructor|]. destruct (g x); by constructor. Qed.

Lemma includes_b_spec v term : includes_b v term = true <-> field_has v term.
Proof.
  unfold field_has. destruct v; simpl; split; try (intros (? & ? & _); discriminate); try done.
  - rewrite str_includes_spec. intros H. by eexists.
  - intros (? & [= <-] & H). by apply str_includes_spec.
Qed.

Lemma client_matches_wf term c :
  client_wf c = true ->
  client_matches term c =
  Some (includes_b (js_get_opt c "name") term || includes_b (js_get_opt c "email") term
        || includes_b (js_get_opt c "phone") term).
Proof.
  unfold client_wf, client_matches.
  destruct (js_get_opt c "email"), (js_get_opt c "name"), (js_get_opt c "phone"); try done;
    cbn [opt_includes req_includes includes_b andb orb];
    repeat match goal with |- context [str_includes ?s ?t] => destruct (str_includes s t) end; done.
Qed.

(** C29. On rows of the table's shape, the search of the clients page
    keeps exactly the clients whose name, email or phone, in lower case,
    contains the lower-cased search term, in their order. *)
Theorem filterClients_spec p l :
  searchTerm p <> "" -> clients p = JArr l -> Forall (fun c => client_wf c = true) l ->
  ∃ l', filterClients p = Some (JArr l') ∧ sublist l' l ∧
    ∀ c, c ∈ l -> (c ∈ l' <-> field_has (js_get_opt c "name") (to_lower (searchTerm p)) ∨
                               field_has (js_get_opt c "email") (to_lower (searchTerm p)) ∨
                               field_has (js_get_opt c "phone") (to_lower (searchTerm p))).
Proof.
  intros Ht Hc Hwf. set (t := to_lower (searchTerm p)).
  set (g := fun c => includes_b (js_get_opt c "name") t || includes_b (js_get_opt c "email") t
                     || includes_b (js_get_opt c "phone") t).
  exists (List.filter g l). unfold filterClients.
  rewrite Hc, (filter_opt_total _ g); cycle 1.
  { intros c Hin. apply client_matches_wf. rewrite List.Forall_forall in Hwf. by apply Hwf, list_elem_of_In. }
  cbn [truthy]. rewrite (proj2 (String.eqb_neq _ _) Ht). split; [done|]. split.
  - apply sublist_List_filter.
  - intros c Hin. rewrite <-!includes_b_spec, list_elem_of_In, filter_In, <-list_elem_of_In.
    unfold g. rewrite !orb_true_iff. tauto.
Qed.

(** C31. One client whose email is [null] (the update routes accept it:
    the unique constraint ignores [null]) makes the search throw for
    every term its name does not contain: [null.toLowerCase()]. *)
Theorem filterClients_null_email_throws p l c :
  searchTerm p <> "" -> clients p = JArr l -> c ∈ l -> js_get_opt c "email" = JNull ->
  opt_includes (js_get_opt c "name") (to_lower (searchTerm p)) = Some false ->
  filterClients p = None.
Proof.
  intros Ht Hc Hin He Hn. unfold filterClients. cbn [truthy]. rewrite Hc, (proj2 (String.eqb_neq _ _) Ht). cbn [negb].
  rewrite (filter_opt_throws _ _ c); [done|done|]. unfold client_matches. by rewrite Hn, He.
Qed.

Section Handlers_proofs.
Context `{Bcrypt, Jwt, Env}.

(** [fetchClients] with every request answered: the table, newest first. *)
Lemma fetchClients_run p w :
  w_faults w = [] ->
  fetchClients p w =
  (w, Ret (setIsLoading (setClients p (JArr (map row_js (merge_sort (row_order "created_at" false)
                                                            (t_clients (w_db w)))))) false)).
Proof.
  intros Hf. unfold fetchClients. handler_simpl. rewrite fetch_run. cbn [handle].
  unfold admin_clients_GET. rewrite list_GET_run, request_ok_empty, drop_fault_empty by done.
  reflexivity.
Qed.

(** Deleting a client from the clients page, every request
    answered: when the administrator confirms, every row with that id is
    removed and the list is fetched again; when they cancel, no request
    is sent. *)
Theorem handleDelete_run p id w confirmed :
  w_faults w = [] ->
  let rs := List.filter (fun r => negb (matches [("id", JStr id)] r)) (t_clients (w_db w)) in
  handleDelete p (JStr id) confirmed w =
  if confirmed then
    (set_db w (set_table (w_db w) Store.clients rs),
     Ret (setIsLoading (setClients p (JArr (map row_js (merge_sort (row_order "created_at" false) rs)))) false))
  else (w, Ret p).
Proof.
  intros Hf rs. destruct confirmed; [|done]. unfold handleDelete. cbn [negb]. handler_simpl.
  rewrite fetch_run. cbn [handle js_to_string]. unfold clients_id_DELETE.
  rewrite record_DELETE_run, request_ok_empty, drop_fault_empty by done. handler_simpl.
  rewrite bool_decide_eq_true_2 by (cbn; lia). cbn [delete].
  rewrite fetchClients_run by (cbn [set_db w_faults]; done). handler_simpl.
  cbn [w_db set_db]. by rewrite t_clients_get, get_set_table, decide_True.
Qed.

(** C30. Saving the edit dialog with the email of another client, every
    request answered: the route refuses the update, and the page stays as
    it was, dialog open and no message: the administrator is not told
    that nothing was saved. *)
Theorem handleSubmit_duplicate_email_silent p fields w r r2 e :
  w_faults w = [] -> editingClient p = JObj fields ->
  let flt := [("id", JStr (js_to_string (js_get_opt (JObj fields) "id")))] in
  r ∈ t_clients (w_db w) -> matches flt r = true ->
  r2 ∈ t_clients (w_db w) -> matches flt r2 = false -> email_key r2 = Some e ->
  form_email p = JStr e ->
  handleSubmit p w = (w, Ret p).
Proof.
  intros Hf Hed flt Hin Hm Hin2 Hm2 He2 Hfe. unfold handleSubmit. rewrite Hed, Hfe. cbn [truthy].
  handler_simpl. rewrite fetch_run. cbn [handle]. unfold clients_id_PUT, json_body, jobj.
  set (set := (spread (JObj (json_fields [("name", form_name p); ("email", JStr e); ("phone", form_phone p)]))
               ++ [("updated_at", timestamp (w_now w))])%list).
  destruct (update_single_duplicate_email set flt (w_db w) r r2 e) as [c Hc]; try done.
  { unfold set. cbn [spread]. rewrite assoc_last_app. cbn [assoc_last String.eqb Ascii.eqb Bool.eqb].
    by apply (assoc_last_json_fields_mid [_]). }
  rewrite (record_PUT_refused _ _ _ _ _ _ c); [|by apply request_ok_empty|exact Hc].
  rewrite drop_fault_empty by done. handler_simpl.
  by rewrite bool_decide_eq_false_2 by (cbn; lia).
Qed.
End Handlers_proofs.

Import Crypto.Reference.
From S2P Require Import Fixtures.
Open Scope list_scope.

Definition clients_search (l : list Row) (term : string) : ClientsPage :=
  mkClientsPage (JArr (map row_js l)) false JNull false term (JStr "") (JStr "") (JStr "").

Lemma filterClients_spec_witness :
  let p := clients_search [client_a; client_b] "MARIA" in
  ∃ l', filterClients p = Some (JArr l') ∧ sublist l' (map row_js [client_a; client_b]) ∧
    ∀ c, c ∈ map row_js [client_a; client_b] ->
      (c ∈ l' <-> field_has (js_get_opt c "name") (to_lower (searchTerm p)) ∨
                  field_has (js_get_opt c "email") (to_lower (searchTerm p)) ∨
                  field_has (js_get_opt c "phone") (to_lower (searchTerm p))).
Proof. apply filterClients_spec; [discriminate|reflexivity|repeat constructor]. Defined.

Lemma filterClients_null_email_throws_witness :
  filterClients (clients_search [client_a; client_b ++ [("email", JNull)]] "maria") = None.
Proof.
  apply (filterClients_null_email_throws _ (map row_js [client_a; client_b ++ [("email", JNull)]])
           (row_js (client_b ++ [("email", JNull)]))); [discriminate|reflexivity| |reflexivity..].
  right. left.
Defined.

Lemma handleDelete_run_witness :
  let rs := List.filter (fun r => negb (matches [("id", JStr "12")] r)) (t_clients (w_db (world1 []))) in
  handleDelete (clients_search [client_a; client_b] "") (JStr "12") true (world1 []) =
  if true then
    (set_db (world1 []) (set_table (w_db (world1 [])) Store.clients rs),
     Ret (setIsLoading (setClients (clients_search [client_a; client_b] "")
                                   (JArr (map row_js (merge_sort (row_order "created_at" false) rs)))) false))
  else (world1 [], Ret (clients_search [client_a; client_b] "")).
Proof. apply handleDelete_run. reflexivity. Defined.

(** Maria's client is edited with Luca's email: nothing is saved, nothing
    is said. *)
Lemma handleSubmit_duplicate_email_silent_witness :
  let p := mkClientsPage (JArr (map row_js [client_a; client_b])) false (row_js client_a) true ""
                         (JStr "Maria Rossi") (JStr "luca@example.com") JNull in
  handleSubmit p (world1 []) = (world1 [], Ret p).
Proof.
  apply (handleSubmit_duplicate_email_silent _ client_a _ client_a client_b "luca@example.com");
    try reflexivity; by repeat constructor.
Defined.
