(* ===== verification/OrdersPage.v ===== *)
(** * The orders page: [src/app/admin/orders/page.tsx]

    The page lists the orders ([GET /api/admin/orders]) and the products
    ([GET /api/admin/products]), sets an order's status from the list
    ([PUT /api/admin/orders/[id]] with [{ status }]) and creates or edits
    an order through a form ([POST /api/admin/orders], or the [PUT] with
    the whole form as body).

    The form ([formData]) is a record with the eight fields of the
    source's object; an edit dialog copies them from the order it opens,
    turning a missing phone or note into [""].

    The theorem shows what saving an edit does to the stored order: the
    row the table holds at that moment gets the form's fields, so a
    status the order received after the dialog was opened (from another
    tab or another administrator) is overwritten with the one the dialog
    showed, and a [null] phone or note becomes [""].

    The form's inputs and selects are events ([FormEvent], applied by
    [apply_event]); [offered] restricts the selects to the values they
    list, and [form_step] is the resulting step relation. Its invariant
    [form_wf] (the size empty or one of the selected product's, the
    status one of three, the quantity non-zero) holds from "Nuovo Ordine"
    on. [submitOrderForm] is the browser's validation ([required],
    [type="email"] with the HTML standard's address syntax, [min="1"])
    followed by [handleSubmit]; a new order is stored as the form has it,
    with no check of its product or size. *)

From stdpp Require Import sorting relations.
From S2P Require Import Prelude Js Store Crypto Email Intake Admin System Client.

Open Scope string_scope.

(** The page's state cells and event handlers. *)
Module Orders.

(** [formData], lines 51-60 *)
Record OrderForm := mkOrderForm {
  customer_name : js;
  customer_email : js;
  customer_phone : js;
  product_name : js;
  product_size : js;
  quantity : js;
  status : js;
  notes : js
}.

Definition form0 : OrderForm :=
  mkOrderForm (JStr "") (JStr "") (JStr "") (JStr "") (JStr "") (JNum 1) (JStr "Appena ordinato") (JStr "").

(** [JSON.stringify(formData)] as the route reads it *)
Definition form_fields (f : OrderForm) : list (string * js) :=
  [("customer_name", customer_name f); ("customer_email", customer_email f);
   ("customer_phone", customer_phone f); ("product_name", product_name f);
   ("product_size", product_size f); ("quantity", quantity f);
   ("status", status f); ("notes", notes f)].

(** The state cells, lines 44-60 *)
Record OrdersPage := mkOrdersPage {
  orders : js;
  products : js;
  isLoading : bool;
  editingOrder : js;
  isDialogOpen : bool;
  formData : OrderForm
}.

Definition orders_page0 : OrdersPage := mkOrdersPage (JArr []) (JArr []) true JNull false form0.

Definition setOrders (p : OrdersPage) (v : js) : OrdersPage :=
  mkOrdersPage v (products p) (isLoading p) (editingOrder p) (isDialogOpen p) (formData p).
Definition setProducts (p : OrdersPage) (v : js) : OrdersPage :=
  mkOrdersPage (orders p) v (isLoading p) (editingOrder p) (isDialogOpen p) (formData p).
Definition setIsLoading (p : OrdersPage) (b : bool) : OrdersPage :=
  mkOrdersPage (orders p) (products p) b (editingOrder p) (isDialogOpen p) (formData p).
Definition setIsDialogOpen (p : OrdersPage) (b : bool) : OrdersPage :=
  mkOrdersPage (orders p) (products p) (isLoading p) (editingOrder p) b (formData p).
Definition setFormData (p : OrdersPage) (f : OrderForm) : OrdersPage :=
  mkOrdersPage (orders p) (products p) (isLoading p) (editingOrder p) (isDialogOpen p) f.

(** [resetForm], lines 127-139 *)
Definition resetForm (p : OrdersPage) : OrdersPage :=
  mkOrdersPage (orders p) (products p) (isLoading p) JNull (isDialogOpen p) form0.

(** The form [openEditDialog] fills in, lines 143-152 *)
Definition edit_form (order : js) : OrderForm :=
  mkOrderForm (js_get_opt order "customer_name") (js_get_opt order "customer_email")
              (js_or (js_get_opt order "customer_phone") (JStr ""))
              (js_get_opt order "product_name") (js_get_opt order "product_size")
              (js_get_opt order "quantity") (js_get_opt order "status")
              (js_or (js_get_opt order "notes") (JStr "")).

(** [openEditDialog(order)], lines 141-154 *)
Definition openEditDialog (p : OrdersPage) (order : js) : OrdersPage :=
  mkOrdersPage (orders p) (products p) (isLoading p) order true (edit_form order).

(** [getStatusColor], lines 156-165 *)
Definition getStatusColor (status : string) : string :=
  if String.eqb status "Pagato" then "bg-green-100 text-green-800"
  else if String.eqb status "Consegnato" then "bg-blue-100 text-blue-800"
  else "bg-yellow-100 text-yellow-800".

(** [selectedProduct], line 167: [products.find(p => p.name === formData.product_name)] *)
Definition selectedProduct (p : OrdersPage) : option js :=
  match products p with
  | JArr l => List.find (fun q => same_value_zero (js_get_opt q "name") (product_name (formData p))) l
  | _ => None
  end.

(** The form's [onValueChange] of the product, line 240: the size is
    cleared with it. *)
Definition onProductChange (p : OrdersPage) (v : string) : OrdersPage :=
  let f := formData p in
  setFormData p (mkOrderForm (customer_name f) (customer_email f) (customer_phone f) (JStr v)
                             (JStr "") (quantity f) (status f) (notes f)).

(** The quantity's [onChange], line 282: [Number.parseInt(value) || 1] *)
Definition onQuantityChange (p : OrdersPage) (v : string) : OrdersPage :=
  let f := formData p in
  setFormData p (mkOrderForm (customer_name f) (customer_email f) (customer_phone f) (product_name f)
                             (product_size f) (JNum (parseInt_or_1 (JStr v))) (status f) (notes f)).

(** The text inputs' [onChange] (lines 212, 222, 232, 308) and the size
    and status selects' [onValueChange] (lines 258, 290): one field of
    [{ ...formData, field: value }] replaced. *)
Definition setCustomerName (p : OrdersPage) (v : string) : OrdersPage :=
  let f := formData p in
  setFormData p (mkOrderForm (JStr v) (customer_email f) (customer_phone f) (product_name f)
                             (product_size f) (quantity f) (status f) (notes f)).
Definition setCustomerEmail (p : OrdersPage) (v : string) : OrdersPage :=
  let f := formData p in
  setFormData p (mkOrderForm (customer_name f) (JStr v) (customer_phone f) (product_name f)
                             (product_size f) (quantity f) (status f) (notes f)).
Definition setCustomerPhone (p : OrdersPage) (v : string) : OrdersPage :=
  let f := formData p in
  setFormData p (mkOrderForm (customer_name f) (customer_email f) (JStr v) (product_name f)
                             (product_size f) (quantity f) (status f) (notes f)).
Definition onSizeChange (p : OrdersPage) (v : string) : OrdersPage :=
  let f := formData p in
  setFormData p (mkOrderForm (customer_name f) (customer_email f) (customer_phone f) (product_name f)
                             (JStr v) (quantity f) (status f) (notes f)).
Definition onStatusChange (p : OrdersPage) (v : string) : OrdersPage :=
  let f := formData p in
  setFormData p (mkOrderForm (customer_name f) (customer_email f) (customer_phone f) (product_name f)
                             (product_size f) (quantity f) (JStr v) (notes f)).
Definition setNotes (p : OrdersPage) (v : string) : OrdersPage :=
  let f := formData p in
  setFormData p (mkOrderForm (customer_name f) (customer_email f) (customer_phone f) (product_name f)
                             (product_size f) (quantity f) (status f) (JStr v)).

(** "Nuovo Ordine" (line 193): the dialog trigger resets the form and
    opens the dialog; "Annulla" (line 313) closes it. *)
Definition newOrder (p : OrdersPage) : OrdersPage := setIsDialogOpen (resetForm p) true.
Definition cancelDialog (p : OrdersPage) : OrdersPage := setIsDialogOpen p false.

(** What the administrator can do to the form. *)
Inductive FormEvent :=
| EvName (v : string) | EvEmail (v : string) | EvPhone (v : string) | EvProduct (v : string)
| EvSize (v : string) | EvQuantity (v : string) | EvStatus (v : string) | EvNotes (v : string).

Definition apply_event (p : OrdersPage) (e : FormEvent) : OrdersPage :=
  match e with
  | EvName v => setCustomerName p v
  | EvEmail v => setCustomerEmail p v
  | EvPhone v => setCustomerPhone p v
  | EvProduct v => onProductChange p v
  | EvSize v => onSizeChange p v
  | EvQuantity v => onQuantityChange p v
  | EvStatus v => onStatusChange p v
  | EvNotes v => setNotes p v
  end.

(** The sizes a product offers ([product.sizes]). *)
Definition sizes_of (product : js) : list js :=
  match js_get_opt product "sizes" with JArr l => l | _ => [] end.

(** The values the selects offer: the catalogue's names (lines 246-250),
    the selected product's sizes, none when there is none (the select is
    [disabled], lines 259-267), and the three statuses (lines 296-298);
    a text input takes any string. *)
Definition offered (p : OrdersPage) (e : FormEvent) : Prop :=
  match e with
  | EvProduct v => ∃ l q, products p = JArr l ∧ q ∈ l ∧ js_get_opt q "name" = JStr v
  | EvSize v => ∃ q, selectedProduct p = Some q ∧ JStr v ∈ sizes_of q
  | EvStatus v => v ∈ ["Appena ordinato"; "Pagato"; "Consegnato"]
  | _ => True
  end.

(** The form as a state machine: an event the page offers. *)
Inductive form_step : OrdersPage -> OrdersPage -> Prop :=
| form_step_event p e : offered p e -> form_step p (apply_event p e).

(** The form is consistent: the size is empty or one of the selected
    product's sizes, the status one of the three, the quantity a
    non-zero integer. *)
Definition form_wf (p : OrdersPage) : Prop :=
  (product_size (formData p) = JStr "" ∨
   ∃ q, selectedProduct p = Some q ∧ product_size (formData p) ∈ sizes_of q) ∧
  (∃ s, status (formData p) = JStr s ∧ s ∈ ["Appena ordinato"; "Pagato"; "Consegnato"]) ∧
  (∃ n, quantity (formData p) = JNum n ∧ n <> 0%Z).

(** ** The browser's constraint validation of the form

    The form's [onSubmit] only runs when the inputs are valid: the name
    is [required], the email [type="email"] and [required] (lines
    209-223), the quantity [type="number"], [min="1"] and [required]
    (lines 278-283); the selects and the other inputs are not checked. *)

(** [min="1"] and [required] on the quantity: the form holds it as a
    number; anything else shows as an empty or invalid input. *)
Definition quantity_input_valid (v : js) : bool :=
  match v with JNum n => (1 <=? n)%Z | _ => false end.

Definition order_form_valid (f : OrderForm) : bool :=
  negb (String.eqb (text_value (customer_name f)) "") && email_input_valid (text_value (customer_email f))
  && quantity_input_valid (quantity f).

(** An order's card in the list (lines 337-405): customer, email, the
    phone and the notes when truthy, the status badge and its colour,
    ["{product_name} - {product_size}"] and the quantity. The date is not
    modelled: timestamps are clock values here. *)
Record OrderCard := mkOrderCard {
  order_name : js;
  order_email : js;
  order_phone : option js;
  order_status : js;
  order_status_color : string;
  order_product : string;
  order_quantity : string;
  order_notes : option js
}.

Definition order_card (o : js) : OrderCard :=
  mkOrderCard (js_get_opt o "customer_name") (js_get_opt o "customer_email")
    (if truthy (js_get_opt o "customer_phone") then Some (js_get_opt o "customer_phone") else None)
    (js_get_opt o "status") (color_of getStatusColor (js_get_opt o "status"))
    (jsx_text (js_get_opt o "product_name") ++ " - " ++ jsx_text (js_get_opt o "product_size"))
    (jsx_text (js_get_opt o "quantity"))
    (if truthy (js_get_opt o "notes") then Some (js_get_opt o "notes") else None).

(** The list: the skeleton while loading (lines 169-182), "Nessun ordine"
    (lines 326-335), or one card per order; any other value of [orders]
    whose [length] is not [0] is a render error ([orders.map] throws). *)
Inductive OrdersList :=
| OrdersLoading
| OrdersEmpty
| OrdersCards (cards : list OrderCard)
| OrdersThrows.

Definition orders_list (p : OrdersPage) : OrdersList :=
  if isLoading p then OrdersLoading
  else match orders p with
       | JArr [] | JStr "" => OrdersEmpty
       | JArr l => OrdersCards (map order_card l)
       | _ => OrdersThrows
       end.

Section Handlers.
Context `{Bcrypt, Jwt, Env}.

(** [fetchOrders], lines 67-77 *)
Definition fetchOrders (p : OrdersPage) : App OrdersPage :=
  p' ← sm_catch (
         fetch AdminOrdersGET ≫= fun '((_, data) : bool * js) =>
         os ← prop data "orders";
         mret (setOrders p (js_or os (JArr []))))
       (fun _ => mret p);
  mret (setIsLoading p' false).

(** [fetchProducts], lines 79-87 *)
Definition fetchProducts (p : OrdersPage) : App OrdersPage :=
  sm_catch (
    fetch ProductsGET ≫= fun '((_, data) : bool * js) =>
    ps ← prop data "products";
    mret (setProducts p (js_or ps (JArr []))))
    (fun _ => mret p).

(** [handleSubmit], lines 89-109: [PUT] of the edited order, or [POST] of
    a new one, with the form as body; on success the list is fetched
    again, the dialog closed and the form reset. *)
Definition handleSubmit (p : OrdersPage) : App OrdersPage :=
  let body := json_body (form_fields (formData p)) in
  let req := if truthy (editingOrder p)
             then OrdersIdPUT (js_to_string (js_get_opt (editingOrder p) "id")) body
             else AdminOrdersPOST body in
  sm_catch (
    fetch req ≫= fun '((ok, _) : bool * js) =>
    if ok then p' ← fetchOrders p; mret (resetForm (setIsDialogOpen p' false))
    else mret p)
    (fun _ => mret p).

(** [handleStatusUpdate(orderId, newStatus)], lines 111-125 *)
Definition handleStatusUpdate (p : OrdersPage) (orderId : js) (newStatus : string) : App OrdersPage :=
  sm_catch (
    fetch (OrdersIdPUT (js_to_string orderId) (json_body [("status", JStr newStatus)]))
      ≫= fun '((ok, _) : bool * js) => if ok then fetchOrders p else mret p)
    (fun _ => mret p).

(** The form's submit: the browser's validation, then
    [onSubmit={handleSubmit}] (line 205). *)
Definition submitOrderForm (p : OrdersPage) : App OrdersPage :=
  if order_form_valid (formData p) then handleSubmit p else mret p.
End Handlers.
End Orders.
Import Orders.

(** ** Proofs *)

Open Scope list_scope.

Section Proofs.
Context `{Bcrypt, Jwt, Env}.

(** [fetchOrders] with every request answered: the table, newest first. *)
Lemma fetchOrders_run p w :
  w_faults w = [] ->
  fetchOrders p w =
  (w, Ret (setIsLoading (setOrders p (JArr (map row_js (merge_sort (row_order "created_at" false)
                                                          (t_orders (w_db w)))))) false)).
Proof.
  intros Hf. unfold fetchOrders. handler_simpl. rewrite fetch_run. cbn [handle].
  unfold admin_orders_GET. rewrite list_GET_run, request_ok_empty, drop_fault_empty by done.
  reflexivity.
Qed.

Lemma is_defined_js_or_str a s : is_defined (js_or a (JStr s)) = true.
Proof. unfold js_or. destruct (truthy a) eqn:Ht; [by destruct a|done]. Qed.

(** The form's fields are columns of [orders]. *)
Lemma columns_ok_form f : columns_ok Store.orders (form_fields f) = true.
Proof. reflexivity. Qed.

(** [PUT /api/admin/orders/[id]] with a body of order columns on a row
    that exists, every request answered, as the page's [fetch] sees it. *)
Lemma fetch_orders_PUT id l w r :
  w_faults w = [] -> columns_ok Store.orders l = true ->
  List.filter (matches [("id", JStr id)]) (t_orders (w_db w)) = [r] ->
  let set := json_fields l ++ [("updated_at", timestamp (w_now w))] in
  fetch (OrdersIdPUT id (json_body l)) w =
  (set_db w (set_table (w_db w) Store.orders (update_rows [("id", JStr id)] set (t_orders (w_db w)))),
   Ret (true, jobj [("order", row_js (r ++ set))])).
Proof.
  intros Hf Hc Hrow set. rewrite fetch_run. cbn [handle]. unfold orders_id_PUT, json_body, jobj.
  rewrite record_PUT_run, request_ok_empty by done. cbn [spread].
  rewrite (update_single_one _ _ _ _ r); [|exact Hrow| |discriminate].
  - by rewrite drop_fault_empty.
  - by rewrite columns_ok_app, columns_ok_json_fields.
Qed.

Lemma json_fields_idem l : json_fields (json_fields l) = json_fields l.
Proof.
  unfold json_fields. induction l as [|[k v] l IH]; [done|]. simpl.
  destruct (is_defined v) eqn:Hv; simpl; [rewrite Hv|]; by rewrite IH.
Qed.

Lemma w_faults_upsert_client f w : w_faults w = [] -> w_faults (upsert_client f w).1 = [].
Proof. intros Hf. rewrite upsert_client_run, request_ok_empty by done. cbn. by rewrite drop_fault_empty. Qed.

(** [POST /api/admin/orders] of a body of order columns, every request
    answered, as the page's [fetch] sees it: the body is appended to the
    orders as it is, with no check of its product or size. *)
Lemma fetch_admin_orders_POST l w :
  w_faults w = [] -> columns_ok Store.orders (json_fields l) = true ->
  let r := new_row (w_db w) (w_now w) (json_fields l) in
  ∃ w', fetch (AdminOrdersPOST (json_body l)) w = (w', Ret (true, jobj [("order", row_js r)])) ∧
    w_faults w' = [] ∧ t_orders (w_db w') = t_orders (w_db w) ++ [r].
Proof.
  intros Hf Hc r. rewrite fetch_run. cbn [handle]. unfold admin_orders_POST, json_body, jobj.
  handler_simpl. rewrite sb_run, request_ok_empty by done. cbn [insert_json].
  rewrite json_fields_idem, insert_no_constraint by done. handler_simpl. rewrite !js_get_obj. handler_simpl.
  destruct (upsert_client _ _) as [w2 o] eqn:Hu.
  pose proof (f_equal snd Hu) as Ho. pose proof (f_equal fst Hu) as Hw2. rewrite upsert_client_ret in Ho.
  cbn [fst snd] in Ho, Hw2. subst o. handler_simpl. rewrite notify_order_run. handler_simpl.
  eexists. split; [reflexivity|]. rewrite w_db_drop_fault, <-Hw2. split.
  - rewrite drop_fault_empty; apply w_faults_upsert_client; by rewrite ?drop_fault_empty.
  - rewrite t_orders_get, upsert_client_tables by done.
    rewrite w_db_set_db, get_set_table, decide_True by done. done.
Qed.

(** C20. Submitting the order form for a new order, every request
    answered and the browser's validation passed, appends the form to the
    orders exactly as it is: nothing checks that the product is one of the
    catalogue's or the size one of its sizes (the public route refuses
    such an order), the customer is upserted, the dialog closes, the form
    is reset and the list is fetched again. *)
Theorem submitOrderForm_new_order p w :
  w_faults w = [] -> truthy (editingOrder p) = false -> order_form_valid (formData p) = true ->
  let r := new_row (w_db w) (w_now w) (json_fields (form_fields (formData p))) in
  ∃ w' p', submitOrderForm p w = (w', Ret p') ∧
    t_orders (w_db w') = t_orders (w_db w) ++ [r] ∧
    isDialogOpen p' = false ∧ editingOrder p' = JNull ∧ formData p' = form0 ∧
    orders p' = JArr (map row_js (merge_sort (row_order "created_at" false) (t_orders (w_db w')))).
Proof.
  intros Hf He Hv r. unfold submitOrderForm. rewrite Hv. unfold handleSubmit. rewrite He.
  destruct (fetch_admin_orders_POST (form_fields (formData p)) w) as (w' & Hr & Hf' & Ht);
    [done|by apply columns_ok_json_fields, columns_ok_form|].
  handler_simpl. rewrite Hr. handler_simpl. rewrite fetchOrders_run by done. handler_simpl.
  by eexists _, _.
Qed.

(** C18. Saving an order's edit dialog, every request answered, writes
    the form the dialog was opened with over the row the table holds
    when it is saved: the stored status is the one the dialog showed,
    whatever the order received in between, and a missing or [null]
    phone or note is stored as [""]. The dialog closes, the form is
    reset and the list is fetched again. *)
Theorem handleSubmit_edit_overwrites p fields w r st :
  w_faults w = [] ->
  let flt := [("id", JStr (js_to_string (js_get_opt (JObj fields) "id")))] in
  List.filter (matches flt) (t_orders (w_db w)) = [r] ->
  js_get_opt (JObj fields) "status" = JStr st ->
  ∃ w' p' r', handleSubmit (openEditDialog p (JObj fields)) w = (w', Ret p') ∧
    List.filter (matches flt) (t_orders (w_db w')) = [r'] ∧
    row_get r' "status" = JStr st ∧
    row_get r' "customer_phone" = js_or (js_get_opt (JObj fields) "customer_phone") (JStr "") ∧
    row_get r' "notes" = js_or (js_get_opt (JObj fields) "notes") (JStr "") ∧
    isDialogOpen p' = false ∧ editingOrder p' = JNull ∧ formData p' = form0 ∧
    orders p' = JArr (map row_js (merge_sort (row_order "created_at" false) (t_orders (w_db w')))).
Proof.
  intros Hf flt Hrow Hs. unfold handleSubmit. cbn [editingOrder openEditDialog formData truthy].
  handler_simpl. rewrite (fetch_orders_PUT _ _ _ r) by (done || apply columns_ok_form).
  handler_simpl. rewrite fetchOrders_run by done. handler_simpl.
  set (set := json_fields _ ++ _).
  eexists _, _, (r ++ set). split; [reflexivity|].
  cbn [w_db set_db setIsLoading setOrders orders isDialogOpen editingOrder formData setIsDialogOpen resetForm].
  rewrite (t_orders_get (set_table _ _ _)), get_set_table, decide_True by done.
  split.
  { rewrite filter_update_rows. { fold flt. by rewrite Hrow. }
    constructor; [|done]. unfold set. rewrite assoc_last_app. cbn [assoc_last String.eqb Ascii.eqb Bool.eqb fst].
    by rewrite assoc_last_json_fields_none. }
  assert (∀ k v, k <> "updated_at" -> assoc_last k (json_fields (form_fields (edit_form (JObj fields)))) = Some v ->
          row_get (r ++ set) k = v) as Hget.
  { intros k v Hk Hl. apply row_get_app_r. unfold set. rewrite assoc_last_app. cbn [assoc_last].
    by rewrite (proj2 (String.eqb_neq _ _) Hk). }
  unfold form_fields, edit_form in Hget. cbn [customer_name customer_email customer_phone product_name
    product_size quantity status notes] in Hget. rewrite Hs in Hget.
  split; [apply Hget; [done|]; apply (assoc_last_json_fields_mid [_;_;_;_;_;_]); [done|reflexivity]|].
  split; [apply Hget; [done|]; apply (assoc_last_json_fields_mid [_;_]); [apply is_defined_js_or_str|reflexivity]|].
  split; [apply Hget; [done|]; apply (assoc_last_json_fields_mid [_;_;_;_;_;_;_]); [apply is_defined_js_or_str|reflexivity]|].
  done.
Qed.
(** The selected product only depends on the catalogue and the form's
    product name. *)
Lemma selectedProduct_setFormData p f :
  product_name f = product_name (formData p) -> selectedProduct (setFormData p f) = selectedProduct p.
Proof. intros Hf. unfold selectedProduct. cbn [products formData setFormData]. by rewrite Hf. Qed.

Lemma parseInt_or_1_nonzero v : parseInt_or_1 v <> 0%Z.
Proof. unfold parseInt_or_1. destruct (number_parseInt v) as [n|]; [|done]. destruct (Z.eqb_spec n 0); lia. Qed.

(** Every form event the page offers keeps the form consistent. *)
Lemma form_step_wf p p' : form_step p p' -> form_wf p -> form_wf p'.
Proof.
  intros [p0 e He] (Hsz & Hst & Hq).
  destruct e as [v|v|v|v|v|v|v|v]; cbn [apply_event offered] in *;
    unfold setCustomerName, setCustomerEmail, setCustomerPhone, onProductChange, onSizeChange,
      onQuantityChange, onStatusChange, setNotes in *;
    unfold form_wf; rewrite ?selectedProduct_setFormData by done;
    cbn [formData setFormData product_size status quantity]; (split; [|split]); try assumption.
  all: first [ by left | (destruct He as (q & ? & ?); right; by exists q)
             | (eexists; split; [done|apply parseInt_or_1_nonzero]) | by exists v ].
Qed.

Lemma form0_wf p : form_wf (newOrder p).
Proof.
  split; [by left|]. split; [|by exists 1%Z].
  exists "Appena ordinato". split; [done|]. apply list_elem_of_In. by left.
Qed.

(** C19. From "Nuovo Ordine", whatever the administrator types and picks
    among the values the selects offer, the form stays consistent: the
    size is empty or one of the selected product's sizes (changing the
    product clears it), the status is one of the three, and the quantity
    a non-zero integer ([Number.parseInt(value) || 1]). *)
Theorem order_form_wf p p' : rtc form_step (newOrder p) p' -> form_wf p'.
Proof.
  intros Hs. pose proof (form0_wf p) as Hw. revert Hw.
  induction Hs as [|x y z Hxy _ IH]; [done|]. intros Hx. apply IH. by eapply form_step_wf.
Qed.
End Proofs.

Import Crypto.Reference.
From S2P Require Import Fixtures.
Open Scope list_scope.

(** The order is opened in the edit dialog; before it is saved, another
    administrator marks it "Consegnato"; saving the dialog unchanged puts
    it back to "Appena ordinato", and its [null] phone and note become
    [""]. *)
Lemma handleSubmit_edit_overwrites_witness :
  let w := (handle (OrdersIdPUT "11" (json_body [("status", JStr "Consegnato")])) (world1 [])).1 in
  let flt := [("id", JStr (js_to_string (js_get_opt (JObj order_row0) "id")))] in
  List.filter (matches flt) (t_orders (w_db w)) =
    [order_row0 ++ [("status", JStr "Consegnato"); ("updated_at", timestamp 1000)]] ∧
  ∃ w' p' r', handleSubmit (openEditDialog orders_page0 (JObj order_row0)) w = (w', Ret p') ∧
    List.filter (matches flt) (t_orders (w_db w')) = [r'] ∧
    row_get r' "status" = JStr "Appena ordinato" ∧
    row_get r' "customer_phone" = js_or (js_get_opt (JObj order_row0) "customer_phone") (JStr "") ∧
    row_get r' "notes" = js_or (js_get_opt (JObj order_row0) "notes") (JStr "") ∧
    isDialogOpen p' = false ∧ editingOrder p' = JNull ∧ formData p' = form0 ∧
    orders p' = JArr (map row_js (merge_sort (row_order "created_at" false) (t_orders (w_db w')))).
Proof.
  split; [reflexivity|].
  eapply handleSubmit_edit_overwrites; reflexivity.
Defined.

(** With the catalogue loaded, the administrator picks the product and
    its 5L size, types the quantity "-2" and marks the order paid. *)
Lemma order_form_wf_witness :
  let p := setProducts orders_page0 (JArr [row_js product_row]) in
  let p1 := apply_event (newOrder p) (EvProduct "Olio Extra Vergine") in
  let p2 := apply_event p1 (EvSize "5L") in
  let p3 := apply_event p2 (EvQuantity "-2") in
  let p4 := apply_event p3 (EvStatus "Pagato") in
  rtc form_step (newOrder p) p4 ∧ form_wf p4 ∧ quantity (formData p4) = JNum (-2).
Proof.
  intros p p1 p2 p3 p4.
  assert (rtc form_step (newOrder p) p4) as Hs.
  { refine (rtc_l _ _ p1 _ (form_step_event _ _ _) _).
    { exists [row_js product_row], (row_js product_row). split; [done|]. split; [|reflexivity].
      apply list_elem_of_In. by left. }
    refine (rtc_l _ _ p2 _ (form_step_event _ _ _) _).
    { exists (row_js product_row). split; [reflexivity|]. apply list_elem_of_In. vm_compute. tauto. }
    refine (rtc_l _ _ p3 _ (form_step_event _ _ _) _); [exact I|].
    refine (rtc_l _ _ p4 _ (form_step_event _ _ _) _); [apply list_elem_of_In; vm_compute; tauto|].
    apply rtc_refl. }
  split; [exact Hs|]. split; [exact (order_form_wf p p4 Hs)|reflexivity].
Defined.

(** A new order with only the customer's name and email filled in: the
    browser lets it through and the order is stored with an empty product
    and size, which its card in the list shows as " - ". *)
Lemma submitOrderForm_new_order_witness :
  let p := apply_event (apply_event (newOrder orders_page0) (EvName "Maria Rossi")) (EvEmail "maria@example.com") in
  let r := new_row (w_db (world1 [])) (w_now (world1 [])) (json_fields (form_fields (formData p))) in
  row_get r "product_name" = JStr "" ∧ row_get r "product_size" = JStr "" ∧
  order_product (order_card (row_js r)) = " - " ∧
  ∃ w' p', submitOrderForm p (world1 []) = (w', Ret p') ∧
    t_orders (w_db w') = t_orders (w_db (world1 [])) ++ [r] ∧
    isDialogOpen p' = false ∧ editingOrder p' = JNull ∧ formData p' = form0 ∧
    orders p' = JArr (map row_js (merge_sort (row_order "created_at" false) (t_orders (w_db w')))).
Proof.
  split; [reflexivity|]. split; [reflexivity|]. split; [reflexivity|].
  apply submitOrderForm_new_order; [reflexivity|reflexivity|vm_compute; reflexivity].
Defined.
