(* ===== verification/SettingsPage.v ===== *)
(** * The settings page: [src/app/admin/settings/page.tsx]

    The page loads the administrator's notification email
    ([GET /api/admin/settings]) into its email form, and has two forms:
    the password form ([PUT /api/admin/settings/password], after checking
    that the new password and its confirmation agree) and the email form
    ([PUT /api/admin/settings/email]).

    A form's [onSubmit] only runs when the browser's constraint
    validation passes: the password inputs are [required] and the new
    password and its confirmation have [minLength={6}] (lines 149-171).
    [submitPasswordForm] is that check followed by the handler; lengths
    are counted in characters of the string, which for the ASCII
    passwords the theorems use are the code units the browser counts.
    The email form's [submitEmailForm] requires an address that
    [type="email"] accepts.

    The theorems show that the password form sends no request unless the
    current password is filled in and the new one has at least six
    characters and matches its confirmation (whereas the route accepts any
    non-empty password), and that loading the page and saving the email
    form unchanged stores the notification email it showed. *)

From S2P Require Import Prelude Js Store Crypto Auth Email Settings System Client.

Open Scope string_scope.

(** The state cells, lines 13-26 *)
Record SettingsPage := mkSettingsPage {
  isLoading : bool;
  message : option (string * string);
  currentPassword : string;
  newPassword : string;
  confirmPassword : string;
  notificationEmail : js
}.

Definition settings_page0 : SettingsPage := mkSettingsPage false None "" "" "" (JStr "").

Definition setIsLoading (p : SettingsPage) (b : bool) : SettingsPage :=
  mkSettingsPage b (message p) (currentPassword p) (newPassword p) (confirmPassword p) (notificationEmail p).
Definition setMessage (p : SettingsPage) (m : option (string * string)) : SettingsPage :=
  mkSettingsPage (isLoading p) m (currentPassword p) (newPassword p) (confirmPassword p) (notificationEmail p).
Definition setNotificationEmail (p : SettingsPage) (v : js) : SettingsPage :=
  mkSettingsPage (isLoading p) (message p) (currentPassword p) (newPassword p) (confirmPassword p) v.
(** [setPasswordForm({ currentPassword: "", newPassword: "", confirmPassword: "" })] *)
Definition clearPasswordForm (p : SettingsPage) : SettingsPage :=
  mkSettingsPage (isLoading p) (message p) "" "" "" (notificationEmail p).

(** The inputs' [onChange] handlers: the three password fields
    ([setPasswordForm({ ...passwordForm, field: value })], lines 148, 158,
    168) and the notification email ([setEmailForm], line 199). *)
Definition setCurrentPassword (p : SettingsPage) (v : string) : SettingsPage :=
  mkSettingsPage (isLoading p) (message p) v (newPassword p) (confirmPassword p) (notificationEmail p).
Definition setNewPassword (p : SettingsPage) (v : string) : SettingsPage :=
  mkSettingsPage (isLoading p) (message p) (currentPassword p) v (confirmPassword p) (notificationEmail p).
Definition setConfirmPassword (p : SettingsPage) (v : string) : SettingsPage :=
  mkSettingsPage (isLoading p) (message p) (currentPassword p) (newPassword p) v (notificationEmail p).
Definition onNotificationEmailChange (p : SettingsPage) (v : string) : SettingsPage :=
  setNotificationEmail p (JStr v).

(** The browser's validation of the email form: [type="email"] and
    [required] (lines 197-200). *)
Definition email_form_valid (p : SettingsPage) : bool :=
  email_input_valid (text_value (notificationEmail p)).

(** The banner above the forms (lines 118-128): shown when [message] is
    set, green for a success and red otherwise, with the message's text. *)
Definition settings_banner (p : SettingsPage) : option (string * string) :=
  match message p with
  | Some (ty, text) =>
      Some (if String.eqb ty "success" then "bg-green-50 text-green-800 border border-green-200"
            else "bg-red-50 text-red-800 border border-red-200", text)
  | None => None
  end.

(** The browser's validation of the password form: [required] on the
    three inputs, [minLength={6}] on the last two. *)
Definition password_form_valid (p : SettingsPage) : bool :=
  negb (String.eqb (currentPassword p) "") && (6 <=? String.length (newPassword p))%nat
  && (6 <=? String.length (confirmPassword p))%nat.

Section Handlers.
Context `{Bcrypt, Jwt, Env}.

(** [fetchAdminSettings], lines 32-43 *)
Definition fetchAdminSettings (p : SettingsPage) : App SettingsPage :=
  sm_catch (
    fetch SettingsGET ≫= fun '((_, data) : bool * js) =>
    admin ← prop data "admin";
    if truthy admin then
      ne ← prop admin "notification_email";
      mret (setNotificationEmail p ne)
    else mret p)
    (fun _ => mret p).

(** [handlePasswordUpdate], lines 45-79 *)
Definition handlePasswordUpdate (p : SettingsPage) : App SettingsPage :=
  let p1 := setMessage (setIsLoading p true) None in
  if negb (String.eqb (newPassword p) (confirmPassword p)) then
    mret (setIsLoading (setMessage p1 (Some ("error", "Le nuove password non corrispondono"))) false)
  else
    q ← sm_catch (
          fetch (PasswordPUT (json_body [("currentPassword", JStr (currentPassword p));
                                         ("newPassword", JStr (newPassword p))]))
            ≫= fun '((ok, data) : bool * js) =>
          if ok then
            mret (clearPasswordForm (setMessage p1 (Some ("success", "Password aggiornata con successo"))))
          else
            e ← prop data "error";
            mret (setMessage p1 (Some ("error", js_to_string
                   (js_or e (JStr "Errore nell'aggiornamento della password"))))))
        (fun _ => mret (setMessage p1 (Some ("error", "Errore di connessione"))));
    mret (setIsLoading q false).

(** The password form's submit: the browser's validation, then
    [onSubmit={handlePasswordUpdate}] (line 141). *)
Definition submitPasswordForm (p : SettingsPage) : App SettingsPage :=
  if password_form_valid p then handlePasswordUpdate p else mret p.

(** [handleEmailUpdate], lines 81-106 *)
Definition handleEmailUpdate (p : SettingsPage) : App SettingsPage :=
  let p1 := setMessage (setIsLoading p true) None in
  q ← sm_catch (
        fetch (EmailPUT (json_body [("notificationEmail", notificationEmail p)]))
          ≫= fun '((ok, data) : bool * js) =>
        if ok then
          mret (setMessage p1 (Some ("success", "Email di notifica aggiornata con successo")))
        else
          e ← prop data "error";
          mret (setMessage p1 (Some ("error", js_to_string
                 (js_or e (JStr "Errore nell'aggiornamento dell'email"))))))
      (fun _ => mret (setMessage p1 (Some ("error", "Errore di connessione"))));
  mret (setIsLoading q false).

(** The email form's submit: the browser's validation, then
    [onSubmit={handleEmailUpdate}] (line 192). *)
Definition submitEmailForm (p : SettingsPage) : App SettingsPage :=
  if email_form_valid p then handleEmailUpdate p else mret p.
End Handlers.

(** ** Proofs *)

Open Scope list_scope.

Section Proofs.
Context `{Bcrypt, Jwt, Env}.

Lemma truthy_jobj l : truthy (jobj l) = true.
Proof. done. Qed.

(** [GET /api/admin/settings] with its request answered, on the one
    administrator row. *)
Lemma settings_GET_run w admin :
  w_faults w = [] -> t_admin_users (w_db w) = [admin] ->
  settings_GET w =
  (w, Ret (json [("admin", jobj [("id", row_get admin "id"); ("email", row_get admin "email");
                                 ("notification_email", row_get admin "notification_email")])] 200)).
Proof.
  intros Hf Ht. unfold settings_GET. handler_simpl.
  rewrite sb_select, request_ok_empty, (select_single_all_singleton _ admin), drop_fault_empty by done.
  reflexivity.
Qed.

(** C37. The password form sends no request unless the current
    password is filled in, the new one has at least six characters and
    the confirmation repeats it: the world is left as it was. When the
    browser lets the form through but the confirmation differs, the page
    says so in a red banner. *)
Theorem submitPasswordForm_no_request p w :
  ¬ (currentPassword p <> "" ∧ 6 <= String.length (newPassword p) ∧ newPassword p = confirmPassword p) ->
  ∃ p', submitPasswordForm p w = (w, Ret p') ∧
    (password_form_valid p = true ->
     message p' = Some ("error", "Le nuove password non corrispondono") ∧
     settings_banner p' = Some ("bg-red-50 text-red-800 border border-red-200", "Le nuove password non corrispondono")).
Proof.
  intros Hn. unfold submitPasswordForm. destruct (password_form_valid p) eqn:Hv; [|by eexists].
  unfold handlePasswordUpdate. destruct (String.eqb_spec (newPassword p) (confirmPassword p)) as [He|He].
  - exfalso. apply Hn. unfold password_form_valid in Hv.
    apply andb_true_iff in Hv as [[Hc Hl]%andb_true_iff _].
    split; [by apply negb_true_iff, String.eqb_neq in Hc|]. split; [by apply Nat.leb_le|done].
  - by eexists.
Qed.

(** C38. Loading the settings page and saving its email form unchanged,
    every request answered and the stored address one the browser's
    [type="email"] check accepts, shows and stores back the notification email
    the administrator row has: the form shows it, the page reports
    success and the row holds it afterwards. *)
Theorem settings_email_roundtrip p w admin s :
  w_faults w = [] -> t_admin_users (w_db w) = [admin] -> pg_text (row_get admin "id") <> None ->
  row_get admin "notification_email" = JStr s -> email_input_valid s = true ->
  ∃ w' p', (fetchAdminSettings p ≫= submitEmailForm) w = (w', Ret p') ∧
    notificationEmail p' = JStr s ∧
    message p' = Some ("success", "Email di notifica aggiornata con successo") ∧
    notification_email_of (select_single admin_users [] (w_db w')).1 = JStr s.
Proof.
  intros Hf Ht Hid Hs Hv. assert (s <> "") as Hs0 by (intros ->; discriminate Hv).
  rewrite sm_bind_run. unfold fetchAdminSettings. handler_simpl.
  rewrite fetch_run. cbn [handle]. rewrite (settings_GET_run _ admin), Hs by done. handler_simpl.
  match goal with |- context [js_get (body (json [("admin", ?a)] 200)) "admin"] =>
    change (js_get (body (json [("admin", a)] 200)) "admin") with (Some a) end.
  handler_simpl. rewrite truthy_jobj. unfold jobj, js_get.
  match goal with |- context [assoc_last ?k (json_fields ?l)] =>
    assert (assoc_last k (json_fields l) = Some (JStr s)) as -> by (apply (assoc_last_json_fields_mid [_;_]); done) end.
  handler_simpl. unfold submitEmailForm, email_form_valid. cbn [notificationEmail setNotificationEmail].
  change (text_value (default JUndef (Some (JStr s)))) with s. rewrite Hv. unfold handleEmailUpdate. handler_simpl. rewrite fetch_run. cbn [handle notificationEmail setNotificationEmail]. unfold json_body, default.
  rewrite (email_PUT_run _ (JStr s) _ admin); [|reflexivity|by apply truthy_str_nonempty|
    by rewrite request_ok_empty|by rewrite drop_fault_empty, request_ok_empty|done..].
  handler_simpl. rewrite bool_decide_eq_true_2 by (cbn; lia). handler_simpl.
  eexists _, _. split; [reflexivity|].
  cbn [notificationEmail message setMessage setIsLoading setNotificationEmail id]. do 2 (split; [done|]).
  rewrite w_db_set_db, (select_single_all_singleton _ (admin ++ _)) by (by destruct (w_db w)).
  by apply row_get_app_r.
Qed.
End Proofs.

Import Crypto.Reference.
From S2P Require Import Fixtures.
Open Scope list_scope.

(** The confirmation has a typo: the browser lets the form through, the
    page refuses it. *)
Lemma submitPasswordForm_no_request_witness :
  let p := mkSettingsPage false None "662002" "nuova-password" "nuova-passwrod" (JStr "") in
  ∃ p', submitPasswordForm p (world1 []) = (world1 [], Ret p') ∧
    (password_form_valid p = true ->
     message p' = Some ("error", "Le nuove password non corrispondono") ∧
     settings_banner p' = Some ("bg-red-50 text-red-800 border border-red-200", "Le nuove password non corrispondono")).
Proof. apply submitPasswordForm_no_request. intros (_ & _ & He). discriminate He. Defined.

Lemma settings_email_roundtrip_witness :
  ∃ w' p', (fetchAdminSettings settings_page0 ≫= submitEmailForm) (world1 []) = (w', Ret p') ∧
    notificationEmail p' = JStr "notifiche@oliodivaleria.com" ∧
    message p' = Some ("success", "Email di notifica aggiornata con successo") ∧
    notification_email_of (select_single admin_users [] (w_db w')).1 = JStr "notifiche@oliodivaleria.com".
Proof. apply (settings_email_roundtrip _ _ admin_row); [reflexivity..|discriminate|reflexivity|reflexivity]. Defined.
