(* ===== verification/Dashboard.v ===== *)
(** * The dashboard: [src/app/admin/dashboard/page.tsx]

    A server component: it reads four tables with one [select] each
    (issued together under [Promise.all], in the order orders, messages,
    clients, products), replaces the data of a failed request by [[]],
    and computes what the page shows: the four totals, the orders per
    status, the messages per request type, the products ranked by the
    quantity ordered (the first ten) and the orders of the last seven
    days.

    [sum + order.quantity] is JavaScript's [+]. The [quantity] column is
    an integer column: its values are integers or [null] ([null] adds as
    0). The store does not type columns, so [sum_quantities] is [None]
    when a row holds anything else, which the database itself never
    returns.

    The theorems show that with every request answered the totals and
    the per-status and per-type counts are those of the tables, that the
    ranking lists each product with the number and total quantity of its
    orders, in decreasing order of quantity, and that a failed request
    shows as an empty table: zero orders, with no sign of an error. The
    bars' widths are JavaScript numbers ([JsNumber]: [0 / 0] is [NaN]):
    under every fault script each is a number between 0% and 100%, which
    the [length > 0] guard ensures on an empty table. From every world
    without faults letting the clock run (the [step_tick] rule) reaches one whose recent-orders
    count is zero, the tables unchanged. *)

From stdpp Require Import sorting sets relations.
From Stdlib Require Import QArith.
From S2P Require Import Prelude Js Store Crypto System Client.

Open Scope string_scope.

(** [select("c1, c2, ...")]: every row, with the listed columns. *)
Definition project (cols : list string) (r : Row) : Row := map (fun c => (c, row_get r c)) cols.

Definition select_cols (t : table) (cols : list string) (db : DB) : sb_result (list Row) * DB :=
  (SbOk (map (project cols) (get_table db t)), db).

(** [result.data || []]: the rows, or [[]] when the request failed. *)
Definition data_or_empty (r : sb_result (list Row)) : list Row :=
  match r with SbOk rs => rs | SbErr _ => [] end.

(** [sum + order.quantity] on the values of an integer column. *)
Definition add_quantity (sum : option Z) (v : js) : option Z :=
  match sum, v with
  | Some s, JNum n => Some (s + n)%Z
  | Some s, JNull => Some s
  | _, _ => None
  end.

(** [productOrders.reduce((sum, order) => sum + order.quantity, 0)] *)
Definition sum_quantities (os : list Row) : option Z :=
  fold_left (fun acc o => add_quantity acc (row_get o "quantity")) os (Some 0%Z).

Record ProductStat := mkProductStat {
  ps_name : js;
  ps_orders : nat;
  ps_quantity : Z
}.

(** The [products.map(...)] of lines 22-30 on one product. *)
Definition product_stat (orders : list Row) (product : Row) : option ProductStat :=
  let productOrders := List.filter (fun o => same_value_zero (row_get o "product_name") (row_get product "name")) orders in
  match sum_quantities productOrders with
  | Some q => Some (mkProductStat (row_get product "name") (length productOrders) q)
  | None => None
  end.

(** [productStats.sort((a, b) => b.quantity - a.quantity)]: the order
    "[a] may come before [b]". *)
Definition by_quantity_desc (a b : ProductStat) : Prop := (ps_quantity b <= ps_quantity a)%Z.
#[export] Instance by_quantity_desc_dec : RelDecision by_quantity_desc.
Proof. intros a b. unfold by_quantity_desc. apply _. Defined.

Definition productStats (orders products : list Row) : option (list ProductStat) :=
  merge_sort by_quantity_desc <$> mapM (product_stat orders) products.

(** [new Date(order.created_at) >= sevenDaysAgo], timestamps being
    clock values in seconds. *)
Definition seven_days : Z := 604800.
Definition is_recent (now : Z) (o : Row) : bool :=
  match row_get o "created_at" with JNum t => (now - seven_days <=? t)%Z | _ => false end.

Definition order_statuses : list string := ["Appena ordinato"; "Pagato"; "Consegnato"].
Definition request_types : list string :=
  ["Informazioni generali"; "Ordini e consegna"; "Collaborazioni"; "Visita in azienda"; "Altro"].

(** [rows.filter((r) => r[col] === v).length] for each [v] *)
Definition count_by (col : string) (vs : list string) (rows : list Row) : list (string * nat) :=
  map (fun v => (v, length (List.filter (fun r => same_value_zero (row_get r col) (JStr v)) rows))) vs.

(** What the page shows. *)
Record DashboardView := mkDashboardView {
  total_orders : nat;
  total_messages : nat;
  total_clients : nat;
  recent_orders : nat;
  orders_by_status : list (string * nat);
  messages_by_type : list (string * nat);
  top_products : option (list ProductStat)
}.

Definition dashboard_view (orders messages clients products : list Row) (now : Z) : DashboardView :=
  mkDashboardView (length orders) (length messages) (length clients)
                  (length (List.filter (is_recent now) orders))
                  (count_by "status" order_statuses orders)
                  (count_by "request_type" request_types messages)
                  (take 10 <$> productStats orders products).

(** A JavaScript number as the bars use it: a finite value (exact here,
    where JavaScript rounds to a double), [NaN] or [Infinity]. *)
Inductive JsNumber := Num (q : Q) | NaN | Infinity.

(** [(count / total) * 100] in JavaScript: [0 / 0] is [NaN], [n / 0] is
    [Infinity]. *)
Definition js_percent (count total : nat) : JsNumber :=
  if Nat.eqb total 0 then (if Nat.eqb count 0 then NaN else Infinity)
  else Num (inject_Z (Z.of_nat count) / inject_Z (Z.of_nat total) * 100)%Q.

(** The bars of the sections "Ordini per Stato" and "Messaggi per Tipo"
    (lines 106-120 and 133-149): [total > 0 ? (count / total) * 100 : 0]
    is the width of the bar, in percent. *)
Definition percentage (count total : nat) : JsNumber :=
  if Nat.ltb 0 total then js_percent count total else Num 0.

(** Each value of a section with its count and its bar. *)
Definition bars (counts : list (string * nat)) (total : nat) : list (string * nat * JsNumber) :=
  map (fun '(s, c) => (s, c, percentage c total)) counts.

Definition status_bars (v : DashboardView) : list (string * nat * JsNumber) :=
  bars (orders_by_status v) (total_orders v).
Definition type_bars (v : DashboardView) : list (string * nat * JsNumber) :=
  bars (messages_by_type v) (total_messages v).

(** The ranking (lines 163-178): the first ten products, numbered from 1,
    or "Nessun dato di vendita disponibile" when there is no product. *)
Definition product_rows (v : DashboardView) : option (list (nat * ProductStat)) :=
  imap (fun i p => (S i, p)) <$> top_products v.
Definition no_sales_shown (v : DashboardView) : bool :=
  match top_products v with Some [] => true | _ => false end.

(** A bar is drawn: its width is a number between 0% and 100%. *)
Definition bar_ok (x : JsNumber) : Prop :=
  match x with Num q => (0 <= q <= 100)%Q | _ => False end.

(** The finite widths of a section's bars, added up. *)
Definition num_q (x : JsNumber) : Q := match x with Num q => q | _ => 0%Q end.
Definition bars_total (bs : list (string * nat * JsNumber)) : Q :=
  fold_right (fun b acc => (num_q b.2 + acc)%Q) 0%Q bs.

(** The value the guarded expression computes. *)
Definition pct (count total : nat) : Q :=
  if Nat.ltb 0 total then (inject_Z (Z.of_nat count) / inject_Z (Z.of_nat total) * 100)%Q else 0%Q.

Section Dashboard.
Context `{Bcrypt, Jwt, Env}.

(** [AdminDashboard], lines 5-38 *)
Definition AdminDashboard : App DashboardView :=
  o ← sb (select_cols orders ["id"; "status"; "product_name"; "quantity"; "created_at"]);
  m ← sb (select_cols messages ["id"; "status"; "request_type"]);
  c ← sb (select_cols clients ["id"]);
  p ← sb (select_cols products ["id"; "name"]);
  t ← now;
  mret (dashboard_view (data_or_empty o) (data_or_empty m) (data_or_empty c) (data_or_empty p) t).
End Dashboard.

(** ** Reference definitions

    What the page is meant to show, stated on the tables themselves. *)

(** An order's quantity as the integer column holds it ([null] as 0). *)
Definition quantity_of (o : Row) : Z :=
  match row_get o "quantity" with JNum n => n | _ => 0%Z end.

Definition total_quantity (os : list Row) : Z := fold_right (fun o acc => (quantity_of o + acc)%Z) 0%Z os.

Definition integer_quantity (o : Row) : Prop :=
  match row_get o "quantity" with JNum _ | JNull => True | _ => False end.

(** The rows whose column [col] holds [v] *)
Definition rows_with (col : string) (v : js) (rows : list Row) : list Row :=
  List.filter (fun r => bool_decide (row_get r col = v)) rows.

(** A product's line of the ranking: its name, the number of its orders
    and their total quantity. *)
Definition product_line (orders : list Row) (product : Row) : ProductStat :=
  let os := rows_with "product_name" (row_get product "name") orders in
  mkProductStat (row_get product "name") (length os) (total_quantity os).

(** ** Proofs *)

Open Scope list_scope.

Lemma sb_select_cols `{Bcrypt, Jwt, Env} t cols w :
  sb (select_cols t cols) w =
  (drop_fault w, Ret (if request_ok w then SbOk (map (project cols) (get_table (w_db w) t))
                      else SbErr "fetch failed")).
Proof.
  rewrite sb_run. destruct (request_ok w); [|done]. cbn [select_cols fst snd].
  by rewrite <-(w_db_drop_fault w), set_db_same.
Qed.

Lemma AdminDashboard_run `{Bcrypt, Jwt, Env} w :
  let w1 := drop_fault w in let w2 := drop_fault w1 in let w3 := drop_fault w2 in
  let rows (t : table) (cols : list string) (ok : bool) := if ok then map (project cols) (get_table (w_db w) t) else [] in
  AdminDashboard w =
  (drop_fault w3,
   Ret (dashboard_view (rows orders ["id"; "status"; "product_name"; "quantity"; "created_at"] (request_ok w))
                       (rows messages ["id"; "status"; "request_type"] (request_ok w1))
                       (rows clients ["id"] (request_ok w2))
                       (rows products ["id"; "name"] (request_ok w3)) (w_now w))).
Proof.
  intros w1 w2 w3 rows. unfold AdminDashboard.
  do 4 (rewrite sm_bind_run, sb_select_cols; cbv beta iota).
  rewrite sm_bind_run. cbv [now mret]. cbn.
  subst w3 w2 w1 rows. unfold sm_ret. rewrite !w_db_drop_fault, !w_now_drop_fault.
  by destruct (request_ok w), (request_ok (drop_fault w)), (request_ok (drop_fault (drop_fault w))),
    (request_ok (drop_fault (drop_fault (drop_fault w)))).
Qed.

Lemma assoc_last_graph (f : string -> js) c l :
  assoc_last c (map (fun c' => (c', f c')) l) = if bool_decide (c ∈ l) then Some (f c) else None.
Proof.
  induction l as [|c' l IH]; [done|]. cbn [map assoc_last]. rewrite IH.
  destruct (decide (c ∈ l)) as [Hl|Hl].
  - by rewrite !bool_decide_eq_true_2 by set_solver.
  - rewrite (bool_decide_eq_false_2 (c ∈ l)) by done.
    destruct (String.eqb_spec c c') as [->|Hc].
    + by rewrite bool_decide_eq_true_2 by set_solver.
    + by rewrite bool_decide_eq_false_2 by set_solver.
Qed.

(** A listed column reads the same after the projection. *)
Lemma row_get_project cols r c : c ∈ cols -> row_get (project cols r) c = row_get r c.
Proof. intros Hc. unfold project, row_get at 1. by rewrite assoc_last_graph, bool_decide_eq_true_2. Qed.

Lemma same_value_zero_str x s : same_value_zero x (JStr s) = bool_decide (x = JStr s).
Proof.
  destruct x; cbn [same_value_zero]; try by rewrite bool_decide_eq_false_2.
  destruct (String.eqb_spec s0 s) as [->|Hne]; [by rewrite bool_decide_eq_true_2|].
  rewrite bool_decide_eq_false_2; [done|]. by intros [= ?].
Qed.

Lemma length_filter_map {A B} (f : B -> bool) (g : A -> B) l :
  length (List.filter f (map g l)) = length (List.filter (fun x => f (g x)) l).
Proof. induction l as [|x l IH]; [done|]. cbn [map List.filter]. destruct (f (g x)); cbn [length]; lia. Qed.

Lemma filter_map_comm {A B} (f : B -> bool) (g : A -> B) l :
  List.filter f (map g l) = map g (List.filter (fun x => f (g x)) l).
Proof. induction l as [|x l IH]; [done|]. cbn [map List.filter]. destruct (f (g x)); by rewrite IH. Qed.

(** The counts of the page, on projected rows, are those of the table. *)
Lemma count_by_project cols col vs rows :
  col ∈ cols ->
  count_by col vs (map (project cols) rows) =
  map (fun v => (v, length (rows_with col (JStr v) rows))) vs.
Proof.
  intros Hc. unfold count_by, rows_with. apply map_ext. intros v. f_equal.
  rewrite length_filter_map. f_equal. apply List.filter_ext. intros r.
  by rewrite row_get_project, same_value_zero_str.
Qed.

Lemma sum_quantities_acc os a :
  Forall integer_quantity os ->
  fold_left (fun acc o => add_quantity acc (row_get o "quantity")) os (Some a) = Some (a + total_quantity os)%Z.
Proof.
  revert a. induction os as [|o os IH]; intros a Hos; [unfold total_quantity; cbn [fold_left fold_right]; f_equal; lia|].
  inversion Hos as [|? ? Ho Hos']; subst. cbn [fold_left].
  unfold total_quantity; cbn [fold_right]; fold (total_quantity os).
  unfold integer_quantity in Ho. unfold quantity_of.
  destruct (row_get o "quantity"); try done; cbn [add_quantity]; rewrite IH by done; f_equal; lia.
Qed.

(** [reduce] computes the total quantity. *)
Lemma sum_quantities_spec os : Forall integer_quantity os -> sum_quantities os = Some (total_quantity os).
Proof. intros H. unfold sum_quantities. by rewrite sum_quantities_acc. Qed.

Lemma total_quantity_project cols os :
  "quantity" ∈ cols -> total_quantity (map (project cols) os) = total_quantity os.
Proof.
  intros Hc. induction os as [|o os IH]; [done|]. unfold total_quantity in *. cbn [map fold_right].
  rewrite IH. unfold quantity_of. by rewrite row_get_project.
Qed.

Lemma Forall_List_filter {A} (P : A -> Prop) (f : A -> bool) l :
  Forall P l -> Forall P (List.filter f l).
Proof.
  rewrite !List.Forall_forall. intros H x Hx. apply filter_In in Hx as [Hx _]. by apply H.
Qed.

(** One product's line, computed on the projected rows. *)
Lemma product_stat_project ocols pcols orders p :
  "product_name" ∈ ocols -> "quantity" ∈ ocols -> "name" ∈ pcols ->
  Forall integer_quantity orders -> (∃ s, row_get p "name" = JStr s) ->
  product_stat (map (project ocols) orders) (project pcols p) = Some (product_line orders p).
Proof.
  intros Hpn Hq Hn Hos [s Hs]. unfold product_stat, product_line, rows_with.
  rewrite row_get_project, Hs, filter_map_comm by done.
  rewrite (List.filter_ext _ (fun o => bool_decide (row_get o "product_name" = JStr s)))
    by (intros o; by rewrite row_get_project, same_value_zero_str).
  rewrite sum_quantities_spec; [by rewrite total_quantity_project, length_map|].
  apply List.Forall_map, Forall_List_filter. eapply list.Forall_impl; [exact Hos|].
  intros o. unfold integer_quantity. by rewrite row_get_project.
Qed.

Lemma mapM_map_Some {A B C} (f : B -> option C) (h : A -> B) (g : A -> C) l :
  (∀ x, x ∈ l -> f (h x) = Some (g x)) -> mapM f (map h l) = Some (map g l).
Proof.
  induction l as [|x l IH]; intros Hf; [done|]. cbn [map mapM].
  rewrite Hf by (by left). rewrite IH; [done|]. intros y Hy. apply Hf. by right.
Qed.

#[export] Instance by_quantity_desc_total : Total by_quantity_desc.
Proof. intros a b. unfold by_quantity_desc. lia. Qed.

(** A row has one of the values [vs] in column [col]. *)
Definition has_value_in (col : string) (vs : list string) (r : Row) : bool :=
  existsb (fun v => bool_decide (row_get r col = JStr v)) vs.

Lemma sum_list_with_plus {A} (f g : A -> nat) l :
  sum_list_with (fun x => f x + g x) l = sum_list_with f l + sum_list_with g l.
Proof. induction l as [|x l IH]; cbn; lia. Qed.

Lemma sum_list_with_ext {A} (f g : A -> nat) l :
  (∀ x, f x = g x) -> sum_list_with f l = sum_list_with g l.
Proof. intros Hfg. induction l as [|x l IH]; cbn; [done|]. by rewrite Hfg, IH. Qed.

(** Distinct values: a row is counted under at most one of them. *)
Lemma indicator_sum (x : js) vs :
  NoDup vs ->
  sum_list_with (fun v => if bool_decide (x = JStr v) then 1 else 0) vs =
  if existsb (fun v => bool_decide (x = JStr v)) vs then 1 else 0.
Proof.
  induction vs as [|v vs IH]; intros Hnd; [done|]. apply list.NoDup_cons in Hnd as [Hv Hnd].
  cbn [sum_list_with existsb]. rewrite IH by done. case_bool_decide as Hx; cbn [orb]; [|lia].
  subst x. destruct (existsb _ vs) eqn:He; [|done]. exfalso. apply existsb_exists in He as (v' & Hin & Hv').
  apply bool_decide_eq_true in Hv'. injection Hv' as ->. by apply Hv, list_elem_of_In.
Qed.

(** The rows with each of the distinct values [vs], and those with none
    of them, partition the table. *)
Lemma rows_with_partition col vs rs :
  NoDup vs ->
  sum_list_with (fun v => length (rows_with col (JStr v) rs)) vs
  + length (List.filter (fun r => negb (has_value_in col vs r)) rs) = length rs.
Proof.
  intros Hnd. induction rs as [|r rs IH].
  - cbn. clear Hnd. induction vs; cbn; lia.
  - unfold rows_with in *. cbn [List.filter length].
    rewrite (sum_list_with_ext _ (fun v => (if bool_decide (row_get r col = JStr v) then 1 else 0)
                                          + length (List.filter (fun r => bool_decide (row_get r col = JStr v)) rs))).
    2: { intros v. by case_bool_decide. }
    rewrite sum_list_with_plus, indicator_sum by done.
    change (existsb (fun v => bool_decide (row_get r col = JStr v)) vs) with (has_value_in col vs r).
    destruct (has_value_in col vs r); cbn [negb length]; lia.
Qed.

(** Time passing empties the recent orders of any fixed table. *)
Lemma recent_eventually rows : ∃ N, ∀ now, (N <= now)%Z -> List.filter (is_recent now) rows = [].
Proof.
  induction rows as [|o rows [N HN]]; [by exists 0%Z|].
  exists (match row_get o "created_at" with JNum t => Z.max N (t + seven_days + 1) | _ => N end)%Z.
  intros now Hn. cbn [List.filter]. unfold is_recent at 1.
  destruct (row_get o "created_at"); try (apply HN; lia).
  rewrite (proj2 (Z.leb_gt _ _)) by lia. apply HN. lia.
Qed.

(** *** The bars *)

Lemma count_by_rows_with col vs rows :
  count_by col vs rows = map (fun v => (v, length (rows_with col (JStr v) rows))) vs.
Proof.
  unfold count_by, rows_with. apply map_ext. intros v. f_equal. f_equal.
  apply List.filter_ext. intros r. apply same_value_zero_str.
Qed.

(** The counts of distinct values add up to at most the rows. *)
Lemma count_by_sum col vs rows :
  NoDup vs -> sum_list_with snd (count_by col vs rows) <= length rows.
Proof.
  intros Hnd. rewrite count_by_rows_with, <-(rows_with_partition col vs rows Hnd).
  enough (sum_list_with snd (map (fun v => (v, length (rows_with col (JStr v) rows))) vs)
          = sum_list_with (fun v => length (rows_with col (JStr v) rows)) vs) by lia.
  clear Hnd. induction vs as [|v vs IH]; cbn; lia.
Qed.

Lemma Q_of_nat_le m n : m <= n -> (inject_Z (Z.of_nat m) <= inject_Z (Z.of_nat n))%Q.
Proof. intros Hmn. rewrite <-Zle_Qle. lia. Qed.

Lemma Q_of_nat_pos n : 0 < n -> (0 < inject_Z (Z.of_nat n))%Q.
Proof. intros Hn. unfold Qlt. cbn. lia. Qed.

(** A bar is between 0% and 100% wide when its count is at most the total. *)
Lemma pct_bounds c t : c <= t -> (0 <= pct c t <= 100)%Q.
Proof.
  intros Hct. unfold pct. destruct (Nat.ltb_spec 0 t) as [Ht|Ht].
  - pose proof (Q_of_nat_pos t Ht) as HT. split.
    + apply Qmult_le_0_compat; [|discriminate]. apply Qle_shift_div_l; [done|].
      rewrite Qmult_0_l. apply (Q_of_nat_le 0). lia.
    + apply Qle_trans with (1 * 100)%Q; [|discriminate].
      apply Qmult_le_compat_r; [|discriminate]. apply Qle_shift_div_r; [done|].
      rewrite Qmult_1_l. by apply Q_of_nat_le.
  - split; discriminate.
Qed.

Lemma pct_add c d t : (pct c t + pct d t == pct (c + d) t)%Q.
Proof.
  unfold pct. destruct (Nat.ltb_spec 0 t) as [Ht|Ht]; [|reflexivity].
  rewrite Nat2Z.inj_add, inject_Z_plus. field.
  intros Heq. pose proof (Q_of_nat_pos t Ht) as HT. rewrite Heq in HT. discriminate.
Qed.

Lemma pct_0 t : (pct 0 t == 0)%Q.
Proof. unfold pct. destruct (Nat.ltb 0 t); [|reflexivity]. unfold Qdiv. by rewrite !Qmult_0_l. Qed.

(** The guard makes every bar a finite number: the one computed. *)
Lemma percentage_num c t : percentage c t = Num (pct c t).
Proof.
  unfold percentage, pct, js_percent. destruct (Nat.ltb_spec 0 t) as [Ht|Ht]; [|done].
  by rewrite (proj2 (Nat.eqb_neq t 0)) by lia.
Qed.

(** The bars add up to the bar of the sum of the counts. *)
Lemma bars_total_sum cs t : (bars_total (bars cs t) == pct (sum_list_with snd cs) t)%Q.
Proof.
  induction cs as [|[s c] cs IH]; cbn [bars map bars_total fold_right sum_list_with snd fst].
  - symmetry. apply pct_0.
  - fold (bars cs t). change (fold_right _ 0%Q (bars cs t)) with (bars_total (bars cs t)).
    rewrite IH, percentage_num. apply pct_add.
Qed.

(** Counts that add up to at most the total give bars drawn between 0%
    and 100% wide that add up to at most 100%. *)
Lemma bars_bounded cs t :
  sum_list_with snd cs <= t ->
  Forall (fun b => bar_ok b.2) (bars cs t) ∧ (bars_total (bars cs t) <= 100)%Q.
Proof.
  intros Hs. split.
  - induction cs as [|[s c] cs IH]; cbn [bars map]; constructor.
    + cbn [snd]. rewrite percentage_num. apply pct_bounds. cbn in Hs. lia.
    + apply IH. cbn in Hs. lia.
  - rewrite bars_total_sum. by apply pct_bounds.
Qed.

Section Claims.
Context `{Bcrypt, Jwt, Env}.

(** The dashboard with every request answered. *)
Lemma AdminDashboard_answered w :
  w_faults w = [] ->
  AdminDashboard w =
  (w, Ret (dashboard_view (map (project ["id"; "status"; "product_name"; "quantity"; "created_at"]) (t_orders (w_db w)))
                          (map (project ["id"; "status"; "request_type"]) (t_messages (w_db w)))
                          (map (project ["id"]) (t_clients (w_db w)))
                          (map (project ["id"; "name"]) (t_products (w_db w))) (w_now w))).
Proof.
  intros Hf. rewrite AdminDashboard_run. cbv zeta.
  assert (drop_fault w = w) as Hd by (by apply drop_fault_empty).
  by rewrite !Hd, request_ok_empty.
Qed.

(** C34. With every request answered, the dashboard's totals are the
    numbers of rows of the tables, its recent orders those created in
    the last seven days, and its counts per status and per request type
    the numbers of rows holding that value. *)
Theorem AdminDashboard_counts w :
  w_faults w = [] ->
  ∃ v, AdminDashboard w = (w, Ret v) ∧
    total_orders v = length (t_orders (w_db w)) ∧ total_messages v = length (t_messages (w_db w)) ∧
    total_clients v = length (t_clients (w_db w)) ∧
    recent_orders v = length (List.filter (is_recent (w_now w)) (t_orders (w_db w))) ∧
    orders_by_status v = map (fun s => (s, length (rows_with "status" (JStr s) (t_orders (w_db w))))) order_statuses ∧
    messages_by_type v = map (fun t => (t, length (rows_with "request_type" (JStr t) (t_messages (w_db w))))) request_types.
Proof.
  intros Hf. rewrite AdminDashboard_answered by done. eexists. split; [reflexivity|].
  cbn [total_orders total_messages total_clients recent_orders orders_by_status messages_by_type dashboard_view].
  rewrite !length_map, !count_by_project by set_solver. do 3 (split; [done|]). split; [|done].
  by rewrite length_filter_map.
Qed.

(** C33. With every request answered, on an orders table whose
    quantities are integers (or [null]) and products named by strings,
    the ranking shows the first ten of a list that holds, for each
    product, its name, the number of its orders and their total
    quantity, in decreasing order of quantity. *)
Theorem AdminDashboard_ranking w :
  w_faults w = [] -> Forall integer_quantity (t_orders (w_db w)) ->
  Forall (fun p => ∃ s, row_get p "name" = JStr s) (t_products (w_db w)) ->
  ∃ v l, AdminDashboard w = (w, Ret v) ∧ top_products v = Some (take 10 l) ∧
    l ≡ₚ map (product_line (t_orders (w_db w))) (t_products (w_db w)) ∧ Sorted by_quantity_desc l.
Proof.
  intros Hf Hq Hn. rewrite AdminDashboard_answered by done.
  eexists _, (merge_sort by_quantity_desc (map (product_line (t_orders (w_db w))) (t_products (w_db w)))).
  split; [reflexivity|]. split; [|split; [apply merge_sort_Permutation|apply Sorted_merge_sort, by_quantity_desc_total]].
  cbn [top_products dashboard_view]. unfold productStats.
  rewrite (mapM_map_Some _ _ (product_line (t_orders (w_db w)))); [done|].
  intros p Hp. apply product_stat_project; [set_solver..|done|]. rewrite list.Forall_forall in Hn. by apply Hn.
Qed.

(** C32. When the orders request fails and the others are answered, the
    dashboard shows exactly what it shows for an empty orders table: no
    orders, no recent orders, every product with none, and nothing that
    tells the failure apart. *)
Theorem AdminDashboard_orders_failure_hidden w :
  w_faults w = [true] ->
  (AdminDashboard w).2 =
  (AdminDashboard (mkWorld (set_table (w_db w) orders []) [] (w_outbox w) (w_now w) (w_entropy w))).2.
Proof.
  intros Hf. rewrite !AdminDashboard_run. unfold request_ok, drop_fault, next_fault. rewrite Hf.
  cbn. by destruct (w_db w).
Qed.
(** C36. Recent orders expire: from every world whose requests are
    answered, letting time pass (and nothing else happen) reaches a world
    with the same database whose dashboard shows no recent order. *)
Theorem recent_orders_expire w :
  w_faults w = [] ->
  ∃ w', reachable w w' ∧ w_db w' = w_db w ∧
    ∃ v, AdminDashboard w' = (w', Ret v) ∧ recent_orders v = 0.
Proof.
  intros Hf.
  destruct (recent_eventually (map (project ["id"; "status"; "product_name"; "quantity"; "created_at"])
                                   (t_orders (w_db w)))) as [N HN].
  exists (tick w (Z.max 0 (N - w_now w))). split; [apply rtc_once, step_tick; lia|]. split; [done|].
  rewrite AdminDashboard_answered by done. eexists. split; [reflexivity|].
  cbn [recent_orders dashboard_view]. rewrite HN; [done|]. cbn [tick w_now]. lia.
Qed.
(** C35. Under every fault script, each bar of the sections "Ordini per
    Stato" and "Messaggi per Tipo" is a number between 0% and 100% (never
    [NaN]: an empty table, or a failed request, gives bars of width 0 by
    the [length > 0] guard), and each section's bars add up to at most
    100% (exactly the share of the rows whose value is one of the
    section's). *)
Theorem AdminDashboard_bars_bounded w w' v :
  AdminDashboard w = (w', Ret v) ->
  Forall (fun b => bar_ok b.2) (status_bars v ++ type_bars v) ∧
  (bars_total (status_bars v) <= 100)%Q ∧ (bars_total (type_bars v) <= 100)%Q.
Proof.
  rewrite AdminDashboard_run. intros [= _ <-].
  unfold status_bars, type_bars. cbn [dashboard_view orders_by_status messages_by_type total_orders total_messages].
  repeat match goal with
  | |- context [bars (count_by ?col ?vs ?rs) (length ?rs)] =>
      let H1 := fresh in let H2 := fresh in
      destruct (bars_bounded (count_by col vs rs) (length rs)) as [H1 H2];
        [apply count_by_sum; by repeat constructor; set_solver|];
      revert H1 H2; generalize (bars (count_by col vs rs) (length rs)); intros
  end.
  split; [by apply Forall_app|done].
Qed.
End Claims.

Import Crypto.Reference.
From S2P Require Import Fixtures.
Open Scope list_scope.

Lemma AdminDashboard_counts_witness :
  ∃ v, AdminDashboard (world1 []) = (world1 [], Ret v) ∧
    total_orders v = length (t_orders (w_db (world1 []))) ∧ total_messages v = length (t_messages (w_db (world1 []))) ∧
    total_clients v = length (t_clients (w_db (world1 []))) ∧
    recent_orders v = length (List.filter (is_recent (w_now (world1 []))) (t_orders (w_db (world1 [])))) ∧
    orders_by_status v = map (fun s => (s, length (rows_with "status" (JStr s) (t_orders (w_db (world1 [])))))) order_statuses ∧
    messages_by_type v = map (fun t => (t, length (rows_with "request_type" (JStr t) (t_messages (w_db (world1 [])))))) request_types.
Proof. apply AdminDashboard_counts. reflexivity. Defined.

Lemma AdminDashboard_ranking_witness :
  ∃ v l, AdminDashboard (world1 []) = (world1 [], Ret v) ∧ top_products v = Some (take 10 l) ∧
    l ≡ₚ map (product_line (t_orders (w_db (world1 [])))) (t_products (w_db (world1 []))) ∧ Sorted by_quantity_desc l.
Proof.
  apply AdminDashboard_ranking; [reflexivity|repeat constructor|repeat constructor; eexists; reflexivity].
Defined.

(** The one order of [world1] is not counted when its request fails. *)
Lemma AdminDashboard_orders_failure_hidden_witness :
  (AdminDashboard (world1 [true])).2 =
  (AdminDashboard (mkWorld (set_table (w_db (world1 [true])) orders []) [] (w_outbox (world1 [true]))
                           (w_now (world1 [true])) (w_entropy (world1 [true])))).2.
Proof. apply AdminDashboard_orders_failure_hidden. reflexivity. Defined.


(** The order of [world1] was created 100 seconds ago: it is recent now,
    and no longer after a week. *)
Lemma recent_orders_expire_witness :
  recent_orders (match (AdminDashboard (world1 [])).2 with Ret v => v | Throw _ => mkDashboardView 0 0 0 0 [] [] None end) = 1 ∧
  ∃ w', reachable (world1 []) w' ∧ w_db w' = w_db (world1 []) ∧
    ∃ v, AdminDashboard w' = (w', Ret v) ∧ recent_orders v = 0.
Proof. split; [reflexivity|]. apply recent_orders_expire. reflexivity. Defined.

(** The dashboard of the sample shop: its one order is "Appena ordinato",
    a bar 100% wide; on the shop with no order yet, the guard draws every
    status bar 0% wide where [0 / 0] would be [NaN]. *)
Lemma AdminDashboard_bars_bounded_witness :
  (match (AdminDashboard (world0 [])).2 with Ret v0 => map snd (status_bars v0) | Throw _ => [] end)
    = [Num 0; Num 0; Num 0] ∧
  js_percent 0 0 = NaN ∧
  ∃ w' v, AdminDashboard (world1 []) = (w', Ret v) ∧
    map snd (status_bars v) = [Num 100; Num 0; Num 0] ∧
    Forall (fun b => bar_ok b.2) (status_bars v ++ type_bars v) ∧
    (bars_total (status_bars v) <= 100)%Q ∧ (bars_total (type_bars v) <= 100)%Q.
Proof.
  split; [vm_compute; reflexivity|]. split; [reflexivity|].
  rewrite AdminDashboard_answered by reflexivity.
  eexists _, _. split; [reflexivity|]. split; [vm_compute; reflexivity|].
  apply (AdminDashboard_bars_bounded (world1 []) (world1 [])). rewrite AdminDashboard_answered by reflexivity. reflexivity.
Defined.
